(** * Deep Research to Kindle (drk.mjs): model and properties

    A shallow embedding of the orchestrator script [drk.mjs]: model
    resolution, the search of the Downloads folder, the confirmation loop,
    the completion poller, the export, download and delivery stages, and
    [main].

    Conventions of the embedding.
    - JavaScript strings are [string]s holding the UTF-8 bytes of the text.
    - Time is a simulated clock in milliseconds ([Z]).  [sleep] advances it
      by exactly its argument, and so does a [page.waitForTimeout] that
      resolves; every other awaited call, and a [page.waitForTimeout] that
      rejects, completes at the instant it is issued.
    - The browser is a [World]: for each call of the automation surface and
      each instant it gives the value the call resolves to, or the error it
      rejects with.  [page.waitForTimeout] is one of these calls: it
      rejects when the page, the context or the browser has been closed.
    - A run keeps a log: one timestamped entry per console line, per call
      of the automation surface and per sleep, newest first.  A
      [page.waitForTimeout] that resolves is logged as the sleep it is, one
      that rejects as the call that failed.
    - [process.exit] ends the run at once: no [catch] and no [finally]
      block runs after it. *)

From stdpp Require Import gmap strings list.
From Stdlib Require Import ZArith Lia Ascii String.
From Stdlib Require QArith Lqa.

Local Open Scope string_scope.
Local Open Scope Z_scope.

(** ** JavaScript strings *)

Module JsString.

Definition code (c : ascii) : N := N_of_ascii c.

Definition is_upper (c : ascii) : bool :=
  ((65 <=? code c) && (code c <=? 90))%N.

Definition lower_ascii (c : ascii) : ascii :=
  if is_upper c then ascii_of_N (code c + 32) else c.

(** Second byte of a two-byte sequence that starts with 0xC3: the capital
    letters U+00C0..U+00DE, without the multiplication sign U+00D7. *)
Definition is_upper_latin1 (d : ascii) : bool :=
  ((128 <=? code d) && (code d <=? 158) && negb (code d =? 151))%N.

Definition lower_latin1 (d : ascii) : ascii :=
  if is_upper_latin1 d then ascii_of_N (code d + 32) else d.

(** [String.prototype.toLowerCase] on ASCII and on the Latin-1 supplement;
    other code points are left as they are. *)
Fixpoint toLowerCase (s : string) : string :=
  match s with
  | EmptyString => EmptyString
  | String c rest =>
      if (code c =? 195)%N then
        match rest with
        | String d rest' => String c (String (lower_latin1 d) (toLowerCase rest'))
        | EmptyString => String c EmptyString
        end
      else String (lower_ascii c) (toLowerCase rest)
  end.

(** Truthiness of a string: non-empty. *)
Definition truthy (s : string) : bool :=
  match s with EmptyString => false | String _ _ => true end.

(** One position of a pattern: the bytes accepted there. *)
Definition CharClass := list ascii.

Definition in_class (c : ascii) (cl : CharClass) : bool :=
  existsb (fun x => (code x =? code c)%N) cl.

(** The pattern matches a prefix of [s]. *)
Fixpoint match_here (pat : list CharClass) (s : string) : bool :=
  match pat with
  | [] => true
  | cl :: pat' =>
      match s with
      | EmptyString => false
      | String c s' => in_class c cl && match_here pat' s'
      end
  end.

(** The pattern matches somewhere in [s] (an unanchored regular
    expression without repetition). *)
Fixpoint search (pat : list CharClass) (s : string) : bool :=
  match_here pat s ||
  match s with
  | EmptyString => false
  | String _ s' => search pat s'
  end.

(** A literal, byte for byte. *)
Definition lit (s : string) : list CharClass :=
  map (fun c => [c]) (list_ascii_of_string s).

(** A literal of ASCII letters under the [i] flag. *)
Definition lit_i (s : string) : list CharClass :=
  map (fun c => let l := lower_ascii c in [l; ascii_of_N (code l - 32)])
      (list_ascii_of_string s).

(** [s.includes(needle)] *)
Definition includes (s needle : string) : bool := search (lit needle) s.

(** [s.startsWith(p)] *)
Definition startsWith (s p : string) : bool := match_here (lit p) s.

End JsString.

(** ** Models and model resolution *)

Module Models.

Record Model := mkModel {
  key : string;
  label : string;
  geminiName : string;
  testId : string
}.

Definition MODELS : list Model :=
  [ mkModel "1" "⚡ Rápido (Flash)" "Rápido" "bard-mode-option-rápido";
    mkModel "2" "🧠 Raciocínio (Thinking)" "Raciocínio" "bard-mode-option-raciocínio";
    mkModel "3" "🚀 Pro" "Pro" "bard-mode-option-pro" ].

(** The values [resolveModel] can evaluate to: a member of [MODELS],
    [undefined], or a built-in reached through the prototype of the alias
    object. *)
Inductive JsVal :=
| VUndefined
| VModel (m : Model)
| VBuiltin (name : string).

Definition truthy (v : JsVal) : bool :=
  match v with VUndefined => false | _ => true end.

(** [a || b] *)
Definition js_or (a b : JsVal) : JsVal := if truthy a then a else b.

(** [MODELS[i]] *)
Definition MODELS_at (i : nat) : JsVal :=
  match MODELS !! i with
  | Some m => VModel m
  | None => VUndefined
  end.

Definition DEFAULT_MODEL : JsVal := MODELS_at 1.

(** What a plain object inherits from [Object.prototype]. *)
Definition ObjectPrototype : gmap string JsVal :=
  list_to_map
    [ ("constructor", VBuiltin "Object");
      ("__proto__", VBuiltin "Object.prototype");
      ("hasOwnProperty", VBuiltin "Object.prototype.hasOwnProperty");
      ("isPrototypeOf", VBuiltin "Object.prototype.isPrototypeOf");
      ("propertyIsEnumerable", VBuiltin "Object.prototype.propertyIsEnumerable");
      ("toLocaleString", VBuiltin "Object.prototype.toLocaleString");
      ("toString", VBuiltin "Object.prototype.toString");
      ("valueOf", VBuiltin "Object.prototype.valueOf");
      ("__defineGetter__", VBuiltin "Object.prototype.__defineGetter__");
      ("__defineSetter__", VBuiltin "Object.prototype.__defineSetter__");
      ("__lookupGetter__", VBuiltin "Object.prototype.__lookupGetter__");
      ("__lookupSetter__", VBuiltin "Object.prototype.__lookupSetter__") ].

(** [obj[k]] for an object literal with the given own properties: own
    property first, then the prototype, else [undefined]. *)
Definition js_get (own : gmap string JsVal) (k : string) : JsVal :=
  match own !! k with
  | Some v => v
  | None =>
      match ObjectPrototype !! k with
      | Some v => v
      | None => VUndefined
      end
  end.

Definition aliases : gmap string JsVal :=
  list_to_map
    [ ("1", MODELS_at 0); ("flash", MODELS_at 0);
      ("rapido", MODELS_at 0); ("rápido", MODELS_at 0);
      ("2", MODELS_at 1); ("thinking", MODELS_at 1);
      ("raciocinio", MODELS_at 1); ("raciocínio", MODELS_at 1);
      ("3", MODELS_at 2); ("pro", MODELS_at 2) ].

(** [modelArg] is [None] when the variable is [undefined]. *)
Definition resolveModel (modelArg : option string) : JsVal :=
  match modelArg with
  | None => DEFAULT_MODEL
  | Some s =>
      if negb (JsString.truthy s) then DEFAULT_MODEL
      else
        let lower := JsString.toLowerCase s in
        js_or (js_get aliases lower) DEFAULT_MODEL
  end.

(** [`${model.f}`] inside a template literal: a missing property prints
    as [undefined]. *)
Definition show_prop (f : Model -> string) (v : JsVal) : string :=
  match v with
  | VModel m => f m
  | _ => "undefined"
  end.

Definition is_model (v : JsVal) : Prop := exists m, In m MODELS /\ v = VModel m.

End Models.

(** ** Runs of the script: errors, outcomes, the simulated world *)

Module Js.

(** An [Error] object. *)
Record JsError := mkError { err_name : string; err_message : string }.

(** How a promise settles. *)
Inductive Res (A : Type) : Type :=
| Ok (a : A)
| Err (e : JsError).
Arguments Ok {A} a.
Arguments Err {A} e.

(** A page of the browser context. *)
Inductive PageRef := Page (id : nat).

(** The locators the script builds, each named after the element it
    looks for. *)
Inductive Locator :=
| ModelDropdownIcon            (* mat-icon.dropdown-icon, fonticon keyboard_arrow_down *)
| ModelOption (testId : string)  (* button with data-test-id testId *)
| ToolsButton                  (* getByRole button, name /Ferramentas/i *)
| DeepResearchItem             (* text=/Deep Research/i *)
| QueryInput                   (* the rich-textarea, textarea or textbox of the prompt *)
| RoleButton (name : string)   (* getByRole button, name /name/i, first *)
| LooseStartButton             (* button:has-text Iniciar or Start, first *)
| ResearchIndicators           (* text=/Pesquisando|Researching|Analisando|Analyzing/i *)
| ExportMenuButton             (* button with data-test-id export-menu-button *)
| ExportToDocsButton           (* button with data-test-id export-to-docs-button *)
| DocsLink                     (* a link whose href contains docs.google.com/document *)
| OpenDocumentToast            (* text=/Abrir documento|Open document|Abrir no Docs|Open in Docs/i *)
| DocsFileMenu                 (* #docs-file-menu *)
| Css (selector : string)      (* docsPage.locator(selector).first() *)
| DownloadText                 (* getByText /Fazer download|Baixar|Download/i, first *)
| EpubOption                   (* getByText /EPUB/i, first *)
| UploadButton                 (* #s2k-dnd-add-your-files-button or its text variants *)
| SendButton                   (* #s2k-r2s-send-button or its text variants *)
| SuccessText.                 (* text=/enviado|sent|sucesso|success|entregue|delivered/i *)

(** The calls of the automation surface. *)
Inductive Call :=
| CLaunch (profile : string)
| CPages
| CNewPage
| CGoto (p : PageRef) (url : string)
| CWaitFor (p : PageRef) (l : Locator) (timeout : Z)
| CClick (p : PageRef) (l : Locator)
| CFill (p : PageRef) (l : Locator) (text : string)
| CPress (p : PageRef) (key : string)
| CIsVisible (p : PageRef) (l : Locator)
| CInnerText (p : PageRef) (l : Locator)
| CGetAttribute (p : PageRef) (l : Locator) (attr : string)
| CEvalChip (p : PageRef)
| CEvalReport (p : PageRef)
| CUrl (p : PageRef)
| CWaitForPage (timeout : Z)
| CWaitForDownload (p : PageRef) (timeout : Z)
| CWaitForFileChooser (p : PageRef) (timeout : Z)
| CWaitForLoadState (p : PageRef)
| CWaitForTimeout (p : PageRef) (ms : Z)
| CSuggestedFilename
| CSaveAs (path : string)
| CSetFiles (path : string)
| CClosePage (p : PageRef)
| CScreenshot (p : PageRef) (path : string)
| CCloseContext.

(** What a call resolves to. *)
Inductive Value :=
| VUnit
| VNull
| VBool (b : bool)
| VStr (s : string)
| VNum (n : Z)
| VPage (p : PageRef)
| VPages (ps : list PageRef).

Definition as_bool (v : Value) : bool :=
  match v with VBool b => b | VUnit | VNull => false | VStr s => JsString.truthy s
             | VNum n => negb (n =? 0) | VPage _ | VPages _ => true end.
Definition as_str (v : Value) : string :=
  match v with VStr s => s | _ => "" end.
Definition as_num (v : Value) : Z :=
  match v with VNum n => n | _ => 0 end.
Definition as_pages (v : Value) : list PageRef :=
  match v with VPages ps => ps | _ => [] end.
Definition as_page (v : Value) : option PageRef :=
  match v with VPage p => Some p | _ => None end.

(** The browser and the sites behind it: what each call settles to at
    each instant. *)
Definition World := Z -> Call -> Res Value.

(** The lines the script prints.  [Text] is a line without
    interpolation; each other constructor stands for one template of the
    script and carries what the template interpolates. *)
Inductive Msg :=
| Text (s : string)
| MProfile (path : string)                        (* Perfil: path *)
| MSelectingModel (name : string)                 (* Selecionando modelo: name... *)
| MModelSelected (name : string)                  (* Modelo name selecionado. *)
| MModelError (message : string)                  (* Erro ao selecionar modelo: message *)
| MSendingQuery (query : string)                  (* Enviando query: the first 60 characters *)
| MButtonFound (name : string)                    (* Botão encontrado: the label *)
| MButtonFoundLoose (text : string)               (* Botão encontrado (loose): text *)
| MStatusDetected (chipStatus : string)           (* Status detectado: chipStatus *)
| MDoneByStatus (chipStatus : string) (elapsed : Z)  (* Pesquisa concluída! Status: chipStatus (elapsed s) *)
| MPollingStatus (elapsed : Z) (chipStatus : string) (* Polling... (elapsed s) — Status: chipStatus *)
| MPolling (elapsed : Z)                          (* Polling... (elapsed s) *)
| MDoneByLength (reportLength : Z) (elapsed : Z)  (* Pesquisa concluída! Relatório com reportLength caracteres. (elapsed s) *)
| MLinkFound (href : string)                      (* Link encontrado: href *)
| MDocsOpened (url : string)                      (* Google Docs aberto: the first 60 characters of url *)
| MEpubDownloaded (name : string)                 (* EPUB baixado: name *)
| MPath (path : string)                           (* Caminho: path *)
| MNavigatingTo (url : string)                    (* Navegando para url... *)
| MUrl (url : string)                             (* URL: url *)
| MModel (label : string)                         (* Modelo: label *)
| MEpub (path : string)                           (* EPUB: path *)
| MError (message : string).                      (* Erro: message *)

(** The printing functions: [log], [logStep], [logSub], [console.log()]
    with no argument, [console.log] of the usage text, and
    [console.error]. *)
Inductive Line :=
| Log (m : Msg)
| LogStep (step : Z) (m : Msg)
| LogSub (m : Msg)
| ConsoleBlank
| ConsoleHelp
| ConsoleError (e : JsError).

(** What a run does that can be observed: it prints a line, calls the
    automation surface, or sleeps. *)
Inductive Event :=
| EPrint (l : Line)
| ECall (c : Call)
| ESleep (ms : Z).

(** The clock and the log, newest entry first; each entry carries the
    instant at which it was made. *)
Record State := mkState {
  now : Z;
  log : list (Z * Event)
}.

(** How a computation ends: it returns, throws, ends the process with
    [process.exit], awaits a promise that never settles, or (a loop of
    the model only) runs out of fuel. *)
Inductive Outcome (A : Type) : Type :=
| Ret (a : A)
| Throw (e : JsError)
| Exit (code : Z)
| Hang
| OutOfFuel.
Arguments Ret {A} a.
Arguments Throw {A} e.
Arguments Exit {A} code.
Arguments Hang {A}.
Arguments OutOfFuel {A}.

Definition M (A : Type) : Type := State -> Outcome A * State.

Definition ret {A} (a : A) : M A := fun st => (Ret a, st).

Definition bind {A B} (m : M A) (k : A -> M B) : M B :=
  fun st =>
    match m st with
    | (Ret a, st') => k a st'
    | (Throw e, st') => (Throw e, st')
    | (Exit c, st') => (Exit c, st')
    | (Hang, st') => (Hang, st')
    | (OutOfFuel, st') => (OutOfFuel, st')
    end.

Definition throw {A} (e : JsError) : M A := fun st => (Throw e, st).

(** [process.exit(code)] *)
Definition process_exit {A} (code : Z) : M A := fun st => (Exit code, st).

(** [await new Promise(() => { })] *)
Definition never {A} : M A := fun st => (Hang, st).

Definition out_of_fuel {A} : M A := fun st => (OutOfFuel, st).

(** [try { m } catch (e) { h e }] *)
Definition try_catch {A} (m : M A) (h : JsError -> M A) : M A :=
  fun st =>
    match m st with
    | (Throw e, st') => h e st'
    | r => r
    end.

(** [try { m } finally { f }]: [f] runs when [m] returns or throws. *)
Definition try_finally {A} (m : M A) (f : M unit) : M A :=
  fun st =>
    match m st with
    | (Ret a, st') => bind f (fun _ => ret a) st'
    | (Throw e, st') => bind f (fun _ => throw e) st'
    | r => r
    end.

Definition date_now : M Z := fun st => (Ret (now st), st).

Definition emit (e : Event) : M unit :=
  fun st => (Ret tt, mkState (now st) ((now st, e) :: log st)).

(** [sleep(ms)]: the timer of the script. *)
Definition sleep (ms : Z) : M unit :=
  fun st => (Ret tt, mkState (now st + ms) ((now st, ESleep ms) :: log st)).

(** [console.log], [console.error] and the logging helpers built on
    them. *)
Definition console (l : Line) : M unit := emit (EPrint l).

(** Whatever a computation does, the entries already in the log stay. *)
Definition grows {A} (m : M A) : Prop :=
  forall st o st', m st = (o, st') -> exists l, log st' = (l ++ log st)%list.

End Js.

Declare Scope run_scope.
Delimit Scope run_scope with run.
Notation "x <- m ;; k" := (Js.bind m (fun x => k))
  (at level 100, m at next level, k at level 200, right associativity) : run_scope.
Notation "m ;; k" := (Js.bind m (fun _ => k))
  (at level 100, k at level 200, right associativity) : run_scope.

(** ** The script *)

Module Drk.
Import Js.
Local Open Scope run_scope.

(** *** Control flow *)

(** How one iteration of a loop ends: fall through to the next
    iteration ([continue] or the end of the body), [break], or [return]
    from the enclosing function.  [V] is the type of the variables the
    loop assigns. *)
Inductive Ctl (V R : Type) : Type :=
| Next (v : V)
| Break (v : V)
| Return (r : R).
Arguments Next {V R} v.
Arguments Break {V R} v.
Arguments Return {V R} r.

Inductive LoopEnd (V R : Type) : Type :=
| Done (v : V)
| Returned (r : R).
Arguments Done {V R} v.
Arguments Returned {V R} r.

(** [while (cond) { body }] *)
Fixpoint while_ {V R} (fuel : nat) (cond : V -> M bool)
    (body : V -> M (Ctl V R)) (v : V) : M (LoopEnd V R) :=
  match fuel with
  | O => out_of_fuel
  | S fuel' =>
      b <- cond v ;;
      if b then
        c <- body v ;;
        match c with
        | Next v' => while_ fuel' cond body v'
        | Break v' => ret (Done v')
        | Return r => ret (Returned r)
        end
      else ret (Done v)
  end.

(** [for (const x of l) { body }] *)
Fixpoint for_of {A V R} (l : list A) (body : A -> V -> M (Ctl V R))
    (v : V) : M (LoopEnd V R) :=
  match l with
  | [] => ret (Done v)
  | x :: l' =>
      c <- body x v ;;
      match c with
      | Next v' => for_of l' body v'
      | Break v' => ret (Done v')
      | Return r => ret (Returned r)
      end
  end.

(** Iterations a loop can make when it runs while less than [bound]
    milliseconds have passed and sleeps at least [step] in each
    iteration that falls through, and one more for the test that ends
    it. *)
Definition loop_fuel (bound step : Z) : nat := S (Z.to_nat (bound / step)).

(** *** Config *)

(** [~] stands for [homedir()]. *)
Definition PROFILE_DIR : string := "~/.drk-profile".
Definition DOWNLOADS_DIR : string := "~/Downloads".
Definition GEMINI_URL : string := "https://gemini.google.com/app".
Definition SEND_TO_KINDLE_URL : string := "https://www.amazon.com.br/sendtokindle".

Definition TOTAL_STEPS : Z := 7.

Definition POLL_INTERVAL_MS : Z := 30000.
Definition MAX_POLL_TIME_MS : Z := 15 * 60000.

(** The segments of a path: the text between its slashes. *)
Fixpoint segments_from (cur s : string) : list string :=
  match s with
  | EmptyString => [cur]
  | String c s' =>
      if Ascii.eqb c "/"%char then cur :: segments_from "" s'
      else segments_from (cur +:+ String c EmptyString) s'
  end.

Definition segments (s : string) : list string := segments_from "" s.

(** [normalizeString]: the segments of a path are pushed on the stack
    of those resolved so far (last one first); an empty segment and [.]
    are dropped and [..] takes the last segment away.  [floor] is the
    number of segments [..] cannot take away: those of a base that
    stands for a directory whose real path is not known; above it [..]
    is kept. *)
Fixpoint normalize (floor : nat) (stack segs : list string) : list string :=
  match segs with
  | [] => stack
  | seg :: rest =>
      if String.eqb seg "" || String.eqb seg "." then normalize floor stack rest
      else if String.eqb seg ".." then
        match stack with
        | top :: below =>
            if (List.length stack <=? floor)%nat || String.eqb top ".."
            then normalize floor (seg :: stack) rest
            else normalize floor below rest
        | [] => normalize floor stack rest
        end
      else normalize floor (seg :: stack) rest
  end.

Fixpoint join_path (segs : list string) : string :=
  match segs with
  | [] => ""
  | [a] => a
  | a :: rest => a +:+ "/" +:+ join_path rest
  end.

(** [path.resolve(base, rel)] (POSIX) for a [base] that is absolute and
    normalised: an absolute [rel] is normalised on its own, a relative
    one goes on from the segments of [base].  The first segment of
    [base] stands for a directory of the machine ([~] for [homedir()],
    [.] for [process.cwd()]) and is the floor. *)
Definition path_resolve (base rel : string) : string :=
  if JsString.startsWith rel "/"
  then "/" +:+ join_path (rev (normalize 0 [] (segments rel)))
  else join_path (rev (normalize 1 (rev (segments base)) (segments rel))).

(** The double quote, and a text between double quotes. *)
Definition dq : string := String "034"%char EmptyString.
Definition quoted (s : string) : string := dq +:+ s +:+ dq.

(** [/Conclu[íi]do|Completed/i]: the alternatives, with U+00ED and
    U+00CD as the byte pairs C3 AD and C3 8D. *)
Definition DONE_RE : list (list JsString.CharClass) :=
  [ (JsString.lit_i "conclu" ++ [["195"%char]; ["173"%char; "141"%char]] ++ JsString.lit_i "do")%list;
    (JsString.lit_i "conclu" ++ JsString.lit_i "i" ++ JsString.lit_i "do")%list;
    JsString.lit_i "completed" ].

(** [re.test(s)] *)
Definition re_test (re : list (list JsString.CharClass)) (s : string) : bool :=
  existsb (fun alt => JsString.search alt s) re.

Definition isDone (s : string) : bool := re_test DONE_RE s.

(** [Math.round(ms / 1000)] *)
Definition round_seconds (ms : Z) : Z := (ms + 500) / 1000.

Section WithWorld.
Variable w : World.

(** *** The automation surface *)

(** Start a call: it is logged and settles as the world says. *)
Definition issue (c : Call) : M (Res Value) :=
  fun st => (Ret (w (now st) c), mkState (now st) ((now st, ECall c) :: log st)).

(** [await p] *)
Definition await (r : Res Value) : M Value :=
  match r with
  | Ok v => ret v
  | Err e => throw e
  end.

Definition call (c : Call) : M Value := r <- issue c ;; await r.

(** [await p.catch(() => d)] *)
Definition or_default (r : Res Value) (d : Value) : Value :=
  match r with
  | Ok v => v
  | Err _ => d
  end.

(** [await Promise.all([a, b])], the first rejection in the order of
    the array. *)
Definition await_both (a b : Res Value) : M (Value * Value) :=
  va <- await a ;;
  vb <- await b ;;
  ret (va, vb).

(** How a call issued now settles, without an entry in the log. *)
Definition answer (c : Call) : M (Res Value) :=
  fun st => (Ret (w (now st) c), st).

(** [await page.waitForTimeout(ms)]: a timer of the page.  It resolves
    after [ms], or rejects (the page, the context or the browser has
    been closed). *)
Definition waitForTimeout (p : PageRef) (ms : Z) : M unit :=
  r <- answer (CWaitForTimeout p ms) ;;
  match r with
  | Ok _ => sleep ms
  | Err e => emit (ECall (CWaitForTimeout p ms)) ;; throw e
  end.

Definition log_ (m : Msg) : M unit := console (Log m).
Definition logStep (step : Z) (m : Msg) : M unit := console (LogStep step m).
Definition logSub (m : Msg) : M unit := console (LogSub m).

(** *** Browser helpers *)

Definition launchBrowser (profilePath : option string) : M PageRef :=
  let profilePath := default PROFILE_DIR profilePath in
  logStep 1 (Text "🚀 Lançando navegador...") ;;
  logSub (MProfile profilePath) ;;
  call (CLaunch profilePath) ;;
  ps <- call CPages ;;
  page <- match as_pages ps with
          | p :: _ => ret p
          | [] => np <- call CNewPage ;; ret (default (Page 0) (as_page np))
          end ;;
  logSub (Text "✅ Navegador pronto.") ;;
  ret page.

Definition navigateToGemini (page : PageRef) (url : string) : M unit :=
  logStep 2 (Text "🌐 Navegando para o Gemini...") ;;
  call (CGoto page url) ;;
  waitForTimeout page 3000 ;;
  logSub (Text "✅ Gemini carregado.").

(** *** Model selection *)

Definition selectModel (page : PageRef) (model : Models.JsVal) : M unit :=
  logStep 3 (MSelectingModel (Models.show_prop Models.geminiName model)) ;;
  try_catch
    (call (CWaitFor page ModelDropdownIcon 10000) ;;
     call (CClick page ModelDropdownIcon) ;;
     waitForTimeout page 1500 ;;
     logSub (Text "Menu de modelos aberto.") ;;
     let modelOption := ModelOption (Models.show_prop Models.testId model) in
     call (CWaitFor page modelOption 5000) ;;
     call (CClick page modelOption) ;;
     waitForTimeout page 1000 ;;
     logSub (MModelSelected (Models.show_prop Models.geminiName model)))
    (fun err =>
       logSub (MModelError (err_message err)) ;;
       logSub (Text "Continuando com modelo padrão...")).

(** *** Deep Research flow *)

Definition enableDeepResearch (page : PageRef) : M unit :=
  logSub (Text "🔬 Ativando Deep Research...") ;;
  try_catch
    (call (CWaitFor page ToolsButton 10000) ;;
     call (CClick page ToolsButton) ;;
     waitForTimeout page 1500 ;;
     call (CWaitFor page DeepResearchItem 5000) ;;
     call (CClick page DeepResearchItem) ;;
     waitForTimeout page 2000 ;;
     logSub (Text "✅ Deep Research ativado."))
    (fun err =>
       logSub (Text "⚠️ Botão de Deep Research não encontrado. Continuando pesquisa normal...")).

Definition submitQuery (page : PageRef) (query : string) : M unit :=
  logStep 4 (MSendingQuery query) ;;
  call (CWaitFor page QueryInput 15000) ;;
  call (CClick page QueryInput) ;;
  call (CFill page QueryInput query) ;;
  waitForTimeout page 1000 ;;
  logSub (Text "Pressionando Enter...") ;;
  call (CPress page "Enter") ;;
  waitForTimeout page 2000 ;;
  logSub (Text "✅ Query enviada.").

Definition possibleButtons : list string :=
  [ "Iniciar investigação"; "Start investigation"; "Iniciar pesquisa";
    "Start research"; "Looks good"; "Confirmar" ].

(** The body of [for (const label of possibleButtons)]. *)
Definition confirm_try_label (page : PageRef) (label : string) (_ : unit)
    : M (Ctl unit unit) :=
  let btn := RoleButton label in
  visible <- call (CIsVisible page btn) ;;
  if as_bool visible then
    logSub (MButtonFound label) ;;
    call (CClick page btn) ;;
    logSub (Text "✅ Pesquisa iniciada (plano confirmado).") ;;
    waitForTimeout page 5000 ;;
    ret (Return tt)
  else ret (Next tt).

(** The block guarded by [try] in the confirmation loop, for any list
    of labels. *)
Definition confirm_attempt (labels : list string) (page : PageRef)
    : M (Ctl unit unit) :=
  r <- for_of labels (confirm_try_label page) tt ;;
  match r with
  | Returned x => ret (Return x)
  | Done _ =>
      visible <- call (CIsVisible page LooseStartButton) ;;
      if as_bool visible then
        t <- call (CInnerText page LooseStartButton) ;;
        let text := as_str t in
        if JsString.includes text "investiga" || JsString.includes text "pesquisa" then
          logSub (MButtonFoundLoose text) ;;
          call (CClick page LooseStartButton) ;;
          waitForTimeout page 5000 ;;
          ret (Return tt)
        else ret (Next tt)
      else ret (Next tt)
  end.

(** The body of the confirmation [while]. *)
Definition confirm_iteration (page : PageRef) (_ : unit) : M (Ctl unit unit) :=
  c <- try_catch (confirm_attempt possibleButtons page) (fun _ => ret (Next tt)) ;;
  match c with
  | Next _ => waitForTimeout page 2000 ;; ret (Next tt)
  | other => ret other
  end.

Definition confirmResearchStart (page : PageRef) : M unit :=
  logSub (Text ("🔍 Procurando botão " +:+ quoted "Iniciar investigação" +:+ "...")) ;;
  startTime <- date_now ;;
  let maxWait := 60000 in
  r <- while_ (loop_fuel maxWait 2000)
         (fun _ => t <- date_now ;; ret (t - startTime <? maxWait))
         (confirm_iteration page) tt ;;
  match r with
  | Returned _ => ret tt
  | Done _ => logSub (Text "⚠️  Nenhum botão de confirmação encontrado após 60s.")
  end.

(** *** Observations on runs of the confirmation stage *)

(** A [page.waitForTimeout(ms)] issued at instant [t] resolves. *)
Definition wait_resolves (page : PageRef) (ms t : Z) : bool :=
  match w t (CWaitForTimeout page ms) with
  | Ok _ => true
  | Err _ => false
  end.

(** [isVisible] resolves to [true] for locator [l] at instant [t]. *)
Definition sees (page : PageRef) (l : Locator) (t : Z) : bool :=
  as_bool (or_default (w t (CIsVisible page l)) (VBool false)).

(** The loosely matched button is visible at [t] and its text names
    the investigation. *)
Definition looseMatches (page : PageRef) (t : Z) : bool :=
  sees page LooseStartButton t &&
  match w t (CInnerText page LooseStartButton) with
  | Ok v => JsString.includes (as_str v) "investiga"
            || JsString.includes (as_str v) "pesquisa"
  | Err _ => false
  end.

(** A confirmation button is there to click at [t]. *)
Definition button_seen (labels : list string) (page : PageRef) (t : Z) : Prop :=
  (exists label, In label labels /\ sees page (RoleButton label) t = true) \/
  looseMatches page t = true.

(** How one attempt of the confirmation loop, or a part of it, can end
    when started in [st]: it falls through or throws at the instant it
    started, or it returns after a click and then a button was seen. *)
Definition attempt_ends {V} (page : PageRef) (labels : list string) (st : State)
    (r : Outcome (Ctl V unit) * State) : Prop :=
  match r with
  | (Ret (Next _), st') | (Throw _, st') => now st' = now st
  | (Ret (Return _), st') => button_seen labels page (now st)
  | _ => False
  end.

(** No confirmation button is seen at any of the 30 polls of a
    confirmation stage that starts at [t0]. *)
Definition no_confirm_button (page : PageRef) (t0 : Z) : Prop :=
  forall k, 0 <= k < 30 -> ~ button_seen possibleButtons page (t0 + 2000 * k).

(** The wait after each of the 30 polls of a confirmation stage that
    starts at [t0] resolves. *)
Definition polls_wait (page : PageRef) (t0 : Z) : Prop :=
  forall k, 0 <= k < 30 -> wait_resolves page 2000 (t0 + 2000 * k) = true.

Definition NO_BUTTON_LINE : Event :=
  EPrint (LogSub (Text "⚠️  Nenhum botão de confirmação encontrado após 60s.")).

(** The probes of a list of locators at one instant, as they appear in
    the log (newest first). *)
Definition probes (page : PageRef) (ls : list Locator) (t : Z) : list (Z * Event) :=
  rev (map (fun l => (t, ECall (CIsVisible page l))) ls).

(** [page.evaluate] of the status-chip probe, with its [.catch]. *)
Definition readChip (page : PageRef) : M string :=
  r <- issue (CEvalChip page) ;;
  ret (as_str (or_default r (VStr ""))).

(** [page.evaluate] of the report-length probe, with its [.catch]. *)
Definition readReportLength (page : PageRef) : M Z :=
  r <- issue (CEvalReport page) ;;
  ret (as_num (or_default r (VNum 0))).

(** What the probes of the poller read at instant [t]. *)
Definition chipAt (page : PageRef) (t : Z) : string :=
  as_str (or_default (w t (CEvalChip page)) (VStr "")).
Definition reportAt (page : PageRef) (t : Z) : Z :=
  as_num (or_default (w t (CEvalReport page)) (VNum 0)).
Definition indicatorAt (page : PageRef) (t : Z) : bool :=
  as_bool (or_default (w t (CIsVisible page ResearchIndicators)) (VBool false)).

(** The body of the phase 1 [while]; the loop variable is
    [researchStarted]. *)
Definition phase1_iteration (page : PageRef) (researchStarted : bool)
    : M (Ctl bool Empty_set) :=
  chipStatus <- readChip page ;;
  if JsString.truthy chipStatus then
    logSub (MStatusDetected chipStatus) ;;
    if isDone chipStatus then
      logSub (Text "✅ Pesquisa já concluída!") ;;
      ret (Break true)
    else ret (Break true)
  else
    r <- issue (CIsVisible page ResearchIndicators) ;;
    if as_bool (or_default r (VBool false)) then
      logSub (Text "Atividade de pesquisa detectada.") ;;
      ret (Break true)
    else
      sleep 5000 ;;
      ret (Next researchStarted).

(** The body of the phase 2 [while]. *)
Definition phase2_iteration (page : PageRef) (startTime minWaitUntil : Z)
    (_ : unit) : M (Ctl unit bool) :=
  t <- date_now ;;
  let elapsed := round_seconds (t - startTime) in
  chipStatus <- readChip page ;;
  if isDone chipStatus then
    sleep 5000 ;;
    logSub (MDoneByStatus chipStatus elapsed) ;;
    ret (Return true)
  else if JsString.truthy chipStatus && negb (isDone chipStatus) then
    logSub (MPollingStatus elapsed chipStatus) ;;
    sleep POLL_INTERVAL_MS ;;
    ret (Next tt)
  else
    t' <- date_now ;;
    if t' <? minWaitUntil then
      logSub (MPolling elapsed) ;;
      sleep 10000 ;;
      ret (Next tt)
    else
      reportLength <- readReportLength page ;;
      if reportLength >? 500 then
        logSub (MDoneByLength reportLength elapsed) ;;
        ret (Return true)
      else
        logSub (MPolling elapsed) ;;
        sleep POLL_INTERVAL_MS ;;
        ret (Next tt).

Definition phase1 (page : PageRef) : M bool :=
  t0 <- date_now ;;
  let phase1Deadline := t0 + 120000 in
  r <- while_ (loop_fuel 120000 5000)
         (fun _ => t <- date_now ;; ret (t <? phase1Deadline))
         (phase1_iteration page) false ;;
  match r with
  | Done researchStarted => ret researchStarted
  | Returned e => match e with end
  end.

Definition phase2 (page : PageRef) (startTime : Z) : M bool :=
  t1 <- date_now ;;
  let minWaitUntil := t1 + 60000 in
  r <- while_ (loop_fuel MAX_POLL_TIME_MS 10000)
         (fun _ => t <- date_now ;; ret (t - startTime <? MAX_POLL_TIME_MS))
         (phase2_iteration page startTime minWaitUntil) tt ;;
  match r with
  | Returned b => ret b
  | Done _ =>
      logSub (Text "⚠️  Tempo máximo de polling atingido.") ;;
      ret false
  end.

Definition pollForCompletion (page : PageRef) : M bool :=
  logSub (Text "⏳ Aguardando conclusão da pesquisa...") ;;
  startTime <- date_now ;;
  logSub (Text "Fase 1: Detectando início da pesquisa...") ;;
  researchStarted <- phase1 page ;;
  (if negb researchStarted
   then logSub (Text "⚠️  Não detectou início. Continuando polling...")
   else ret tt) ;;
  logSub (Text "Fase 2: Aguardando conclusão...") ;;
  phase2 page startTime.

(** *** Observations on runs of the poller *)

Definition TIMEOUT_LINE : Event :=
  EPrint (LogSub (Text "⚠️  Tempo máximo de polling atingido.")).
Definition PHASE2_LINE : Event :=
  EPrint (LogSub (Text "Fase 2: Aguardando conclusão...")).
Definition NOT_DETECTED_LINE : Event :=
  EPrint (LogSub (Text "⚠️  Não detectou início. Continuando polling...")).

(** Phase 2, entered in [st0], ended in [st'] through the done status
    read at some instant [t]: the last three entries of the log are the
    probe, the settle delay and the success line. *)
Definition by_status (page : PageRef) (startTime : Z) (st0 st' : State) : Prop :=
  exists t rest,
    now st0 <= t /\ t - startTime < MAX_POLL_TIME_MS /\
    isDone (chipAt page t) = true /\
    now st' = t + 5000 /\
    log st' =
      (t + 5000, EPrint (LogSub (MDoneByStatus (chipAt page t)
                                   (round_seconds (t - startTime)))))
      :: (t, ESleep 5000) :: (t, ECall (CEvalChip page)) :: rest.

(** Phase 2 ended through the length of the report, read at the instant
    it returns. *)
Definition by_length (page : PageRef) (startTime : Z) (st0 st' : State) : Prop :=
  exists rest,
    now st0 + 60000 <= now st' /\ now st' - startTime < MAX_POLL_TIME_MS /\
    chipAt page (now st') = "" /\
    500 < reportAt page (now st') /\
    log st' =
      (now st', EPrint (LogSub (MDoneByLength (reportAt page (now st'))
                                  (round_seconds (now st' - startTime)))))
      :: (now st', ECall (CEvalReport page))
      :: (now st', ECall (CEvalChip page)) :: rest.

(** Phase 2 ended at the test of the loop. *)
Definition timed_out (startTime : Z) (st' : State) : Prop :=
  MAX_POLL_TIME_MS <= now st' - startTime /\
  now st' - startTime < MAX_POLL_TIME_MS + POLL_INTERVAL_MS /\
  exists rest, log st' = (now st', TIMEOUT_LINE) :: rest.

Definition POLL_OPENING_LINE : Event :=
  EPrint (LogSub (Text "⏳ Aguardando conclusão da pesquisa...")).

(** Nothing is observed at any of the 24 checks of a discovery window
    that opens at [t0]. *)
Definition quiet_window (page : PageRef) (t0 : Z) : Prop :=
  forall k, 0 <= k < 24 ->
    chipAt page (t0 + 5000 * k) = "" /\
    indicatorAt page (t0 + 5000 * k) = false.

(** *** Export to Google Docs *)

(** The body of [for (const p of pages)]; the loop variable is
    [docsPage]. *)
Definition export_scan_page (p : PageRef) (docsPage : option PageRef)
    : M (Ctl (option PageRef) Empty_set) :=
  u <- call (CUrl p) ;;
  if JsString.includes (as_str u) "docs.google.com/document"
  then ret (Break (Some p))
  else ret (Next docsPage).

(** The body of the [while] that waits for the document; the loop
    variable is [docsPage]. *)
Definition export_iteration (page : PageRef) (docsPage : option PageRef)
    : M (Ctl (option PageRef) Empty_set) :=
  ps <- call CPages ;;
  r <- for_of (as_pages ps) export_scan_page docsPage ;;
  let docsPage := match r with Done d => d | Returned e => match e with end end in
  match docsPage with
  | Some _ => ret (Break docsPage)
  | None =>
    c <- try_catch
           (r <- issue (CIsVisible page DocsLink) ;;
            if as_bool (or_default r (VBool false)) then
              h <- call (CGetAttribute page DocsLink "href") ;;
              let href := as_str h in
              logSub (MLinkFound href) ;;
              np <- call CNewPage ;;
              let docsPage := as_page np in
              (* the assignment to [docsPage] is kept when [goto] throws *)
              try_catch
                (call (CGoto (default page docsPage) href) ;;
                 ret (Break docsPage))
                (fun _ => ret (Next docsPage))
            else ret (Next docsPage))
           (fun _ => ret (Next docsPage)) ;;
    match c with
    | Next d => sleep 2000 ;; ret (Next d)
    | other => ret other
    end
  end.

Definition exportToGoogleDocs (page : PageRef) : M PageRef :=
  logStep 5 (Text "📤 Exportando para o Google Docs...") ;;
  logSub (Text ("Clicando " +:+ quoted "Compartilhar e exportar" +:+ "...")) ;;
  call (CWaitFor page ExportMenuButton 10000) ;;
  call (CClick page ExportMenuButton) ;;
  waitForTimeout page 1500 ;;
  logSub (Text "✅ Menu aberto.") ;;
  logSub (Text ("Clicando " +:+ quoted "Exportar para o Google Docs" +:+ "...")) ;;
  call (CWaitFor page ExportToDocsButton 5000) ;;
  call (CClick page ExportToDocsButton) ;;
  logSub (Text "✅ Exportação iniciada.") ;;
  logSub (Text "Aguardando Google Docs abrir...") ;;
  let maxWait := 30000 in
  startTime <- date_now ;;
  r <- while_ (loop_fuel maxWait 2000)
         (fun _ => t <- date_now ;; ret (t - startTime <? maxWait))
         (export_iteration page) None ;;
  let docsPage := match r with Done d => d | Returned e => match e with end end in
  docsPage <-
    match docsPage with
    | Some d => ret d
    | None =>
        logSub (Text ("Procurando botão " +:+ quoted "Abrir documento" +:+ " no toast...")) ;;
        try_catch
          (call (CWaitFor page OpenDocumentToast 10000) ;;
           ev <- issue (CWaitForPage 15000) ;;
           ck <- issue (CClick page OpenDocumentToast) ;;
           both <- await_both ev ck ;;
           ret (default page (as_page (fst both))))
          (fun err =>
             throw (mkError "Error"
                      ("Google Docs não abriu após exportação: " +:+ err_message err)))
    end ;;
  call (CWaitForLoadState docsPage) ;;
  waitForTimeout docsPage 3000 ;;
  u <- call (CUrl docsPage) ;;
  logSub (MDocsOpened (as_str u)) ;;
  ret docsPage.

Definition EXPORT_OPENING_LINE : Event :=
  EPrint (LogStep 5 (Text "📤 Exportando para o Google Docs...")).

(** *** Download EPUB from Google Docs *)

Definition downloadSelectors : list string :=
  [ ":scope [id*=" +:+ quoted "download" +:+ "]";
    ":scope .goog-menuitem:has-text(" +:+ quoted "download" +:+ ")" ].

(** The body of [for (const sel of downloadSelectors)]; the loop
    variable is [downloadClicked]. *)
Definition download_try_selector (docsPage : PageRef) (sel : string)
    (downloadClicked : bool) : M (Ctl bool Empty_set) :=
  try_catch
    (let item := Css sel in
     r <- issue (CIsVisible docsPage item) ;;
     if as_bool (or_default r (VBool false)) then
       call (CClick docsPage item) ;;
       ret (Break true)
     else ret (Next downloadClicked))
    (fun _ => ret (Next downloadClicked)).

(** Opening the download submenu, for any list of selectors: the
    selectors in order, then the match by text. *)
Definition openDownloadMenu (selectors : list string) (docsPage : PageRef)
    : M bool :=
  r <- for_of selectors (download_try_selector docsPage) false ;;
  let downloadClicked := match r with Done d => d | Returned e => match e with end end in
  if negb downloadClicked then
    call (CWaitFor docsPage DownloadText 5000) ;;
    call (CClick docsPage DownloadText) ;;
    ret true
  else ret downloadClicked.

Definition downloadEpubFromDocs (docsPage : PageRef) : M string :=
  logStep 6 (Text "📥 Baixando EPUB do Google Docs...") ;;
  logSub (Text ("Abrindo menu " +:+ quoted "Arquivo" +:+ "...")) ;;
  call (CWaitFor docsPage DocsFileMenu 10000) ;;
  call (CClick docsPage DocsFileMenu) ;;
  waitForTimeout docsPage 1500 ;;
  logSub (Text "✅ Menu Arquivo aberto.") ;;
  logSub (Text ("Clicando " +:+ quoted "Baixar" +:+ "...")) ;;
  openDownloadMenu downloadSelectors docsPage ;;
  waitForTimeout docsPage 1500 ;;
  logSub (Text "✅ Submenu download aberto.") ;;
  logSub (Text "Selecionando EPUB...") ;;
  call (CWaitFor docsPage EpubOption 5000) ;;
  downloadPromise <- issue (CWaitForDownload docsPage 30000) ;;
  call (CClick docsPage EpubOption) ;;
  logSub (Text "Aguardando download...") ;;
  await downloadPromise ;;
  n <- call CSuggestedFilename ;;
  let suggestedName := as_str n in
  let savePath := path_resolve DOWNLOADS_DIR suggestedName in
  call (CSaveAs savePath) ;;
  logSub (MEpubDownloaded suggestedName) ;;
  logSub (MPath savePath) ;;
  ret savePath.

(** *** Send to Kindle *)

Definition sendToKindle (page : PageRef) (epubPath : string) : M unit :=
  logStep 7 (Text "📧 Enviando EPUB para o Kindle...") ;;
  logSub (MNavigatingTo SEND_TO_KINDLE_URL) ;;
  call (CGoto page SEND_TO_KINDLE_URL) ;;
  waitForTimeout page 3000 ;;
  logSub (Text "✅ Página carregada.") ;;
  logSub (Text "Fazendo upload do EPUB...") ;;
  call (CWaitFor page UploadButton 10000) ;;
  ev <- issue (CWaitForFileChooser page 15000) ;;
  ck <- issue (CClick page UploadButton) ;;
  await_both ev ck ;;
  call (CSetFiles epubPath) ;;
  logSub (Text "✅ Arquivo selecionado.") ;;
  logSub (Text "Aguardando processamento...") ;;
  waitForTimeout page 5000 ;;
  logSub (Text ("Clicando " +:+ quoted "Enviar" +:+ "...")) ;;
  call (CWaitFor page SendButton 15000) ;;
  call (CClick page SendButton) ;;
  logSub (Text "Aguardando confirmação...") ;;
  waitForTimeout page 5000 ;;
  try_catch
    (call (CWaitFor page SuccessText 15000) ;;
     logSub (Text "✅ EPUB enviado ao Kindle com sucesso!"))
    (fun _ => logSub (Text "⚠️  Confirmação não detectada, mas comando executado.")).

(** *** Main *)

Definition SEPARATOR : Msg := Text "━━━━━━━━━━━━━━━━━━━━━━━━━━━━━━━━━━━━━━━━━━━━━━━━━━".

Definition logBanner : M unit :=
  console ConsoleBlank ;;
  log_ SEPARATOR ;;
  log_ (Text "📚 Deep Research to Kindle") ;;
  log_ (Text "   Gemini → Google Docs → EPUB → Kindle") ;;
  log_ SEPARATOR.

(** [args.indexOf(x)]: [None] stands for -1. *)
Fixpoint indexOf (args : list string) (x : string) : option nat :=
  match args with
  | [] => None
  | a :: rest =>
      if String.eqb a x then Some 0%nat
      else match indexOf rest x with
           | Some i => Some (S i)
           | None => None
           end
  end.

(** [args.includes(x)] *)
Definition includes (args : list string) (x : string) : bool :=
  existsb (fun a => String.eqb a x) args.

(** [args.splice(i, 2)] *)
Definition splice2 (args : list string) (i : nat) : list string :=
  (take i args ++ drop (i + 2) args)%list.

(** [parts.join(" ")] *)
Fixpoint join (parts : list string) : string :=
  match parts with
  | [] => ""
  | [a] => a
  | a :: rest => a +:+ " " +:+ join rest
  end.

(** [--flag value] at the front of [main]: the value and the remaining
    arguments. *)
Definition take_option (args : list string) (flag : string)
    : option string * list string :=
  match indexOf args flag with
  | Some i =>
      match args !! S i with
      | Some v => if JsString.truthy v then (Some v, splice2 args i) else (None, args)
      | None => (None, args)
      end
  | None => (None, args)
  end.

(** The pipeline inside the [try] of the full flow. *)
Definition fullFlow (page : PageRef) (model : Models.JsVal) (query : string)
    (skipKindle : bool) : M unit :=
  navigateToGemini page GEMINI_URL ;;
  selectModel page model ;;
  enableDeepResearch page ;;
  submitQuery page query ;;
  confirmResearchStart page ;;
  pollForCompletion page ;;
  docsPage <- exportToGoogleDocs page ;;
  epubPath <- downloadEpubFromDocs docsPage ;;
  call (CClosePage docsPage) ;;
  (if negb skipKindle
   then sendToKindle page epubPath
   else logStep 7 (Text "⏭️  Envio ao Kindle pulado (--no-kindle).")) ;;
  console ConsoleBlank ;;
  log_ SEPARATOR ;;
  log_ (Text "🎉 Concluído!") ;;
  log_ (MEpub epubPath) ;;
  (if negb skipKindle
   then log_ (Text "   Enviado ao Kindle via Send to Kindle.")
   else ret tt) ;;
  log_ SEPARATOR.

(** The pipeline inside the [try] of the send-only mode. *)
Definition sendOnlyFlow (page : PageRef) (geminiUrl : string)
    (skipKindle : bool) : M unit :=
  logStep 2 (Text "🌐 Navegando para a pesquisa existente...") ;;
  logSub (MUrl geminiUrl) ;;
  call (CGoto page geminiUrl) ;;
  waitForTimeout page 5000 ;;
  logSub (Text "✅ Página carregada.") ;;
  docsPage <- exportToGoogleDocs page ;;
  epubPath <- downloadEpubFromDocs docsPage ;;
  call (CClosePage docsPage) ;;
  (if negb skipKindle
   then sendToKindle page epubPath
   else log_ (Text "⏭️  Envio ao Kindle pulado (--no-kindle).")) ;;
  console ConsoleBlank ;;
  log_ SEPARATOR ;;
  log_ (Text "🎉 Concluído!") ;;
  log_ (MEpub epubPath) ;;
  log_ SEPARATOR.

(** [main], on [process.argv.slice(2)]. *)
Definition main (argv : list string) : M unit :=
  let args := argv in
  let '(profileArg, args) := take_option args "--profile" in
  let profilePath := option_map (path_resolve ".") profileArg in
  let '(modelArg, args) := take_option args "--model" in
  let loginOnly := includes args "--login-only" in
  let sendOnly := includes args "--send-only" in
  let skipKindle := includes args "--no-kindle" in
  let query := join (List.filter (fun a => negb (JsString.startsWith a "--")) args) in
  (if negb loginOnly && negb sendOnly && negb (JsString.truthy query)
   then console ConsoleHelp ;; process_exit 0
   else ret tt) ;;
  logBanner ;;
  (if loginOnly then
     page <- launchBrowser profilePath ;;
     log_ (Text "🔑 Modo login — browser aberto.") ;;
     logSub (MProfile (default PROFILE_DIR profilePath)) ;;
     logSub (Text "Faça login no Google (Gemini, Docs, Gmail), Amazon e Claude.") ;;
     logSub (Text "Pressione Ctrl+C quando terminar.") ;;
     navigateToGemini page GEMINI_URL ;;
     kindlePage <- call CNewPage ;;
     issue (CGoto (default page (as_page kindlePage)) SEND_TO_KINDLE_URL) ;;
     claudePage <- call CNewPage ;;
     issue (CGoto (default page (as_page claudePage)) "https://claude.ai") ;;
     never
   else ret tt) ;;
  if sendOnly then
    let geminiUrl := query in
    (if negb (JsString.truthy geminiUrl)
        || negb (JsString.includes geminiUrl "gemini.google.com")
     then log_ (Text "❌ Forneça a URL de uma pesquisa Gemini existente.") ;;
          process_exit 1
     else ret tt) ;;
    page <- launchBrowser profilePath ;;
    try_finally
      (try_catch
         (sendOnlyFlow page geminiUrl skipKindle)
         (fun err =>
            log_ (MError (err_message err)) ;;
            console (ConsoleError err) ;;
            process_exit 1))
      (call CCloseContext ;; ret tt)
  else
    let model := Models.resolveModel modelArg in
    log_ (MModel (Models.show_prop Models.label model)) ;;
    console ConsoleBlank ;;
    page <- launchBrowser profilePath ;;
    try_finally
      (try_catch
         (fullFlow page model query skipKindle)
         (fun err =>
            log_ (MError (err_message err)) ;;
            try_catch (call (CScreenshot page "error.png") ;; ret tt)
                      (fun _ => ret tt) ;;
            console (ConsoleError err) ;;
            process_exit 1))
      (call CCloseContext ;; ret tt).

(** The browser context was closed during the run. *)
Definition closes_context (entries : list (Z * Event)) : bool :=
  existsb (fun e => match snd e with ECall CCloseContext => true | _ => false end)
          entries.

(** A numbered step was announced during the run. *)
Definition step_logged (step : Z) (entries : list (Z * Event)) : bool :=
  existsb (fun e => match snd e with
                    | EPrint (LogStep s _) => s =? step
                    | _ => false
                    end) entries.

(** A line of [logSub] without interpolation was printed. *)
Definition printed (text : string) (entries : list (Z * Event)) : bool :=
  existsb (fun e => match snd e with
                    | EPrint (LogSub (Text s)) => String.eqb s text
                    | _ => false
                    end) entries.

(** A line of [logSub] without interpolation was printed at instant
    [t]. *)
Definition printed_at (t : Z) (text : string) (entries : list (Z * Event)) : bool :=
  existsb (fun e => (fst e =? t) &&
                    match snd e with
                    | EPrint (LogSub (Text s)) => String.eqb s text
                    | _ => false
                    end) entries.

(** The status the process ends with: 0 when [main] returns, the
    argument of [process.exit], 1 when the promise of [main] rejects
    and nothing handles it. *)
Definition exit_status (o : Outcome unit) : option Z :=
  match o with
  | Ret _ => Some 0
  | Exit c => Some c
  | Throw _ => Some 1
  | Hang | OutOfFuel => None
  end.

End WithWorld.
End Drk.

(** ** Sample worlds *)

Module Worlds.
Import Js.

(** A cooperative browser in which the research never signals anything:
    every action succeeds, one page is open, a new page is the document,
    the status chip is empty, the report is empty, no button and no
    indicator is visible. *)
Definition quiet : World := fun t c =>
  match c with
  | CEvalChip _ => Ok (VStr "")
  | CEvalReport _ => Ok (VNum 0)
  | CIsVisible _ _ => Ok (VBool false)
  | CPages => Ok (VPages [Page 0])
  | CNewPage => Ok (VPage (Page 1))
  | CWaitForPage _ => Ok (VPage (Page 1))
  | CUrl (Page 0) => Ok (VStr "https://gemini.google.com/app/1de4d1cd9d823b42")
  | CUrl _ => Ok (VStr "https://docs.google.com/document/d/1")
  | CSuggestedFilename => Ok (VStr "report.epub")
  | _ => Ok VUnit
  end.

(** The status chip reads "Concluído" from the start. *)
Definition done_at_once : World := fun t c =>
  match c with
  | CEvalChip _ => Ok (VStr "Concluído")
  | _ => quiet t c
  end.

(** No status chip; the report container holds 501 characters. *)
Definition long_report : World := fun t c =>
  match c with
  | CEvalReport _ => Ok (VNum 501)
  | _ => quiet t c
  end.

(** The status chip appears five seconds in and reads "Pesquisando"
    for ever. *)
Definition late_status : World := fun t c =>
  match c with
  | CEvalChip _ => Ok (VStr (if t <? 5000 then "" else "Pesquisando"))
  | _ => quiet t c
  end.


Definition timeoutError : JsError :=
  mkError "TimeoutError" "locator.waitFor: Timeout 10000ms exceeded.".

(** The research completes, the export menu never shows. *)
Definition no_export_menu : World := fun t c =>
  match c with
  | CWaitFor _ ExportMenuButton _ => Err timeoutError
  | _ => done_at_once t c
  end.

(** The third confirmation label is the one on the page. *)
Definition third_label : World := fun t c =>
  match c with
  | CIsVisible _ (RoleButton name) => Ok (VBool (String.eqb name "Iniciar pesquisa"))
  | _ => quiet t c
  end.

(** A document page on which the second download selector matches. *)
Definition second_selector : World := fun t c =>
  match c with
  | CIsVisible _ (Css sel) =>
      Ok (VBool (JsString.startsWith sel ":scope .goog-menuitem"))
  | _ => quiet t c
  end.

(** A document page on which no download entry can be found. *)
Definition no_download_entry : World := fun t c =>
  match c with
  | CWaitFor _ DownloadText _ =>
      Err (mkError "TimeoutError" "locator.waitFor: Timeout 5000ms exceeded.")
  | _ => quiet t c
  end.

Definition closedError : JsError :=
  mkError "Error" "Target page, context or browser has been closed".

(** No confirmation button ever shows, and twenty seconds in the page
    is closed: from then on every call rejects. *)
Definition closed_at_20s : World := fun t c =>
  if t <? 20000 then quiet t c else Err closedError.

Definition st0 : State := mkState 0 [].
Definition page0 : PageRef := Page 0.

End Worlds.

(** ** The Downloads folder *)

Module Downloads.
Import Js QArith.
Local Open Scope Q_scope.

(** The file system as [findRecentEpub] sees it: what
    [readdirSync(dir)] returns or throws, and for [statSync(path)] the
    [mtimeMs] of the result, or what it throws. *)
Record Fs := mkFs {
  readdirSync : string -> Res (list string);
  statSync_mtimeMs : string -> Res Q
}.

(** The loop of [path.extname] (POSIX), from the last character down:
    [n] is [i + 1], and the result is [startDot], [startPart], [end] and
    [preDotState], with [None] for -1. *)
Fixpoint extname_scan (path : list ascii) (n : nat)
    (startDot : option nat) (startPart : nat) (end_ : option nat)
    (matchedSlash : bool) (preDotState : Z)
    : option nat * nat * option nat * Z :=
  match n with
  | O => (startDot, startPart, end_, preDotState)
  | S i =>
      let code := nth i path "000"%char in
      if Ascii.eqb code "/"%char then
        if negb matchedSlash
        then (startDot, S i, end_, preDotState)
        else extname_scan path i startDot startPart end_ matchedSlash preDotState
      else
        let '(matchedSlash, end_) :=
          match end_ with
          | None => (false, Some (S i))
          | Some _ => (matchedSlash, end_)
          end in
        if Ascii.eqb code "."%char then
          match startDot with
          | None => extname_scan path i (Some i) startPart end_ matchedSlash preDotState
          | Some _ => extname_scan path i startDot startPart end_ matchedSlash 1%Z
          end
        else
          match startDot with
          | Some _ => extname_scan path i startDot startPart end_ matchedSlash (-1)%Z
          | None => extname_scan path i startDot startPart end_ matchedSlash preDotState
          end
  end.

(** [path.extname(path)] *)
Definition extname (path : string) : string :=
  let cs := list_ascii_of_string path in
  match extname_scan cs (List.length cs) None 0 None true 0%Z with
  | (Some startDot, startPart, Some end_, preDotState) =>
      if (preDotState =? 0)%Z
         || ((preDotState =? 1)%Z && (startDot =? end_ - 1)%nat
             && (startDot =? startPart + 1)%nat)
      then ""%string
      else String.substring startDot (end_ - startDot) path
  | _ => ""%string
  end.

(** An element of [files]. *)
Record EpubFile := mkEpubFile {
  path : string;
  name : string;
  mtime : Q
}.

(** [f.mtime > afterTime] *)
Definition newer (afterTime : Q) (f : EpubFile) : bool :=
  match mtime f ?= afterTime with
  | Gt => true
  | _ => false
  end.

(** The callback of [sort]: [b.mtime - a.mtime]. *)
Definition byNewest (a b : EpubFile) : Q := mtime b - mtime a.

(** [Array.prototype.sort] is stable: with a comparator that is an
    order its result is that of insertion from the right, where an
    element goes before the first one it does not have to follow. *)
Fixpoint insert (cmp : EpubFile -> EpubFile -> Q) (x : EpubFile)
    (l : list EpubFile) : list EpubFile :=
  match l with
  | [] => [x]
  | y :: ys => if Qle_bool (cmp x y) 0 then x :: y :: ys else y :: insert cmp x ys
  end.

Fixpoint sort (cmp : EpubFile -> EpubFile -> Q) (l : list EpubFile) : list EpubFile :=
  match l with
  | [] => []
  | x :: xs => insert cmp x (sort cmp xs)
  end.

Definition is_epub (f : string) : bool :=
  String.eqb (JsString.toLowerCase (extname f)) ".epub".

(** The callback of [map], which throws when [statSync] does; the first
    exception ends the [map]. *)
Fixpoint map_stat (fs : Fs) (names : list string) : Res (list EpubFile) :=
  match names with
  | [] => Ok []
  | f :: rest =>
      let fullPath := Drk.path_resolve Drk.DOWNLOADS_DIR f in
      match statSync_mtimeMs fs fullPath with
      | Err e => Err e
      | Ok m =>
          match map_stat fs rest with
          | Err e => Err e
          | Ok files => Ok (mkEpubFile fullPath f m :: files)
          end
      end
  end.

(** [None] stands for [null]. *)
Definition findRecentEpub (fs : Fs) (afterTime : Q) : option EpubFile :=
  match readdirSync fs Drk.DOWNLOADS_DIR with
  | Err _ => None
  | Ok names =>
      match map_stat fs (List.filter is_epub names) with
      | Err _ => None
      | Ok files =>
          match sort byNewest (List.filter (newer afterTime) files) with
          | f :: _ => Some f
          | [] => None
          end
      end
  end.

(** A folder for the examples: two reports, a note, a hidden file and
    a draft whose extension is in capitals. *)
Definition sample_folder : Fs :=
  mkFs
    (fun _ => Ok ["old.epub"; "notes.txt"; "report.epub"; ".epub"; "draft.EPUB"]%string)
    (fun p =>
       if String.eqb p "~/Downloads/old.epub" then Ok (1000 # 1)
       else if String.eqb p "~/Downloads/report.epub" then Ok (5001 # 2)
       else if String.eqb p "~/Downloads/draft.EPUB" then Ok (5001 # 2)
       else Ok 0).

(** The same folder when [statSync] fails on the oldest report. *)
Definition locked_folder : Fs :=
  mkFs
    (readdirSync sample_folder)
    (fun p =>
       if String.eqb p "~/Downloads/old.epub"
       then Err (mkError "Error" "EACCES: permission denied, stat")
       else statSync_mtimeMs sample_folder p).

End Downloads.

(** ** Observations on the confirmation stage *)

Module ConfirmView.
Import Js Drk.

(** No confirmation button is visible at [t]: every probe of the
    confirmation loop answers [false]. *)
Definition nothing_to_click (w : World) (page : PageRef) (t : Z) : Prop :=
  (forall p, In p possibleButtons ->
     w t (CIsVisible page (RoleButton p)) = Ok (VBool false)) /\
  w t (CIsVisible page LooseStartButton) = Ok (VBool false).

End ConfirmView.

(** ** Observations on the export stage *)

Module ExportView.
Import Js Drk.

Definition is_ok {A} (r : Res A) : bool :=
  match r with Ok _ => true | Err _ => false end.

(** The scan of the open tabs at instant [t]: the first tab whose URL
    contains [docs.google.com/document], if any, or the error of the
    first [url()] that throws before one is found. *)
Fixpoint scan_tabs (w : World) (t : Z) (ps : list PageRef) : Res (option PageRef) :=
  match ps with
  | [] => Ok None
  | p :: ps' =>
      match w t (CUrl p) with
      | Err e => Err e
      | Ok u =>
          if JsString.includes (as_str u) "docs.google.com/document"
          then Ok (Some p)
          else scan_tabs w t ps'
      end
  end.

Definition docsTabAt (w : World) (t : Z) : Res (option PageRef) :=
  match w t CPages with
  | Err e => Err e
  | Ok ps => scan_tabs w t (as_pages ps)
  end.

(** Neither a document tab nor a link to the document is there at
    [t]. *)
Definition no_document_at (w : World) (page : PageRef) (t : Z) : Prop :=
  docsTabAt w t = Ok None /\ sees w page DocsLink t = false.

(** An export stage called at [t] gets as far as its wait for the
    document: the two clicks that start the export succeed, and so does
    the wait of 1.5 seconds between them. *)
Definition export_starts (w : World) (page : PageRef) (t : Z) : bool :=
  is_ok (w t (CWaitFor page ExportMenuButton 10000))
  && is_ok (w t (CClick page ExportMenuButton))
  && wait_resolves w page 1500 t
  && is_ok (w (t + 1500) (CWaitFor page ExportToDocsButton 5000))
  && is_ok (w (t + 1500) (CClick page ExportToDocsButton)).

End ExportView.

(** ** Observations on the delivery stage *)

Module DeliveryView.
Import Js Drk ExportView.

(** The ten awaits outside the [try] of a delivery stage called at [t]
    succeed: the navigation and the wait of three seconds; then the wait
    for the upload control, the file chooser, the click, the setting of
    the file and the wait of five seconds; then the wait for the send
    control, the click on it and the wait of five seconds. *)
Definition delivery_accepted (w : World) (page : PageRef) (epubPath : string)
    (t : Z) : bool :=
  is_ok (w t (CGoto page SEND_TO_KINDLE_URL))
  && wait_resolves w page 3000 t
  && is_ok (w (t + 3000) (CWaitFor page UploadButton 10000))
  && is_ok (w (t + 3000) (CWaitForFileChooser page 15000))
  && is_ok (w (t + 3000) (CClick page UploadButton))
  && is_ok (w (t + 3000) (CSetFiles epubPath))
  && wait_resolves w page 5000 (t + 3000)
  && is_ok (w (t + 3000 + 5000) (CWaitFor page SendButton 15000))
  && is_ok (w (t + 3000 + 5000) (CClick page SendButton))
  && wait_resolves w page 5000 (t + 3000 + 5000).

(** The success text shows when the stage looks for it. *)
Definition delivery_confirmed (w : World) (page : PageRef) (t : Z) : bool :=
  is_ok (w (t + 3000 + 5000 + 5000) (CWaitFor page SuccessText 15000)).

Definition DELIVERY_LAST_LINE (confirmed : bool) : Event :=
  EPrint (LogSub (Text (if confirmed
                        then "✅ EPUB enviado ao Kindle com sucesso!"
                        else "⚠️  Confirmação não detectada, mas comando executado."))).

End DeliveryView.

(** ** Observations on the command line *)

Module CommandLine.
Import Js Drk.

(** The arguments that are left when [--profile] and [--model] have
    been read. *)
Definition remaining_args (argv : list string) : list string :=
  snd (take_option (snd (take_option argv "--profile")) "--model").

(** The steps of the mode the arguments select. *)
Definition expected_steps (argv : list string) : list Z :=
  let args := remaining_args argv in
  if includes args "--login-only" then [1; 2]
  else if includes args "--send-only" then
    if includes args "--no-kindle" then [1; 2; 5; 6] else [1; 2; 5; 6; 7]
  else [1; 2; 3; 4; 5; 6; 7].

End CommandLine.

(** ** Observations on whole runs *)

Module Trace.
Import Js.

(** Every entry a computation adds to the log passes the test [p], and
    the entries already there stay. *)
Definition emits (p : Z * Event -> bool) {A} (m : M A) : Prop :=
  forall st o st',
    m st = (o, st') ->
    exists l, log st' = (l ++ log st)%list /\ forallb p l = true.

(** The entries a computation has added when it ends the process pass
    the test [p]. *)
Definition on_exit (p : Z * Event -> bool) {A} (m : M A) : Prop :=
  forall st c st',
    m st = (Exit c, st') ->
    exists l, log st' = (l ++ log st)%list /\ forallb p l = true.

(** The entry is not a call of the automation surface, or it is one of
    the three read-only probes of the poller. *)
Definition is_poller_probe (e : Z * Event) : bool :=
  match snd e with
  | ECall (CEvalChip _) => true
  | ECall (CEvalReport _) => true
  | ECall (CIsVisible _ ResearchIndicators) => true
  | ECall _ => false
  | _ => true
  end.

(** The entry is not a call of the delivery stage on the upload
    control, the send control or the success text, nor the wait for the
    file chooser, nor the setting of the file. *)
Definition no_delivery_call (e : Z * Event) : bool :=
  match snd e with
  | ECall (CWaitForFileChooser _ _) => false
  | ECall (CSetFiles _) => false
  | ECall (CWaitFor _ UploadButton _) | ECall (CClick _ UploadButton) => false
  | ECall (CWaitFor _ SendButton _) | ECall (CClick _ SendButton) => false
  | ECall (CWaitFor _ SuccessText _) => false
  | _ => true
  end.

(** The entry is not [context.close()]. *)
Definition not_context_close (e : Z * Event) : bool :=
  match snd e with
  | ECall CCloseContext => false
  | _ => true
  end.

(** The entry is not a call of the automation surface at all. *)
Definition no_call (e : Z * Event) : bool :=
  match snd e with
  | ECall _ => false
  | _ => true
  end.

(** The run comes to an end: it returns, throws, or ends the process
    with status 0 or 1; it neither waits for ever nor exhausts the fuel
    of a loop. *)
Definition ends {A} (o : Outcome A) : Prop :=
  match o with
  | Ret _ | Throw _ => True
  | Exit c => c = 0 \/ c = 1
  | Hang | OutOfFuel => False
  end.

Definition settles {A} (m : M A) : Prop := forall st, ends (fst (m st)).

(** The computation always returns or throws: it does not end the
    process, wait for ever or exhaust the fuel of a loop. *)
Definition completes {A} (m : M A) : Prop :=
  forall st, match fst (m st) with
             | Ret _ | Throw _ => True
             | _ => False
             end.

(** The numbers of the steps announced with [logStep] by the entries
    [l] of a log, oldest first. *)
Fixpoint steps_of (l : list (Z * Event)) : list Z :=
  match l with
  | [] => []
  | e :: older =>
      (steps_of older ++
       match snd e with
       | EPrint (LogStep s _) => [s]
       | _ => []
       end)%list
  end.

(** The entry is not the announcement of a step. *)
Definition no_step (e : Z * Event) : bool :=
  match snd e with
  | EPrint (LogStep _ _) => false
  | _ => true
  end.

(** The computation announces the steps [L], in this order and each
    once: at every end of a run it has announced the first so many of
    them, and all of them when it returns. *)
Definition announces {A} (L : list Z) (m : M A) : Prop :=
  forall st o st',
    m st = (o, st') ->
    exists l,
      log st' = (l ++ log st)%list /\
      (exists later, L = (steps_of l ++ later)%list) /\
      match o with
      | Ret _ => steps_of l = L
      | _ => True
      end.

(** Between two states of a run an entry that passes the test [p] was
    added to the log. *)
Definition happened (p : Z * Event -> bool) (st st' : State) : Prop :=
  exists l, log st' = (l ++ log st)%list /\ existsb p l = true.

(** The entry is [download.saveAs(path)]. *)
Definition saved_as (path : string) (e : Z * Event) : bool :=
  match snd e with
  | ECall (CSaveAs p) => String.eqb p path
  | _ => false
  end.

(** The entry is the line of the closing banner that names the EPUB. *)
Definition announces_epub (path : string) (e : Z * Event) : bool :=
  match snd e with
  | EPrint (Log (MEpub p)) => String.eqb p path
  | _ => false
  end.

(** The entry is the click on the send control of Send to Kindle. *)
Definition is_send_click (e : Z * Event) : bool :=
  match snd e with
  | ECall (CClick _ SendButton) => true
  | _ => false
  end.

(** The entry is [fileChooser.setFiles(path)]. *)
Definition sets_file (path : string) (e : Z * Event) : bool :=
  match snd e with
  | ECall (CSetFiles p) => String.eqb p path
  | _ => false
  end.

(** Between two states an EPUB was saved and announced under the same
    path and, unless the delivery is skipped, set as the file to send
    before the send control was clicked. *)
Definition delivered (skipKindle : bool) (st st' : State) : Prop :=
  exists path,
    happened (saved_as path) st st' /\
    happened (announces_epub path) st st' /\
    (skipKindle = false ->
     happened (sets_file path) st st' /\ happened is_send_click st st').

End Trace.

(** ** More sample worlds *)

Module Scenarios.
Import Js.

(** The status chip reads "Pesquisando" for 90 seconds and "Concluído"
    from then on. *)
Definition done_after_90s : World := fun t c =>
  match c with
  | CEvalChip _ => Ok (VStr (if t <? 90000 then "Pesquisando" else "Concluído"))
  | _ => Worlds.quiet t c
  end.

(** The document opens in a second tab four seconds after the export
    was started. *)
Definition docs_tab_after_4s : World := fun t c =>
  match c with
  | CPages => Ok (VPages (if t <? 5500 then [Page 0] else [Page 0; Page 1]))
  | _ => Worlds.quiet t c
  end.

(** The export is accepted, no document ever opens and no toast
    shows. *)
Definition docs_never_opens : World := fun t c =>
  match c with
  | CWaitFor _ OpenDocumentToast _ => Err Worlds.timeoutError
  | _ => Worlds.quiet t c
  end.

(** A link to the document shows, and the new tab fails to load it. *)
Definition docs_link_dead : World := fun t c =>
  match c with
  | CIsVisible _ DocsLink => Ok (VBool true)
  | CGetAttribute _ DocsLink _ => Ok (VStr "https://docs.google.com/document/d/1")
  | CGoto (Page 1) _ => Err (mkError "Error" "net::ERR_ABORTED")
  | CUrl (Page 1) => Ok (VStr "about:blank")
  | _ => Worlds.quiet t c
  end.

(** Send to Kindle takes the file and never shows a success text. *)
Definition no_success_text : World := fun t c =>
  match c with
  | CWaitFor _ SuccessText _ => Err (mkError "TimeoutError" "locator.waitFor: Timeout 15000ms exceeded.")
  | _ => Worlds.quiet t c
  end.

(** The plan is ready three seconds in: from then on the button
    "Start research" is on the page. *)
Definition plan_after_3s : World := fun t c =>
  match c with
  | CIsVisible _ (RoleButton name) =>
      Ok (VBool ((3000 <=? t) && String.eqb name "Start research"))
  | _ => Worlds.quiet t c
  end.

End Scenarios.

(** * Properties *)

(** ** Reasoning about runs *)

Section LoopUnrolling.
Import Js Drk.

(** One turn of a loop that still has fuel. *)
Lemma while_unroll {V R} (fuel : nat) (cond : V -> M bool)
    (body : V -> M (Ctl V R)) (v : V) :
  while_ (S fuel) cond body v =
    (b <- cond v ;;
     if b then
       c <- body v ;;
       match c with
       | Next v' => while_ fuel cond body v'
       | Break v' => ret (Done v')
       | Return r => ret (Returned r)
       end
     else ret (Done v))%run.
Proof. reflexivity. Qed.
End LoopUnrolling.

Section LoopRules.
Import Js Drk.
Context {V R : Type}.
Variable cond : V -> M bool.
Variable body : V -> M (Ctl V R).
Variables deadline step : Z.
Variable P : V -> State -> Prop.
Variable Q : Outcome (LoopEnd V R) -> State -> Prop.

Hypothesis cond_clock :
  forall v st, exists b, cond v st = (Ret b, st) /\ (b = true -> now st < deadline).
Hypothesis exit_ok :
  forall v st, P v st -> cond v st = (Ret false, st) -> Q (Ret (Done v)) st.
Hypothesis body_ok :
  forall v st, P v st -> cond v st = (Ret true, st) ->
    match body v st with
    | (Ret (Next v'), st') => now st + step <= now st' /\ P v' st'
    | (Ret (Break v'), st') => Q (Ret (Done v')) st'
    | (Ret (Return r), st') => Q (Ret (Returned r)) st'
    | (Throw e, st') => Q (Throw e) st'
    | (Exit c, st') => Q (Exit c) st'
    | (Hang, st') => Q Hang st'
    | (OutOfFuel, st') => False
    end.

(** A loop whose test reads the clock against a deadline and whose body
    sleeps at least [step] whenever it falls through ends within its
    fuel, in a state the body or the test justifies. *)
Lemma while_rule :
  forall fuel v st o st',
    P v st ->
    deadline - now st <= Z.of_nat fuel * step ->
    while_ (S fuel) cond body v st = (o, st') ->
    Q o st'.
Proof.
  induction fuel as [|fuel IH]; intros v st o st' HP Hfuel Hrun;
    cbn [while_] in Hrun; unfold bind at 1 in Hrun;
    destruct (cond_clock v st) as [b [Hc Hb]]; rewrite Hc in Hrun;
    (destruct b;
     [ specialize (Hb eq_refl)
     | inversion Hrun; subst; apply exit_ok; assumption ]).
  - lia.
  - pose proof (body_ok v st HP Hc) as Hbody.
    unfold bind at 1 in Hrun.
    destruct (body v st) as [[c|e|c| |] st1];
      try (inversion Hrun; subst; assumption); try contradiction.
    destruct c as [v'|v'|r];
      try (inversion Hrun; subst; assumption).
    destruct Hbody as [Hstep HP'].
    apply (IH v' st1); [assumption|lia|exact Hrun].
Qed.

End LoopRules.

(** ** The completion poller *)

Section Poller.
Import Js Drk.
Variable w : World.
Variable page : PageRef.

Lemma truthy_false_empty (s : string) : JsString.truthy s = false -> s = "".
Proof. destruct s; [reflexivity | discriminate]. Qed.

Lemma isDone_empty : isDone "" = false.
Proof. reflexivity. Qed.

(** One cycle of phase 2, as a function of what the probes read. *)
Lemma phase2_iteration_eq (startTime minWaitUntil : Z) (st : State) :
  phase2_iteration w page startTime minWaitUntil tt st =
    let t := now st in
    let elapsed := round_seconds (t - startTime) in
    let s := chipAt w page t in
    let l1 := (t, ECall (CEvalChip page)) :: log st in
    if isDone s then
      (Ret (Return true),
       mkState (t + 5000)
         ((t + 5000, EPrint (LogSub (MDoneByStatus s elapsed))) :: (t, ESleep 5000) :: l1))
    else if JsString.truthy s then
      (Ret (Next tt),
       mkState (t + POLL_INTERVAL_MS)
         ((t, ESleep POLL_INTERVAL_MS) :: (t, EPrint (LogSub (MPollingStatus elapsed s))) :: l1))
    else if t <? minWaitUntil then
      (Ret (Next tt),
       mkState (t + 10000)
         ((t, ESleep 10000) :: (t, EPrint (LogSub (MPolling elapsed))) :: l1))
    else
      let n := reportAt w page t in
      let l2 := (t, ECall (CEvalReport page)) :: l1 in
      if n >? 500 then
        (Ret (Return true),
         mkState t ((t, EPrint (LogSub (MDoneByLength n elapsed))) :: l2))
      else
        (Ret (Next tt),
         mkState (t + POLL_INTERVAL_MS)
           ((t, ESleep POLL_INTERVAL_MS) :: (t, EPrint (LogSub (MPolling elapsed))) :: l2)).
Proof.
  unfold phase2_iteration, readChip, readReportLength, chipAt, reportAt.
  cbv beta iota zeta delta [bind ret date_now issue sleep logSub console emit].
  cbn [now log].
  destruct (isDone _); [reflexivity|].
  destruct (JsString.truthy _); cbn [andb negb now log]; [reflexivity|].
  destruct (now st <? minWaitUntil)%Z; cbn [now log]; [reflexivity|].
  destruct (_ >? 500)%Z; reflexivity.
Qed.

(** Phase 2 always returns, and in one of three ways. *)
Lemma phase2_spec (startTime : Z) (st : State) :
  startTime <= now st ->
  now st - startTime < MAX_POLL_TIME_MS + POLL_INTERVAL_MS ->
  exists b st',
    phase2 w page startTime st = (Ret b, st') /\
    if b then by_status w page startTime st st' \/ by_length w page startTime st st'
    else timed_out startTime st'.
Proof.
  intros Hstart Hnear.
  unfold phase2. unfold bind at 1. cbn [date_now].
  set (minWaitUntil := now st + 60000).
  unfold bind at 1.
  destruct (while_ _ _ _ tt st) as [o st1] eqn:Hloop.
  unfold loop_fuel in Hloop.
  assert (HQ :
    match o with
    | Ret (Returned true) => by_status w page startTime st st1 \/ by_length w page startTime st st1
    | Ret (Done _) =>
        MAX_POLL_TIME_MS <= now st1 - startTime /\
        now st1 - startTime < MAX_POLL_TIME_MS + POLL_INTERVAL_MS
    | _ => False
    end).
  { refine (while_rule _ _ (startTime + MAX_POLL_TIME_MS) 10000
              (fun _ s => now st <= now s /\
                          now s - startTime < MAX_POLL_TIME_MS + POLL_INTERVAL_MS)
              (fun o s' =>
                 match o with
                 | Ret (Returned true) =>
                     by_status w page startTime st s' \/ by_length w page startTime st s'
                 | Ret (Done _) =>
                     MAX_POLL_TIME_MS <= now s' - startTime /\
                     now s' - startTime < MAX_POLL_TIME_MS + POLL_INTERVAL_MS
                 | _ => False
                 end) _ _ _ _ tt st o st1 _ _ Hloop).
    - intros v s. exists (now s - startTime <? MAX_POLL_TIME_MS).
      split; [reflexivity|]. intros H. apply Z.ltb_lt in H. lia.
    - intros v s [H1 H2] Hc.
      cbv beta iota delta [bind ret date_now] in Hc.
      injection Hc as Hb. apply Z.ltb_ge in Hb. split; [lia | assumption].
    - intros [] s [H1 H2] Hc.
      cbv beta iota delta [bind ret date_now] in Hc.
      injection Hc as Hb. apply Z.ltb_lt in Hb.
      rewrite phase2_iteration_eq. cbv zeta.
      destruct (isDone (chipAt w page (now s))) eqn:Hdone.
      { left. exists (now s). eexists. repeat split; try eassumption; try reflexivity. }
      destruct (JsString.truthy (chipAt w page (now s))) eqn:Htruthy.
      { cbn [now]. unfold POLL_INTERVAL_MS in *. lia. }
      destruct (now s <? minWaitUntil) eqn:Hwait.
      { cbn [now]. unfold POLL_INTERVAL_MS in *. lia. }
      apply Z.ltb_ge in Hwait.
      destruct (reportAt w page (now s) >? 500) eqn:Hlen.
      { right. unfold by_length. cbn [now log]. eexists.
        repeat split; try reflexivity.
        - subst minWaitUntil. lia.
        - lia.
        - apply truthy_false_empty; assumption.
        - apply Z.gtb_lt in Hlen. lia. }
      cbn [now]. unfold POLL_INTERVAL_MS in *. lia.
    - split; lia.
    - change (Z.of_nat (Z.to_nat (MAX_POLL_TIME_MS / 10000))) with 90.
      unfold MAX_POLL_TIME_MS. lia. }
  destruct o as [[[]|[|]]|e|c| |]; try contradiction.
  - cbv beta iota delta [bind ret logSub console emit]. cbn [now log].
    exists false. eexists. split; [reflexivity|].
    unfold timed_out, TIMEOUT_LINE. cbn [now log]. destruct HQ as [H1 H2].
    repeat split; try assumption. eexists; reflexivity.
  - exists true, st1. split; [reflexivity | exact HQ].
Qed.

(** One cycle of phase 1. *)
Lemma phase1_iteration_eq (researchStarted : bool) (st : State) :
  phase1_iteration w page researchStarted st =
    let t := now st in
    let s := chipAt w page t in
    let l1 := (t, ECall (CEvalChip page)) :: log st in
    if JsString.truthy s then
      (Ret (Break true),
       mkState t
         (if isDone s
          then (t, EPrint (LogSub (Text "✅ Pesquisa já concluída!")))
               :: (t, EPrint (LogSub (MStatusDetected s))) :: l1
          else (t, EPrint (LogSub (MStatusDetected s))) :: l1))
    else
      let l2 := (t, ECall (CIsVisible page ResearchIndicators)) :: l1 in
      if indicatorAt w page t then
        (Ret (Break true),
         mkState t ((t, EPrint (LogSub (Text "Atividade de pesquisa detectada."))) :: l2))
      else
        (Ret (Next researchStarted), mkState (t + 5000) ((t, ESleep 5000) :: l2)).
Proof.
  unfold phase1_iteration, readChip, chipAt, indicatorAt.
  cbv beta iota zeta delta [bind ret date_now issue sleep logSub console emit].
  cbn [now log].
  destruct (JsString.truthy _); cbn [now log].
  - destruct (isDone _); reflexivity.
  - destruct (as_bool _); reflexivity.
Qed.

(** Phase 1 always returns: with [true] at the first check that observes
    something, with [false] when the window has elapsed. *)
Lemma phase1_spec (st : State) :
  exists b st1,
    phase1 w page st = (Ret b, st1) /\
    if b then
      exists k, 0 <= k < 24 /\ now st1 = now st + 5000 * k /\
        (JsString.truthy (chipAt w page (now st1)) = true \/
         indicatorAt w page (now st1) = true)
    else now st1 = now st + 120000.
Proof.
  unfold phase1. unfold bind at 1. cbn [date_now].
  unfold bind at 1.
  destruct (while_ _ _ _ false st) as [o st1] eqn:Hloop.
  unfold loop_fuel in Hloop.
  assert (HQ :
    match o with
    | Ret (Done true) =>
        exists k, 0 <= k < 24 /\ now st1 = now st + 5000 * k /\
          (JsString.truthy (chipAt w page (now st1)) = true \/
           indicatorAt w page (now st1) = true)
    | Ret (Done false) => now st1 = now st + 120000
    | _ => False
    end).
  { refine (while_rule _ _ (now st + 120000) 5000
              (fun v s => v = false /\
                          exists k, 0 <= k <= 24 /\ now s = now st + 5000 * k)
              (fun o s' =>
                 match o with
                 | Ret (Done true) =>
                     exists k, 0 <= k < 24 /\ now s' = now st + 5000 * k /\
                       (JsString.truthy (chipAt w page (now s')) = true \/
                        indicatorAt w page (now s') = true)
                 | Ret (Done false) => now s' = now st + 120000
                 | _ => False
                 end) _ _ _ _ false st o st1 _ _ Hloop).
    - intros v s. exists (now s <? now st + 120000).
      split; [reflexivity|]. intros H. apply Z.ltb_lt in H. lia.
    - intros v s [Hv [k [Hk Hnow]]] Hc.
      cbv beta iota delta [bind ret date_now] in Hc.
      injection Hc as Hb. apply Z.ltb_ge in Hb. subst v. lia.
    - intros v s [Hv [k [Hk Hnow]]] Hc.
      cbv beta iota delta [bind ret date_now] in Hc.
      injection Hc as Hb. apply Z.ltb_lt in Hb.
      rewrite phase1_iteration_eq. cbv zeta.
      destruct (JsString.truthy (chipAt w page (now s))) eqn:Htruthy.
      { cbn [now]. exists k. repeat split; try lia. left; assumption. }
      destruct (indicatorAt w page (now s)) eqn:Hind.
      { cbn [now]. exists k. repeat split; try lia. right; assumption. }
      cbn [now]. split; [lia|]. split; [assumption|].
      exists (k + 1). lia.
    - split; [reflexivity|]. exists 0. lia.
    - change (Z.of_nat (Z.to_nat (120000 / 5000))) with 24. lia. }
  destruct o as [[[|]|[]]|e|c| |]; try contradiction.
  - exists true, st1. split; [reflexivity | exact HQ].
  - exists false, st1. split; [reflexivity | exact HQ].
Qed.

(** In a quiet window phase 1 returns [false]. *)
Lemma phase1_quiet (st : State) :
  quiet_window w page (now st) ->
  exists st1, phase1 w page st = (Ret false, st1) /\ now st1 = now st + 120000.
Proof.
  intros Hquiet.
  destruct (phase1_spec st) as [b [st1 [Hrun Hpost]]].
  destruct b.
  - destruct Hpost as [k [Hk [Hnow Hseen]]].
    destruct (Hquiet k Hk) as [Hchip Hind].
    rewrite Hnow in Hseen. rewrite Hchip, Hind in Hseen.
    destruct Hseen; discriminate.
  - exists st1. split; assumption.
Qed.

(** The poller always reaches phase 2, at most two minutes after it is
    called. *)
Lemma poll_enters_phase2 (st : State) :
  exists st2 rest,
    pollForCompletion w page st = phase2 w page (now st) st2 /\
    now st <= now st2 <= now st + 120000 /\
    log st2 = (now st2, PHASE2_LINE) :: rest.
Proof.
  unfold pollForCompletion.
  cbv beta iota delta [bind logSub console emit date_now]. cbn [now log].
  match goal with
  | |- context [phase1 w page ?s] =>
      destruct (phase1_spec s) as [b [st1 [Hrun Hpost]]]; rewrite Hrun
  end.
  cbn [now] in Hpost.
  destruct b; cbv beta iota delta [negb ret]; cbn [now log];
    eexists; eexists; (split; [reflexivity|]); cbn [now log];
    (split; [|reflexivity]).
  - destruct Hpost as [k [Hk [Hnow _]]]. lia.
  - lia.
Qed.
End Poller.

Section PollerClaimsSupport.
Import Js Drk.
Variable w : World.
Variable page : PageRef.

(** The poller never throws and never hangs. *)
Lemma poll_total (st : State) :
  exists b st', pollForCompletion w page st = (Ret b, st').
Proof.
  destruct (poll_enters_phase2 w page st) as [st2 [rest [Heq [Hnow Hlog]]]].
  destruct (phase2_spec w page (now st) st2) as [b [st' [Hrun _]]].
  - lia.
  - unfold MAX_POLL_TIME_MS, POLL_INTERVAL_MS. lia.
  - exists b, st'. rewrite Heq. exact Hrun.
Qed.

(** How the poller returns [true]. *)
Lemma poll_success (st st' : State) :
  pollForCompletion w page st = (Ret true, st') ->
  exists st2 rest,
    pollForCompletion w page st = phase2 w page (now st) st2 /\
    now st <= now st2 <= now st + 120000 /\
    log st2 = (now st2, PHASE2_LINE) :: rest /\
    (by_status w page (now st) st2 st' \/ by_length w page (now st) st2 st').
Proof.
  intros Hrun.
  destruct (poll_enters_phase2 w page st) as [st2 [rest [Heq [Hnow Hlog]]]].
  destruct (phase2_spec w page (now st) st2) as [b [st3 [Hrun2 Hpost]]].
  - lia.
  - unfold MAX_POLL_TIME_MS, POLL_INTERVAL_MS. lia.
  - rewrite Heq, Hrun2 in Hrun. injection Hrun as Hb Hst. subst b st3.
    exists st2, rest. repeat split; try assumption; try lia.
Qed.

(** How the poller returns [false]. *)
Lemma poll_failure (st st' : State) :
  pollForCompletion w page st = (Ret false, st') ->
  timed_out (now st) st'.
Proof.
  intros Hrun.
  destruct (poll_enters_phase2 w page st) as [st2 [rest [Heq [Hnow Hlog]]]].
  destruct (phase2_spec w page (now st) st2) as [b [st3 [Hrun2 Hpost]]].
  - lia.
  - unfold MAX_POLL_TIME_MS, POLL_INTERVAL_MS. lia.
  - rewrite Heq, Hrun2 in Hrun. injection Hrun as Hb Hst. subst b st3.
    exact Hpost.
Qed.

(** After a quiet discovery window the poller is in phase 2, two minutes
    after it was called, having printed the warning. *)
Lemma poll_quiet (st : State) :
  quiet_window w page (now st) ->
  exists st2 rest,
    pollForCompletion w page st = phase2 w page (now st) st2 /\
    now st2 = now st + 120000 /\
    log st2 = (now st2, PHASE2_LINE) :: (now st2, NOT_DETECTED_LINE) :: rest.
Proof.
  intros Hquiet.
  unfold pollForCompletion.
  cbv beta iota delta [bind logSub console emit date_now]. cbn [now log].
  match goal with
  | |- context [phase1 w page ?s] =>
      destruct (phase1_quiet w page s Hquiet) as [st1 [Hrun Hnow]]; rewrite Hrun
  end.
  cbn [now] in Hnow.
  cbv beta iota delta [negb ret]. cbn [now log].
  eexists. eexists. split; [reflexivity|]. cbn [now log].
  split; [assumption | reflexivity].
Qed.

(** With no status text and a short report, phase 2 entered two minutes
    after the start sleeps six times 10 s and then 30 s at a time, and
    ends at the ceiling. *)
Lemma phase2_silent_exact (startTime : Z) (st : State) :
  (forall t, chipAt w page t = "") ->
  (forall t, reportAt w page t <= 500) ->
  now st = startTime + 120000 ->
  exists st', phase2 w page startTime st = (Ret false, st') /\
              now st' = startTime + MAX_POLL_TIME_MS.
Proof.
  intros Hchip Hlen Hnow.
  unfold phase2. unfold bind at 1. cbn [date_now].
  unfold bind at 1.
  destruct (while_ _ _ _ tt st) as [o st1] eqn:Hloop.
  unfold loop_fuel in Hloop.
  assert (HQ :
    match o with
    | Ret (Done _) => now st1 = startTime + MAX_POLL_TIME_MS
    | _ => False
    end).
  { refine (while_rule _ _ (startTime + MAX_POLL_TIME_MS) 10000
              (fun _ s => exists i j, 0 <= i <= 6 /\ 0 <= j <= 24 /\
                                      (0 < j -> i = 6) /\
                                      now s = now st + 10000 * i + 30000 * j)
              (fun o s' =>
                 match o with
                 | Ret (Done _) => now s' = startTime + MAX_POLL_TIME_MS
                 | _ => False
                 end) _ _ _ _ tt st o st1 _ _ Hloop).
    - intros v s. exists (now s - startTime <? MAX_POLL_TIME_MS).
      split; [reflexivity|]. intros H. apply Z.ltb_lt in H. lia.
    - intros v s [i [j [Hi [Hj [Hij Hs]]]]] Hc.
      cbv beta iota delta [bind ret date_now] in Hc.
      injection Hc as Hb. apply Z.ltb_ge in Hb.
      unfold MAX_POLL_TIME_MS in *. lia.
    - intros [] s [i [j [Hi [Hj [Hij Hs]]]]] Hc.
      cbv beta iota delta [bind ret date_now] in Hc.
      injection Hc as Hb. apply Z.ltb_lt in Hb.
      rewrite phase2_iteration_eq. cbv zeta.
      rewrite Hchip. rewrite isDone_empty. cbn [JsString.truthy].
      destruct (now s <? now st + 60000) eqn:Hwait.
      { apply Z.ltb_lt in Hwait. cbn [now]. split; [lia|].
        exists (i + 1), j. lia. }
      apply Z.ltb_ge in Hwait.
      destruct (reportAt w page (now s) >? 500) eqn:Hgt.
      { apply Z.gtb_lt in Hgt. specialize (Hlen (now s)). lia. }
      cbn [now]. unfold POLL_INTERVAL_MS, MAX_POLL_TIME_MS in *.
      split; [lia|]. exists i, (j + 1). lia.
    - exists 0, 0. lia.
    - change (Z.of_nat (Z.to_nat (MAX_POLL_TIME_MS / 10000))) with 90.
      unfold MAX_POLL_TIME_MS. lia. }
  destruct o as [[[]|r]|e|c| |]; try contradiction.
  cbv beta iota delta [bind ret logSub console emit]. cbn [now log].
  eexists. split; [reflexivity|]. cbn [now]. exact HQ.
Qed.
End PollerClaimsSupport.

(** ** Claims on the completion poller *)

Section PollerClaims.
Import Js Drk.

(** C3, as stated, fails: when the status chip already reads "Concluído",
    the poller enters phase 2 at instant 0 and returns [true] at instant
    5000, 55 seconds before the minimum wait is over. *)
Lemma done_status_ignores_dwell :
  exists st2 st',
    pollForCompletion Worlds.done_at_once Worlds.page0 Worlds.st0
      = phase2 Worlds.done_at_once Worlds.page0 0 st2 /\
    hd_error (log st2) = Some (0, PHASE2_LINE) /\
    phase2 Worlds.done_at_once Worlds.page0 0 st2 = (Ret true, st') /\
    now st' = 5000 /\
    now st' < now st2 + 60000.
Proof.
  eexists (mkState 0 _). eexists.
  split; [vm_compute; reflexivity|].
  split; [reflexivity|].
  split; [vm_compute; reflexivity|].
  split; [reflexivity | reflexivity].
Qed.

(** C3, amended: the minimum wait of 60 seconds after the start of phase
    2 holds back the content-length rule only.  When the poller returns
    [true], either the length rule fired, no earlier than 60 seconds
    after phase 2 was entered, or the done status was read at some probe
    of phase 2, possibly the first, and the poller returned 5 seconds
    after that probe. *)
Theorem dwell_gates_length_rule_only (w : World) (page : PageRef) (st st' : State) :
  pollForCompletion w page st = (Ret true, st') ->
  exists st2 rest,
    pollForCompletion w page st = phase2 w page (now st) st2 /\
    log st2 = (now st2, PHASE2_LINE) :: rest /\
    ((by_length w page (now st) st2 st' /\ now st2 + 60000 <= now st') \/
     (by_status w page (now st) st2 st' /\
      exists t, now st2 <= t /\ isDone (chipAt w page t) = true /\ now st' = t + 5000)).
Proof.
  intros Hrun.
  destruct (poll_success w page st st' Hrun)
    as [st2 [rest [Heq [Hnow [Hlog [Hs | Hl]]]]]];
    exists st2, rest; (split; [exact Heq|]); (split; [exact Hlog|]).
  - right. split; [exact Hs|].
    destruct Hs as [t [rest' [H1 [H2 [H3 [H4 H5]]]]]].
    exists t. repeat split; assumption.
  - left. split; [exact Hl|].
    destruct Hl as [rest' [H1 _]]. exact H1.
Qed.

(** A concrete run to which [dwell_gates_length_rule_only] applies. *)
Lemma dwell_gates_length_rule_only_witness :
  exists st',
    pollForCompletion Worlds.long_report Worlds.page0 Worlds.st0 = (Ret true, st') /\
    exists st2 rest,
      pollForCompletion Worlds.long_report Worlds.page0 Worlds.st0
        = phase2 Worlds.long_report Worlds.page0 (now Worlds.st0) st2 /\
      log st2 = (now st2, PHASE2_LINE) :: rest /\
      ((by_length Worlds.long_report Worlds.page0 (now Worlds.st0) st2 st' /\
        now st2 + 60000 <= now st') \/
       (by_status Worlds.long_report Worlds.page0 (now Worlds.st0) st2 st' /\
        exists t, now st2 <= t /\
                  isDone (chipAt Worlds.long_report Worlds.page0 t) = true /\
                  now st' = t + 5000)).
Proof.
  eexists. split.
  - vm_compute. reflexivity.
  - apply dwell_gates_length_rule_only. vm_compute. reflexivity.
Defined.

(** C4, as stated, fails: with no status chip and a report of 501
    characters the poller returns [true] at instant 180000, the very
    instant of the probe that read the length; no delay follows the
    detection. *)
Lemma length_rule_returns_without_settle_delay :
  exists st' rest,
    pollForCompletion Worlds.long_report Worlds.page0 Worlds.st0 = (Ret true, st') /\
    now st' = 180000 /\
    log st' = (180000, EPrint (LogSub (MDoneByLength 501 180)))
              :: (180000, ECall (CEvalReport Worlds.page0))
              :: (180000, ECall (CEvalChip Worlds.page0))
              :: (170000, ESleep 10000) :: rest.
Proof.
  eexists. eexists. split; [vm_compute; reflexivity|].
  split; reflexivity.
Qed.

(** C4, amended: the settle delay of 5 seconds belongs to the done-status
    rule.  When the poller returns [true], either the log ends with a
    probe that read a done status, a sleep of 5000 ms, and the success
    line, or it ends with the probe of the report length and the success
    line at the same instant, without a delay. *)
Theorem settle_delay_after_done_status_only (w : World) (page : PageRef)
    (st st' : State) :
  pollForCompletion w page st = (Ret true, st') ->
  (exists s e rest,
      isDone s = true /\
      chipAt w page (now st' - 5000) = s /\
      log st' = (now st', EPrint (LogSub (MDoneByStatus s e)))
                :: (now st' - 5000, ESleep 5000)
                :: (now st' - 5000, ECall (CEvalChip page)) :: rest) \/
  (exists n e rest,
      500 < n /\
      reportAt w page (now st') = n /\
      log st' = (now st', EPrint (LogSub (MDoneByLength n e)))
                :: (now st', ECall (CEvalReport page)) :: rest).
Proof.
  intros Hrun.
  destruct (poll_success w page st st' Hrun)
    as [st2 [rest [Heq [Hnow [Hlog [Hs | Hl]]]]]].
  - left. destruct Hs as [t [rest' [H1 [H2 [H3 [H4 H5]]]]]].
    replace (now st' - 5000) with t by lia.
    exists (chipAt w page t), (round_seconds (t - now st)), rest'.
    repeat split; try assumption.
    rewrite H5, H4. reflexivity.
  - right. destruct Hl as [rest' [H1 [H2 [H3 [H4 H5]]]]].
    exists (reportAt w page (now st')), (round_seconds (now st' - now st)).
    eexists. repeat split; [assumption | exact H5].
Qed.

(** A concrete run to which [settle_delay_after_done_status_only] applies. *)
Lemma settle_delay_after_done_status_only_witness :
  exists st',
    pollForCompletion Worlds.done_at_once Worlds.page0 Worlds.st0 = (Ret true, st') /\
    ((exists s e rest,
        isDone s = true /\
        chipAt Worlds.done_at_once Worlds.page0 (now st' - 5000) = s /\
        log st' = (now st', EPrint (LogSub (MDoneByStatus s e)))
                  :: (now st' - 5000, ESleep 5000)
                  :: (now st' - 5000, ECall (CEvalChip Worlds.page0)) :: rest) \/
     (exists n e rest,
        500 < n /\
        reportAt Worlds.done_at_once Worlds.page0 (now st') = n /\
        log st' = (now st', EPrint (LogSub (MDoneByLength n e)))
                  :: (now st', ECall (CEvalReport Worlds.page0)) :: rest)).
Proof.
  eexists. split.
  - vm_compute. reflexivity.
  - apply (settle_delay_after_done_status_only _ _ Worlds.st0). vm_compute. reflexivity.
Defined.

(** C6, as stated, fails: the status chip appears 5 seconds in and never
    reads done, the report stays empty, and the poller returns [false]
    905 seconds after it was called, not at 900 seconds. *)
Lemma timeout_not_exactly_at_ceiling :
  (forall t, isDone (chipAt Worlds.late_status Worlds.page0 t) = false) /\
  (forall t, reportAt Worlds.late_status Worlds.page0 t <= 500) /\
  exists st',
    pollForCompletion Worlds.late_status Worlds.page0 Worlds.st0 = (Ret false, st') /\
    now st' - now Worlds.st0 = 905000 /\
    now st' - now Worlds.st0 <> MAX_POLL_TIME_MS.
Proof.
  split; [|split].
  - intros t. unfold chipAt, Worlds.late_status. cbn.
    destruct (t <? 5000); reflexivity.
  - intros t. unfold reportAt. cbn. lia.
  - eexists. split; [vm_compute; reflexivity|].
    split; [reflexivity | discriminate].
Qed.

(** C6, amended: for every feed that never reads done and never shows a
    report of more than 500 characters, the poller returns [false] at the
    first test of its loop at or after the ceiling: not before 15
    minutes have passed since it was called, and less than one poll
    interval (30 seconds) after that.  When moreover the chip never shows
    any text and no activity indicator is seen during the discovery
    window, it returns at the ceiling exactly. *)
Theorem timeout_at_first_test_past_ceiling (w : World) (page : PageRef) (st : State) :
  (forall t, isDone (chipAt w page t) = false) ->
  (forall t, reportAt w page t <= 500) ->
  exists st',
    pollForCompletion w page st = (Ret false, st') /\
    timed_out (now st) st' /\
    MAX_POLL_TIME_MS <= now st' - now st < MAX_POLL_TIME_MS + POLL_INTERVAL_MS /\
    ((forall t, chipAt w page t = "") ->
     (forall t, indicatorAt w page t = false) ->
     now st' - now st = MAX_POLL_TIME_MS).
Proof.
  intros Hnever Hshort.
  destruct (poll_total w page st) as [b [st' Hrun]].
  destruct b.
  - exfalso.
    destruct (poll_success w page st st' Hrun)
      as [st2 [rest [Heq [Hnow [Hlog [Hs | Hl]]]]]].
    + destruct Hs as [t [rest' [H1 [H2 [H3 _]]]]].
      rewrite Hnever in H3. discriminate.
    + destruct Hl as [rest' [H1 [H2 [H3 [H4 _]]]]].
      specialize (Hshort (now st')). lia.
  - exists st'. split; [exact Hrun|].
    pose proof (poll_failure w page st st' Hrun) as Hout.
    split; [exact Hout|].
    destruct Hout as [H1 [H2 _]]. split; [lia|].
    intros Hsilent Hnoind.
    destruct (poll_quiet w page st) as [st2 [rest [Heq [Hnow2 Hlog2]]]].
    { intros k Hk. split; [apply Hsilent | apply Hnoind]. }
    destruct (phase2_silent_exact w page (now st) st2 Hsilent Hshort Hnow2)
      as [st3 [Hrun3 Hnow3]].
    rewrite Heq, Hrun3 in Hrun. injection Hrun as Hst. subst st3. lia.
Qed.

(** A concrete run to which [timeout_at_first_test_past_ceiling] applies. *)
Lemma timeout_at_first_test_past_ceiling_witness :
  exists st',
    pollForCompletion Worlds.quiet Worlds.page0 Worlds.st0 = (Ret false, st') /\
    timed_out (now Worlds.st0) st' /\
    MAX_POLL_TIME_MS <= now st' - now Worlds.st0
      < MAX_POLL_TIME_MS + POLL_INTERVAL_MS /\
    ((forall t, chipAt Worlds.quiet Worlds.page0 t = "") ->
     (forall t, indicatorAt Worlds.quiet Worlds.page0 t = false) ->
     now st' - now Worlds.st0 = MAX_POLL_TIME_MS).
Proof.
  apply (timeout_at_first_test_past_ceiling Worlds.quiet Worlds.page0 Worlds.st0).
  - intros t. reflexivity.
  - intros t. vm_compute. discriminate.
Defined.


End PollerClaims.

(** ** The log only grows *)

Section Grows.
Import Js Drk.

Lemma grows_ret {A} (a : A) : grows (ret a).
Proof. intros st o st' H. injection H as _ <-. exists []. reflexivity. Qed.

Lemma grows_throw {A} (e : JsError) : grows (@throw A e).
Proof. intros st o st' H. injection H as _ <-. exists []. reflexivity. Qed.

Lemma grows_exit {A} (c : Z) : grows (@process_exit A c).
Proof. intros st o st' H. injection H as _ <-. exists []. reflexivity. Qed.

Lemma grows_never {A} : grows (@never A).
Proof. intros st o st' H. injection H as _ <-. exists []. reflexivity. Qed.

Lemma grows_out_of_fuel {A} : grows (@out_of_fuel A).
Proof. intros st o st' H. injection H as _ <-. exists []. reflexivity. Qed.

Lemma grows_date_now : grows date_now.
Proof. intros st o st' H. injection H as _ <-. exists []. reflexivity. Qed.

Lemma grows_emit (e : Event) : grows (emit e).
Proof. intros st o st' H. injection H as _ <-. exists [(now st, e)]. reflexivity. Qed.

Lemma grows_sleep (ms : Z) : grows (sleep ms).
Proof. intros st o st' H. injection H as _ <-. exists [(now st, ESleep ms)]. reflexivity. Qed.

Lemma grows_bind {A B} (m : M A) (k : A -> M B) :
  grows m -> (forall a, grows (k a)) -> grows (bind m k).
Proof.
  intros Hm Hk st o st' H. unfold bind in H.
  destruct (m st) as [[a|e|c| |] st1] eqn:Hrun;
    destruct (Hm _ _ _ Hrun) as [l1 Hl1];
    try (injection H as _ <-; exists l1; exact Hl1).
  destruct (Hk a _ _ _ H) as [l2 Hl2].
  exists (l2 ++ l1)%list. rewrite Hl2, Hl1. apply app_assoc.
Qed.

Lemma grows_try_catch {A} (m : M A) (h : JsError -> M A) :
  grows m -> (forall e, grows (h e)) -> grows (try_catch m h).
Proof.
  intros Hm Hh st o st' H. unfold try_catch in H.
  destruct (m st) as [[a|e|c| |] st1] eqn:Hrun;
    destruct (Hm _ _ _ Hrun) as [l1 Hl1];
    try (injection H as _ <-; exists l1; exact Hl1).
  destruct (Hh e _ _ _ H) as [l2 Hl2].
  exists (l2 ++ l1)%list. rewrite Hl2, Hl1. apply app_assoc.
Qed.

Lemma grows_try_finally {A} (m : M A) (f : M unit) :
  grows m -> grows f -> grows (try_finally m f).
Proof.
  intros Hm Hf st o st' H. unfold try_finally in H.
  destruct (m st) as [[a|e|c| |] st1] eqn:Hrun;
    destruct (Hm _ _ _ Hrun) as [l1 Hl1];
    try (injection H as _ <-; exists l1; exact Hl1).
  - assert (Hg : grows (bind f (fun _ => ret a))).
    { apply grows_bind; [exact Hf | intros; apply grows_ret]. }
    destruct (Hg _ _ _ H) as [l2 Hl2].
    exists (l2 ++ l1)%list. rewrite Hl2, Hl1. apply app_assoc.
  - assert (Hg : grows (bind f (fun _ => @throw A e))).
    { apply grows_bind; [exact Hf | intros; apply grows_throw]. }
    destruct (Hg _ _ _ H) as [l2 Hl2].
    exists (l2 ++ l1)%list. rewrite Hl2, Hl1. apply app_assoc.
Qed.

Lemma grows_while {V R} (cond : V -> M bool) (body : V -> M (Ctl V R)) :
  (forall v, grows (cond v)) -> (forall v, grows (body v)) ->
  forall fuel v, grows (while_ fuel cond body v).
Proof.
  intros Hc Hb. induction fuel as [|fuel IH]; intros v.
  - apply grows_out_of_fuel.
  - cbn [while_]. apply grows_bind; [apply Hc|].
    intros [|]; [|apply grows_ret].
    apply grows_bind; [apply Hb|].
    intros [v'|v'|r]; [apply IH | apply grows_ret | apply grows_ret].
Qed.

Lemma grows_for_of {A V R} (body : A -> V -> M (Ctl V R)) :
  (forall x v, grows (body x v)) ->
  forall l v, grows (for_of l body v).
Proof.
  intros Hb. induction l as [|x l IH]; intros v.
  - apply grows_ret.
  - cbn [for_of]. apply grows_bind; [apply Hb|].
    intros [v'|v'|r]; [apply IH | apply grows_ret | apply grows_ret].
Qed.

Variable w : World.

Lemma grows_answer (c : Call) : grows (answer w c).
Proof. intros st o st' H. injection H as _ <-. exists []. reflexivity. Qed.

Lemma grows_issue (c : Call) : grows (issue w c).
Proof. intros st o st' H. injection H as _ <-. exists [(now st, ECall c)]. reflexivity. Qed.

Lemma grows_await (r : Res Value) : grows (await r).
Proof. destruct r; [apply grows_ret | apply grows_throw]. Qed.

Lemma grows_call (c : Call) : grows (call w c).
Proof. apply grows_bind; [apply grows_issue | intros; apply grows_await]. Qed.

Lemma grows_await_both (a b : Res Value) : grows (await_both a b).
Proof.
  unfold await_both.
  apply grows_bind; [apply grows_await|]. intros va.
  apply grows_bind; [apply grows_await|]. intros vb. apply grows_ret.
Qed.
End Grows.

(** Solves [grows m] for a computation built from the primitives. *)
Ltac grow_step :=
  lazymatch goal with
  | |- Js.grows (Drk.while_ _ _ _ _) => apply grows_while; intros ?
  | |- Js.grows (Drk.for_of _ _ _) => apply grows_for_of; intros ? ?
  | |- Js.grows (Js.bind _ _) => apply grows_bind; [|intros ?]
  | |- Js.grows (Js.try_catch _ _) => apply grows_try_catch; [|intros ?]
  | |- Js.grows (Js.try_finally _ _) => apply grows_try_finally
  | |- Js.grows (Js.ret _) => apply grows_ret
  | |- Js.grows (Js.throw _) => apply grows_throw
  | |- Js.grows (Js.process_exit _) => apply grows_exit
  | |- Js.grows Js.never => apply grows_never
  | |- Js.grows Js.date_now => apply grows_date_now
  | |- Js.grows (Js.emit _) => apply grows_emit
  | |- Js.grows (Js.sleep _) => apply grows_sleep
  | |- Js.grows (Drk.answer _ _) => apply grows_answer
  | |- Js.grows (Drk.issue _ _) => apply grows_issue
  | |- Js.grows (Drk.await _) => apply grows_await
  | |- Js.grows (Drk.await_both _ _) => apply grows_await_both
  | |- Js.grows (Drk.call _ _) => apply grows_call
  | |- Js.grows (match ?x with _ => _ end) => destruct x
  | |- Js.grows (let _ := _ in _) => cbv zeta
  end.

Ltac grow := repeat grow_step.

Section StagesGrow.
Import Js Drk.
Variable w : World.

Lemma grows_console (l : Line) : grows (console l).
Proof. apply grows_emit. Qed.

Lemma grows_pollForCompletion (page : PageRef) : grows (pollForCompletion w page).
Proof.
  unfold pollForCompletion, phase1, phase2, phase1_iteration, phase2_iteration,
    readChip, readReportLength, logSub, console.
  grow.
Qed.

Lemma grows_exportToGoogleDocs (page : PageRef) : grows (exportToGoogleDocs w page).
Proof.
  unfold exportToGoogleDocs, export_iteration, export_scan_page,
    waitForTimeout, logSub, logStep, console.
  grow.
Qed.

Lemma grows_downloadEpubFromDocs (docsPage : PageRef) :
  grows (downloadEpubFromDocs w docsPage).
Proof.
  unfold downloadEpubFromDocs, openDownloadMenu, download_try_selector,
    waitForTimeout, logSub, logStep, console.
  grow.
Qed.

Lemma grows_sendToKindle (page : PageRef) (epubPath : string) :
  grows (sendToKindle w page epubPath).
Proof.
  unfold sendToKindle, waitForTimeout, logSub, logStep, console.
  grow.
Qed.
End StagesGrow.

(** ** The poller after a quiet discovery window *)

Section PollerAdvances.
Import Js Drk.
Variable w : World.
Variable page : PageRef.


End PollerAdvances.

Section PollerAdvancesClaim.
Import Js Drk.


End PollerAdvancesClaim.

(** ** The confirmation stage *)

Section Confirmation.
Import Js Drk.
Variable w : World.
Variable page : PageRef.

Lemma confirm_try_label_ends (label : string) (st : State) :
  attempt_ends w page [label] st (confirm_try_label w page label tt st).
Proof.
  unfold confirm_try_label, call, waitForTimeout.
  cbv beta iota zeta delta [bind ret issue answer await throw sleep logSub console emit].
  cbn [now log].
  destruct (w (now st) (CIsVisible page (RoleButton label))) as [v|e] eqn:Hvis;
    cbn [now log]; [|reflexivity].
  destruct (as_bool v) eqn:Hv; cbn [now log]; [|reflexivity].
  assert (Hseen : button_seen w [label] page (now st)).
  { left. exists label. split; [left; reflexivity|].
    unfold sees. rewrite Hvis. exact Hv. }
  destruct (w (now st) (CClick page (RoleButton label))); cbn [now log];
    [|reflexivity].
  destruct (w (now st) (CWaitForTimeout page 5000)); cbn [now log];
    [exact Hseen | reflexivity].
Qed.

Lemma button_seen_weaken (l1 l2 : list string) (t : Z) :
  (forall x, In x l1 -> In x l2) ->
  button_seen w l1 page t -> button_seen w l2 page t.
Proof.
  intros Hsub [[label [Hin Hs]] | Hl]; [left | right; exact Hl].
  exists label. split; [apply Hsub; exact Hin | exact Hs].
Qed.

(** The loop over the labels falls through all of them, throws, or
    returns after a click. *)
Lemma for_of_labels_ends (labels : list string) (st : State) :
  match for_of labels (confirm_try_label w page) tt st with
  | (Ret (Done _), st') | (Throw _, st') => now st' = now st
  | (Ret (Returned _), st') => button_seen w labels page (now st)
  | _ => False
  end.
Proof.
  revert st. induction labels as [|label labels IH]; intros st.
  - reflexivity.
  - cbn [for_of]. unfold bind at 1.
    pose proof (confirm_try_label_ends label st) as Hone.
    destruct (confirm_try_label w page label tt st) as [[c|e|c| |] st1];
      cbn in Hone; try contradiction; try exact Hone.
    destruct c as [[]|[]|[]]; cbn in Hone.
    + specialize (IH st1).
      destruct (for_of labels (confirm_try_label w page) tt st1) as [[c|e|c| |] st2];
        try contradiction; try lia.
      destruct c as [[]|[]]; [lia|].
      rewrite Hone in IH.
      eapply button_seen_weaken; [|exact IH]. intros x Hx. right. exact Hx.
    + contradiction.
    + cbn. eapply button_seen_weaken; [|exact Hone].
      intros x [Hx|[]]. left. exact Hx.
Qed.

Lemma confirm_attempt_ends (labels : list string) (st : State) :
  attempt_ends w page labels st (confirm_attempt w labels page st).
Proof.
  unfold confirm_attempt. unfold bind at 1.
  pose proof (for_of_labels_ends labels st) as Hloop.
  destruct (for_of labels (confirm_try_label w page) tt st) as [[c|e|c| |] st1];
    try contradiction; try exact Hloop.
  destruct c as [[]|[]]; [|exact Hloop].
  unfold call, waitForTimeout.
  cbv beta iota zeta delta [bind ret issue answer await throw sleep logSub console emit].
  cbn [now log]. unfold attempt_ends.
  destruct (w (now st1) (CIsVisible page LooseStartButton)) as [v|e] eqn:Hvis;
    cbn [now log]; [|exact Hloop].
  destruct (as_bool v) eqn:Hv; cbn [now log]; [|exact Hloop].
  destruct (w (now st1) (CInnerText page LooseStartButton)) as [t|e] eqn:Htext;
    cbn [now log]; [|exact Hloop].
  destruct (JsString.includes (as_str t) "investiga" || JsString.includes (as_str t) "pesquisa")
    eqn:Hinc; cbn [now log]; [|exact Hloop].
  assert (Hseen : button_seen w labels page (now st)).
  { right. unfold looseMatches, sees. rewrite <- Hloop, Hvis, Htext. cbn.
    rewrite Hv, Hinc. reflexivity. }
  destruct (w (now st1) (CClick page LooseStartButton)); cbn [now log];
    [|exact Hloop].
  destruct (w (now st1) (CWaitForTimeout page 5000)); cbn [now log];
    [exact Hseen | exact Hloop].
Qed.

(** One iteration of the confirmation loop returns after a click, or
    falls through two seconds later, or throws what the wait after the
    poll rejected with: every other error is caught. *)
Lemma confirm_iteration_ends (st : State) :
  match confirm_iteration w page tt st with
  | (Ret (Next _), st') =>
      now st' = now st + 2000 /\ wait_resolves w page 2000 (now st) = true
  | (Ret (Return _), st') => button_seen w possibleButtons page (now st)
  | (Throw e, st') =>
      now st' = now st /\ w (now st) (CWaitForTimeout page 2000) = Err e
  | _ => False
  end.
Proof.
  unfold confirm_iteration. unfold bind at 1. unfold try_catch.
  pose proof (confirm_attempt_ends possibleButtons st) as Hone.
  unfold attempt_ends in Hone.
  assert (Hwait : forall s1, now s1 = now st ->
    match (waitForTimeout w page 2000 ;; ret (@Next unit unit tt))%run s1 with
    | (Ret (Next _), st') =>
        now st' = now st + 2000 /\ wait_resolves w page 2000 (now st) = true
    | (Ret (Return _), st') => button_seen w possibleButtons page (now st)
    | (Throw e, st') =>
        now st' = now st /\ w (now st) (CWaitForTimeout page 2000) = Err e
    | _ => False
    end).
  { intros s1 Hs1. unfold waitForTimeout, wait_resolves.
    cbv beta iota delta [bind ret answer sleep emit throw]. cbn [now log].
    rewrite Hs1.
    destruct (w (now st) (CWaitForTimeout page 2000)) as [v|e]; cbn [now log].
    - split; [lia | reflexivity].
    - split; [lia | reflexivity]. }
  destruct (confirm_attempt w possibleButtons page st) as [[c|e|c| |] st1];
    try contradiction.
  - destruct c as [[]|[]|[]]; try contradiction.
    + exact (Hwait st1 Hone).
    + exact Hone.
  - cbv beta iota delta [ret]. exact (Hwait st1 Hone).
Qed.

(** How the confirmation stage ends: it returns after a click, or
    after 60 seconds with the warning as the last line, or it throws
    what the wait after one of its polls rejected with. *)
Lemma confirm_spec (st : State) :
  exists o st',
    confirmResearchStart w page st = (o, st') /\
    match o with
    | Ret _ =>
        (now st' = now st + 60000 /\
         (forall k, 0 <= k < 30 -> wait_resolves w page 2000 (now st + 2000 * k) = true) /\
         exists rest, log st' = (now st', NO_BUTTON_LINE) :: rest) \/
        (exists k, 0 <= k < 30 /\
                   button_seen w possibleButtons page (now st + 2000 * k))
    | Throw e =>
        exists k, 0 <= k < 30 /\
                  now st' = now st + 2000 * k /\
                  w (now st + 2000 * k) (CWaitForTimeout page 2000) = Err e
    | _ => False
    end.
Proof.
  unfold confirmResearchStart.
  cbv beta iota zeta delta [bind logSub console emit date_now]. cbn [now log].
  match goal with
  | |- context [while_ ?f ?c ?b tt ?s] =>
      set (s0 := s); destruct (while_ f c b tt s0) as [o st1] eqn:Hloop
  end.
  unfold loop_fuel in Hloop.
  assert (HQ :
    match o with
    | Ret (Done _) =>
        now st1 = now st + 60000 /\
        (forall k, 0 <= k < 30 -> wait_resolves w page 2000 (now st + 2000 * k) = true)
    | Ret (Returned _) =>
        exists k, 0 <= k < 30 /\ button_seen w possibleButtons page (now st + 2000 * k)
    | Throw e =>
        exists k, 0 <= k < 30 /\
                  now st1 = now st + 2000 * k /\
                  w (now st + 2000 * k) (CWaitForTimeout page 2000) = Err e
    | _ => False
    end).
  { refine (while_rule _ _ (now st + 60000) 2000
              (fun _ s => exists k, 0 <= k <= 30 /\ now s = now st + 2000 * k /\
                 forall j, 0 <= j < k ->
                   wait_resolves w page 2000 (now st + 2000 * j) = true)
              (fun o s' =>
                 match o with
                 | Ret (Done _) =>
                     now s' = now st + 60000 /\
                     (forall k, 0 <= k < 30 ->
                        wait_resolves w page 2000 (now st + 2000 * k) = true)
                 | Ret (Returned _) =>
                     exists k, 0 <= k < 30 /\
                               button_seen w possibleButtons page (now st + 2000 * k)
                 | Throw e =>
                     exists k, 0 <= k < 30 /\
                               now s' = now st + 2000 * k /\
                               w (now st + 2000 * k) (CWaitForTimeout page 2000) = Err e
                 | _ => False
                 end) _ _ _ _ tt s0 o st1 _ _ Hloop).
    - intros v s. exists (now s - now st <? 60000).
      split; [reflexivity|]. intros H. apply Z.ltb_lt in H. lia.
    - intros v s [k [Hk [Hs Hw]]] Hc.
      cbv beta iota delta [bind ret date_now] in Hc.
      injection Hc as Hb. apply Z.ltb_ge in Hb.
      assert (k = 30) by lia. subst k. split; [lia | exact Hw].
    - intros [] s [k [Hk [Hs Hw]]] Hc.
      cbv beta iota delta [bind ret date_now] in Hc.
      injection Hc as Hb. apply Z.ltb_lt in Hb.
      pose proof (confirm_iteration_ends s) as Hone.
      destruct (confirm_iteration w page tt s) as [[c|e|c| |] s1];
        try contradiction.
      + destruct c as [[]|[]|[]]; try contradiction.
        * destruct Hone as [Hnow Hres]. split; [lia|]. exists (k + 1).
          split; [lia|]. split; [lia|].
          intros j Hj. destruct (Z.eq_dec j k) as [->|Hne].
          -- rewrite <- Hs. exact Hres.
          -- apply Hw. lia.
        * exists k. split; [lia|]. rewrite <- Hs. exact Hone.
      + destruct Hone as [Hnow Herr]. exists k.
        split; [lia|]. split; [lia|]. rewrite <- Hs. exact Herr.
    - exists 0. subst s0. cbn [now]. split; [lia|]. split; [lia|]. intros j Hj. lia.
    - subst s0. cbn [now].
      change (Z.of_nat (Z.to_nat (60000 / 2000))) with 30. lia. }
  destruct o as [[[]|[]]|e|c| |]; try contradiction.
  - cbv beta iota delta [ret logSub console emit]. cbn [now log].
    eexists. eexists. split; [reflexivity|]. left. cbn [now log].
    destruct HQ as [Hnow Hw].
    split; [exact Hnow|]. split; [exact Hw|]. eexists. reflexivity.
  - eexists. eexists. split; [reflexivity|]. right. exact HQ.
  - eexists. eexists. split; [reflexivity|]. exact HQ.
Qed.
End Confirmation.

(** ** The fallback cascades *)

Section Cascades.
Import Js Drk.
Variable w : World.
Variable page : PageRef.

Lemma probes_snoc (ls : list Locator) (l : Locator) (t : Z) :
  probes page (ls ++ [l]) t = (t, ECall (CIsVisible page l)) :: probes page ls t.
Proof. unfold probes. rewrite List.map_app, rev_app_distr. reflexivity. Qed.

Lemma probes_cons_app (l : Locator) (ls : list Locator) (t : Z) (rest : list (Z * Event)) :
  (probes page (l :: ls) t ++ rest)%list
  = (probes page ls t ++ (t, ECall (CIsVisible page l)) :: rest)%list.
Proof. unfold probes. cbn [map rev]. rewrite <- app_assoc. reflexivity. Qed.

(** The labels that are not on the page are probed one after the
    other. *)
Lemma for_of_labels_skip (pre rest : list string) (st : State) :
  (forall p, In p pre -> w (now st) (CIsVisible page (RoleButton p)) = Ok (VBool false)) ->
  for_of (pre ++ rest) (confirm_try_label w page) tt st
  = for_of rest (confirm_try_label w page) tt
      (mkState (now st) (probes page (map RoleButton pre) (now st) ++ log st)).
Proof.
  revert st. induction pre as [|p pre IH]; intros st Hpre.
  - cbn. destruct st; reflexivity.
  - cbn [app for_of]. unfold bind at 1.
    unfold confirm_try_label at 1. unfold call.
    cbv beta iota zeta delta [bind ret issue await].
    cbn [now log].
    rewrite (Hpre p (or_introl eq_refl)). cbn [as_bool now log].
    rewrite IH.
    + cbn [now log map]. rewrite probes_cons_app. reflexivity.
    + intros q Hq. cbn [now]. apply Hpre. right. exact Hq.
Qed.

(** The selectors that match nothing are probed one after the other. *)
Lemma for_of_selectors_skip (pre rest : list string) (clicked : bool) (st : State) :
  (forall p, In p pre -> sees w page (Css p) (now st) = false) ->
  for_of (pre ++ rest) (download_try_selector w page) clicked st
  = for_of rest (download_try_selector w page) clicked
      (mkState (now st) (probes page (map Css pre) (now st) ++ log st)).
Proof.
  revert st. induction pre as [|p pre IH]; intros st Hpre.
  - cbn. destruct st; reflexivity.
  - cbn [app for_of]. unfold bind at 1.
    unfold download_try_selector at 1. unfold call, try_catch.
    cbv beta iota zeta delta [bind ret issue await].
    cbn [now log].
    pose proof (Hpre p (or_introl eq_refl)) as Hp. unfold sees in Hp.
    rewrite Hp. cbn [now log].
    rewrite IH.
    + cbn [now log map]. rewrite probes_cons_app. reflexivity.
    + intros q Hq. cbn [now]. apply Hpre. right. exact Hq.
Qed.

(** C5, as stated, fails: there is no [NoStrategySucceeded].  On a
    document page where neither download selector matches and the text
    locator times out, opening the download menu fails with the
    [TimeoutError] of the text locator; and when no confirmation button
    ever shows, the confirmation stage returns without any error. *)
Lemma exhausted_cascades_raise_no_typed_error :
  (forall sel t, In sel downloadSelectors ->
     sees Worlds.no_download_entry Worlds.page0 (Css sel) t = false) /\
  (exists e st',
     openDownloadMenu Worlds.no_download_entry downloadSelectors Worlds.page0 Worlds.st0
       = (Throw e, st') /\
     err_name e = "TimeoutError" /\
     err_name e <> "NoStrategySucceeded") /\
  (forall t, ~ button_seen Worlds.quiet possibleButtons Worlds.page0 t) /\
  (exists st',
     confirmResearchStart Worlds.quiet Worlds.page0 Worlds.st0 = (Ret tt, st')).
Proof.
  split; [|split; [|split]].
  - intros sel t _. reflexivity.
  - eexists. eexists. split; [vm_compute; reflexivity|].
    split; [reflexivity | discriminate].
  - intros t [[label [_ H]] | H]; discriminate.
  - eexists. vm_compute. reflexivity.
Qed.
End Cascades.

Section CascadeClaims.
Import Js Drk.

(** C5, amended: the script has no [tryInOrder] and no
    [NoStrategySucceeded]; its cascades are the loop over the confirmation
    labels and the loop over the download selectors.  For every list of
    candidates whose first K are not on the page and whose (K+1)-th is
    visible and takes the click, each cascade probes the first K+1
    candidates in order, clicks the (K+1)-th and probes none after it;
    after the click the confirmation attempt waits five seconds and
    returns, or ends with the error of that wait when it rejects.
    When every candidate is empty no error of the cascade's own is raised:
    the confirmation attempt falls through without an error, and the
    download cascade goes on with the locator by text, whose own outcome
    is the outcome of the stage. *)
Theorem cascades_stop_at_first_hit (w : World) (page : PageRef) :
  (forall pre x post st,
      (forall p, In p pre ->
         w (now st) (CIsVisible page (RoleButton p)) = Ok (VBool false)) ->
      w (now st) (CIsVisible page (RoleButton x)) = Ok (VBool true) ->
      w (now st) (CClick page (RoleButton x)) = Ok VUnit ->
      confirm_attempt w (pre ++ x :: post) page st =
        let clicked :=
          (now st, EPrint (LogSub (Text "✅ Pesquisa iniciada (plano confirmado).")))
          :: (now st, ECall (CClick page (RoleButton x)))
          :: (now st, EPrint (LogSub (MButtonFound x)))
          :: (probes page (map RoleButton (pre ++ [x])) (now st) ++ log st)%list in
        match w (now st) (CWaitForTimeout page 5000) with
        | Ok _ =>
            (Ret (Return tt),
             mkState (now st + 5000) ((now st, ESleep 5000) :: clicked))
        | Err e =>
            (Throw e,
             mkState (now st) ((now st, ECall (CWaitForTimeout page 5000)) :: clicked))
        end) /\
  (forall pre x post st,
      (forall p, In p pre -> sees w page (Css p) (now st) = false) ->
      sees w page (Css x) (now st) = true ->
      w (now st) (CClick page (Css x)) = Ok VUnit ->
      openDownloadMenu w (pre ++ x :: post) page st =
        (Ret true,
         mkState (now st)
           ((now st, ECall (CClick page (Css x)))
            :: (probes page (map Css (pre ++ [x])) (now st) ++ log st)%list))) /\
  (forall labels st,
      (forall p, In p labels ->
         w (now st) (CIsVisible page (RoleButton p)) = Ok (VBool false)) ->
      w (now st) (CIsVisible page LooseStartButton) = Ok (VBool false) ->
      confirm_attempt w labels page st =
        (Ret (Next tt),
         mkState (now st)
           (probes page (map RoleButton labels ++ [LooseStartButton]) (now st)
              ++ log st)%list)) /\
  (forall selectors st,
      (forall p, In p selectors -> sees w page (Css p) (now st) = false) ->
      openDownloadMenu w selectors page st =
        (call w (CWaitFor page DownloadText 5000) ;;
         call w (CClick page DownloadText) ;;
         ret true)%run
          (mkState (now st)
             (probes page (map Css selectors) (now st) ++ log st)%list)).
Proof.
  split; [|split; [|split]].
  - intros pre x post st Hpre Hx Hclick.
    unfold confirm_attempt. unfold bind at 1.
    rewrite (for_of_labels_skip w page pre (x :: post) st Hpre).
    cbn [for_of]. unfold bind at 1.
    unfold confirm_try_label at 1. unfold call, waitForTimeout.
    cbv beta iota zeta delta [bind ret issue answer await throw sleep logSub console emit].
    cbn [now log]. rewrite Hx. cbn [as_bool now log].
    rewrite Hclick. cbn [now log].
    rewrite List.map_app. cbn [map]. rewrite probes_snoc.
    destruct (w (now st) (CWaitForTimeout page 5000)); reflexivity.
  - intros pre x post st Hpre Hx Hclick.
    unfold openDownloadMenu. unfold bind at 1.
    rewrite (for_of_selectors_skip w page pre (x :: post) false st Hpre).
    cbn [for_of]. unfold bind at 1.
    unfold download_try_selector at 1. unfold call, try_catch.
    cbv beta iota zeta delta [bind ret issue await].
    cbn [now log]. unfold sees in Hx. rewrite Hx. cbn [now log].
    rewrite Hclick. cbn [now log negb].
    rewrite List.map_app. cbn [map]. rewrite probes_snoc. reflexivity.
  - intros labels st Hall Hloose.
    unfold confirm_attempt. unfold bind at 1.
    rewrite <- (app_nil_r labels) at 1.
    rewrite (for_of_labels_skip w page labels [] st Hall).
    cbn [for_of]. unfold call.
    cbv beta iota zeta delta [bind ret issue await].
    cbn [now log]. rewrite Hloose. cbn [as_bool now log].
    rewrite probes_snoc. reflexivity.
  - intros selectors st Hall.
    unfold openDownloadMenu. unfold bind at 1.
    rewrite <- (app_nil_r selectors) at 1.
    rewrite (for_of_selectors_skip w page selectors [] false st Hall).
    cbn [for_of]. cbv beta iota delta [ret negb]. reflexivity.
Qed.

(** A concrete run to which [cascades_stop_at_first_hit] applies. *)
Lemma cascades_stop_at_first_hit_witness :
  confirm_attempt Worlds.third_label
    (["Iniciar investigação"; "Start investigation"]
       ++ "Iniciar pesquisa" :: ["Start research"; "Looks good"; "Confirmar"])
    Worlds.page0 Worlds.st0 =
    (Ret (Return tt),
     mkState 5000
       [ (0, ESleep 5000);
         (0, EPrint (LogSub (Text "✅ Pesquisa iniciada (plano confirmado).")));
         (0, ECall (CClick Worlds.page0 (RoleButton "Iniciar pesquisa")));
         (0, EPrint (LogSub (MButtonFound "Iniciar pesquisa")));
         (0, ECall (CIsVisible Worlds.page0 (RoleButton "Iniciar pesquisa")));
         (0, ECall (CIsVisible Worlds.page0 (RoleButton "Start investigation")));
         (0, ECall (CIsVisible Worlds.page0 (RoleButton "Iniciar investigação"))) ]) /\
  (exists first second : string,
     downloadSelectors = ([first] ++ second :: [])%list /\
     openDownloadMenu Worlds.second_selector downloadSelectors
       Worlds.page0 Worlds.st0 =
       (Ret true,
        mkState 0
          [ (0, ECall (CClick Worlds.page0 (Css second)));
            (0, ECall (CIsVisible Worlds.page0 (Css second)));
            (0, ECall (CIsVisible Worlds.page0 (Css first))) ])) /\
  confirm_attempt Worlds.quiet possibleButtons Worlds.page0 Worlds.st0 =
    (Ret (Next tt),
     mkState 0
       (probes Worlds.page0
          (map RoleButton possibleButtons ++ [LooseStartButton]) 0)) /\
  (exists e st',
     openDownloadMenu Worlds.no_download_entry downloadSelectors
       Worlds.page0 Worlds.st0 = (Throw e, st') /\
     err_name e = "TimeoutError").
Proof.
  pose proof (cascades_stop_at_first_hit Worlds.third_label Worlds.page0) as [H1 _].
  pose proof (cascades_stop_at_first_hit Worlds.second_selector Worlds.page0) as [_ [H2 _]].
  pose proof (cascades_stop_at_first_hit Worlds.quiet Worlds.page0) as [_ [_ [H3 _]]].
  pose proof (cascades_stop_at_first_hit Worlds.no_download_entry Worlds.page0)
    as [_ [_ [_ H4]]].
  split; [|split; [|split]].
  - apply (H1 ["Iniciar investigação"; "Start investigation"] "Iniciar pesquisa"
             ["Start research"; "Looks good"; "Confirmar"] Worlds.st0).
    + intros p [<-|[<-|[]]]; reflexivity.
    + reflexivity.
    + reflexivity.
  - eexists. eexists. split; [reflexivity|].
    apply (H2 [_] _ [] Worlds.st0).
    + intros p [<-|[]]. reflexivity.
    + reflexivity.
    + reflexivity.
  - rewrite (H3 possibleButtons Worlds.st0).
    + rewrite app_nil_r. reflexivity.
    + intros p _. reflexivity.
    + reflexivity.
  - rewrite (H4 downloadSelectors Worlds.st0).
    + eexists. eexists. split; [vm_compute; reflexivity | reflexivity].
    + intros p _. reflexivity.
Defined.
End CascadeClaims.

(** ** The orchestrator *)

Section Orchestrator.
Import Js Drk.
Variable w : World.

Lemma bind_assoc {A B C} (m : M A) (f : A -> M B) (g : B -> M C) (st : State) :
  bind (bind m f) g st = bind m (fun a => bind (f a) g) st.
Proof. unfold bind. destruct (m st) as [[a|e|c| |] st1]; reflexivity. Qed.

Lemma bind_ret_inv {A B} (m : M A) (k : A -> M B) (st st2 : State) (b : B) :
  bind m k st = (Ret b, st2) ->
  exists a st1, m st = (Ret a, st1) /\ k a st1 = (Ret b, st2).
Proof.
  unfold bind. destruct (m st) as [[a|e|c| |] st1]; intros H; try discriminate.
  exists a, st1. split; [reflexivity | exact H].
Qed.

Lemma bind_run {A B} (m : M A) (k : A -> M B) (st st1 : State) (a : A) :
  m st = (Ret a, st1) -> bind m k st = k a st1.
Proof. intros H. unfold bind. rewrite H. reflexivity. Qed.

(** A computation that starts by printing a line leaves that line in
    the log, stamped with the instant it started. *)
Lemma printed_first {A} (line : Line) (k : unit -> M A) (st : State)
    (o : Outcome A) (st' : State) :
  grows (k tt) ->
  bind (console line) k st = (o, st') ->
  exists l, log st' = (l ++ (now st, EPrint line) :: log st)%list.
Proof.
  intros Hk H. cbv beta iota delta [bind console emit] in H.
  destruct (Hk _ _ _ H) as [l Hl]. exists l. exact Hl.
Qed.

Lemma poll_opening_logged {B} (page : PageRef) (k : bool -> M B) (st : State)
    (o : Outcome B) (st' : State) :
  (forall b, grows (k b)) ->
  bind (pollForCompletion w page) k st = (o, st') ->
  exists l, log st' = (l ++ (now st, POLL_OPENING_LINE) :: log st)%list.
Proof.
  intros Hk H. unfold pollForCompletion, logSub in H.
  rewrite bind_assoc in H.
  eapply printed_first; [|exact H].
  apply grows_bind; [|exact Hk].
  unfold phase1, phase2, phase1_iteration, phase2_iteration,
    readChip, readReportLength, logSub, console.
  grow.
Qed.

Lemma export_opening_logged {B} (page : PageRef) (k : PageRef -> M B) (st : State)
    (o : Outcome B) (st' : State) :
  (forall d, grows (k d)) ->
  bind (exportToGoogleDocs w page) k st = (o, st') ->
  exists l, log st' = (l ++ (now st, EXPORT_OPENING_LINE) :: log st)%list.
Proof.
  intros Hk H. unfold exportToGoogleDocs, logStep in H.
  rewrite bind_assoc in H.
  eapply printed_first; [|exact H].
  apply grows_bind; [|exact Hk].
  unfold export_iteration, export_scan_page, waitForTimeout, logSub, logStep, console.
  grow.
Qed.

(** What follows the export stage in the full flow only adds to the
    log. *)
Lemma grows_after_export (page : PageRef) (skipKindle : bool) (docsPage : PageRef) :
  grows
    (epubPath <- downloadEpubFromDocs w docsPage ;;
     call w (CClosePage docsPage) ;;
     (if negb skipKindle
      then sendToKindle w page epubPath
      else logStep 7 (Text "⏭️  Envio ao Kindle pulado (--no-kindle).")) ;;
     console ConsoleBlank ;;
     log_ SEPARATOR ;;
     log_ (Text "🎉 Concluído!") ;;
     log_ (MEpub epubPath) ;;
     (if negb skipKindle
      then log_ (Text "   Enviado ao Kindle via Send to Kindle.")
      else ret tt) ;;
     log_ SEPARATOR)%run.
Proof.
  apply grows_bind; [apply grows_downloadEpubFromDocs|]. intros epubPath.
  apply grows_bind; [apply grows_call|]. intros _.
  apply grows_bind.
  { destruct (negb skipKindle); [apply grows_sendToKindle | apply grows_console]. }
  intros _. unfold log_, console. grow.
Qed.

(** When the stages before the poller have returned, the full flow goes
    on with the poller and then with the export stage, whatever the
    poller returns. *)
Lemma fullFlow_from_poll (page : PageRef) (model : Models.JsVal) (query : string)
    (skipKindle : bool) (st0 st1 : State) (o : Outcome unit) (stf : State) :
  (navigateToGemini w page GEMINI_URL ;;
   selectModel w page model ;;
   enableDeepResearch w page ;;
   submitQuery w page query ;;
   confirmResearchStart w page)%run st0 = (Ret tt, st1) ->
  fullFlow w page model query skipKindle st0 = (o, stf) ->
  exists b st2 l,
    pollForCompletion w page st1 = (Ret b, st2) /\
    log stf = (l ++ (now st2, EXPORT_OPENING_LINE) :: log st2)%list.
Proof.
  intros Hpre Hrun.
  apply bind_ret_inv in Hpre. destruct Hpre as [[] [s1 [H1 Hpre]]].
  apply bind_ret_inv in Hpre. destruct Hpre as [[] [s2 [H2 Hpre]]].
  apply bind_ret_inv in Hpre. destruct Hpre as [[] [s3 [H3 Hpre]]].
  apply bind_ret_inv in Hpre. destruct Hpre as [[] [s4 [H4 H5]]].
  unfold fullFlow in Hrun.
  rewrite (bind_run _ _ _ _ _ H1) in Hrun.
  rewrite (bind_run _ _ _ _ _ H2) in Hrun.
  rewrite (bind_run _ _ _ _ _ H3) in Hrun.
  rewrite (bind_run _ _ _ _ _ H4) in Hrun.
  rewrite (bind_run _ _ _ _ _ H5) in Hrun.
  destruct (poll_total w page st1) as [b [st2 Hpoll]].
  rewrite (bind_run _ _ _ _ _ Hpoll) in Hrun.
  exists b, st2.
  apply export_opening_logged in Hrun.
  - destruct Hrun as [l Hl]. exists l. split; [exact Hpoll | exact Hl].
  - intros d. apply grows_after_export.
Qed.
End Orchestrator.

(** ** Claims on the orchestrator *)

Section OrchestratorClaims.
Import Js Drk.

(** C1, as stated, fails: in a cooperative browser where the research
    never signals completion the poller times out, and the run goes on
    through steps 5, 6 and 7, closes the context and ends with status
    0. *)
Lemma pipeline_continues_after_poll_timeout :
  exists st',
    main Worlds.quiet ["history of the printing press"] Worlds.st0 = (Ret tt, st') /\
    exit_status (Ret tt) = Some 0 /\
    printed_at 972000 "⚠️  Tempo máximo de polling atingido." (log st') = true /\
    step_logged 5 (log st') = true /\
    step_logged 6 (log st') = true /\
    step_logged 7 (log st') = true /\
    closes_context (log st') = true.
Proof.
  eexists. split; [vm_compute; reflexivity|].
  split; [reflexivity|].
  repeat split; vm_compute; reflexivity.
Qed.

(** C1, amended: a timed-out poll does not halt the pipeline.  In every
    run of the full flow in which the stages before the poller return,
    whatever the poller returns, the next line of the run, at the same
    instant, opens the export stage; and when the poller returns [false]
    the line before it is the timeout warning.  [main] discards the
    value of [pollForCompletion]. *)
Theorem poll_timeout_does_not_halt (w : World) (page : PageRef)
    (model : Models.JsVal) (query : string) (skipKindle : bool)
    (st0 st1 st2 : State) (b : bool) (o : Outcome unit) (stf : State) :
  (navigateToGemini w page GEMINI_URL ;;
   selectModel w page model ;;
   enableDeepResearch w page ;;
   submitQuery w page query ;;
   confirmResearchStart w page)%run st0 = (Ret tt, st1) ->
  pollForCompletion w page st1 = (Ret b, st2) ->
  fullFlow w page model query skipKindle st0 = (o, stf) ->
  (exists l, log stf = (l ++ (now st2, EXPORT_OPENING_LINE) :: log st2)%list) /\
  (b = false ->
   exists l rest,
     log stf = (l ++ (now st2, EXPORT_OPENING_LINE)
                  :: (now st2, TIMEOUT_LINE) :: rest)%list).
Proof.
  intros Hpre Hpoll Hrun.
  destruct (fullFlow_from_poll w page model query skipKindle st0 st1 o stf Hpre Hrun)
    as [b' [st2' [l [Hpoll' Hlog]]]].
  rewrite Hpoll in Hpoll'. injection Hpoll' as <- <-.
  split; [exists l; exact Hlog|].
  intros ->.
  destruct (poll_failure w page st1 st2 Hpoll) as [_ [_ [rest Hrest]]].
  exists l, rest. rewrite Hlog, Hrest. reflexivity.
Qed.

(** A concrete run to which [poll_timeout_does_not_halt] applies. *)
Lemma poll_timeout_does_not_halt_witness :
  exists l rest,
    log (snd (fullFlow Worlds.quiet Worlds.page0 (Models.resolveModel None)
                "history of the printing press" false Worlds.st0))
    = (l ++ (972000, EXPORT_OPENING_LINE) :: (972000, TIMEOUT_LINE) :: rest)%list.
Proof.
  pose (pre := (navigateToGemini Worlds.quiet Worlds.page0 GEMINI_URL ;;
                selectModel Worlds.quiet Worlds.page0 (Models.resolveModel None) ;;
                enableDeepResearch Worlds.quiet Worlds.page0 ;;
                submitQuery Worlds.quiet Worlds.page0 "history of the printing press" ;;
                confirmResearchStart Worlds.quiet Worlds.page0)%run).
  pose (st1 := snd (pre Worlds.st0)).
  pose (st2 := snd (pollForCompletion Worlds.quiet Worlds.page0 st1)).
  change 972000 with (now st2).
  refine (proj2 (poll_timeout_does_not_halt Worlds.quiet Worlds.page0
           (Models.resolveModel None)
           "history of the printing press" false Worlds.st0 st1 st2 false
           (fst (fullFlow Worlds.quiet Worlds.page0 (Models.resolveModel None)
                   "history of the printing press" false Worlds.st0)) _ _ _ _) eq_refl).
  - vm_compute. reflexivity.
  - vm_compute. reflexivity.
  - apply surjective_pairing.
Defined.

(** In the model a [finally] block does not run once the guarded block
    has called [process.exit]. *)
Lemma exit_preempts_finally {A} (m : M A) (f : M unit) (st st' : State) (c : Z) :
  m st = (Exit c, st') -> try_finally m f st = (Exit c, st').
Proof. intros H. unfold try_finally. rewrite H. reflexivity. Qed.

(** C2 does not hold of the code: when the export menu never shows, the
    export stage throws, the [catch] block of [main] calls
    [process.exit(1)], and the process ends with status 1 without
    [context.close()] having been called.  When every stage succeeds the
    context is closed. *)
Theorem cleanup_skipped_when_a_stage_throws :
  (exists st',
     main Worlds.no_export_menu ["history of the printing press"] Worlds.st0
       = (Exit 1, st') /\
     exit_status (Exit 1) = Some 1 /\
     step_logged 5 (log st') = true /\
     closes_context (log st') = false) /\
  (exists st',
     main Worlds.long_report ["history of the printing press"] Worlds.st0
       = (Ret tt, st') /\
     closes_context (log st') = true).
Proof.
  split.
  - eexists. split; [vm_compute; reflexivity|].
    repeat split; vm_compute; reflexivity.
  - eexists. split; [vm_compute; reflexivity|].
    vm_compute; reflexivity.
Qed.

(** C9, as stated, fails: the wait between two polls is outside the
    [try] of the loop.  In a world where no confirmation button ever
    shows and the page is closed twenty seconds in, the confirmation
    stage, entered at second 12 as in a full run, throws at second 20
    the error of [page.waitForTimeout]; [main] then ends the process
    with status 1 and the poller is never started. *)
Lemma closed_page_ends_confirmation_with_an_error :
  no_confirm_button Worlds.closed_at_20s Worlds.page0 12000 /\
  (exists st',
     confirmResearchStart Worlds.closed_at_20s Worlds.page0 (mkState 12000 [])
       = (Throw Worlds.closedError, st') /\
     now st' = 20000) /\
  (exists st',
     main Worlds.closed_at_20s ["history of the printing press"] Worlds.st0
       = (Exit 1, st') /\
     step_logged 4 (log st') = true /\
     printed "⏳ Aguardando conclusão da pesquisa..." (log st') = false).
Proof.
  split; [|split].
  - intros k Hk [[label [_ Hs]] | Hl].
    + unfold sees, Worlds.closed_at_20s in Hs.
      destruct (12000 + 2000 * k <? 20000); discriminate.
    + unfold looseMatches, sees, Worlds.closed_at_20s in Hl.
      destruct (12000 + 2000 * k <? 20000); discriminate.
  - eexists. split; vm_compute; reflexivity.
  - eexists. split; [vm_compute; reflexivity|].
    split; vm_compute; reflexivity.
Qed.

(** C9, amended: the confirmation stage raises only what the wait after
    one of its polls rejects with; every other error is caught.  When no
    confirmation button is seen at any of its 30 polls, two seconds
    apart, and the wait after each poll resolves, it returns after 60
    seconds with the warning as its last line, and the full flow then
    goes on with the poller at that instant. *)
Theorem confirmation_absent_is_not_an_error (w : World) (page : PageRef) :
  (forall st o st',
      confirmResearchStart w page st = (o, st') ->
      o = Ret tt \/
      exists e k,
        0 <= k < 30 /\ o = Throw e /\ now st' = now st + 2000 * k /\
        w (now st + 2000 * k) (CWaitForTimeout page 2000) = Err e) /\
  (forall st,
      no_confirm_button w page (now st) ->
      polls_wait w page (now st) ->
      exists st' rest,
        confirmResearchStart w page st = (Ret tt, st') /\
        now st' = now st + 60000 /\
        log st' = (now st', NO_BUTTON_LINE) :: rest) /\
  (forall model query skipKindle st0 st1 o stf,
      (navigateToGemini w page GEMINI_URL ;;
       selectModel w page model ;;
       enableDeepResearch w page ;;
       submitQuery w page query)%run st0 = (Ret tt, st1) ->
      no_confirm_button w page (now st1) ->
      polls_wait w page (now st1) ->
      fullFlow w page model query skipKindle st0 = (o, stf) ->
      exists l rest,
        log stf = (l ++ (now st1 + 60000, POLL_OPENING_LINE)
                     :: (now st1 + 60000, NO_BUTTON_LINE) :: rest)%list).
Proof.
  assert (Habsent : forall st,
      no_confirm_button w page (now st) ->
      polls_wait w page (now st) ->
      exists st' rest,
        confirmResearchStart w page st = (Ret tt, st') /\
        now st' = now st + 60000 /\
        log st' = (now st', NO_BUTTON_LINE) :: rest).
  { intros st Hnone Hwait.
    destruct (confirm_spec w page st) as [o [st' [Hrun Hend]]].
    destruct o as [[]|e|c| |]; try contradiction.
    - destruct Hend as [[Hnow [_ [rest Hlog]]] | [k [Hk Hseen]]].
      + exists st', rest. repeat split; assumption.
      + exfalso. exact (Hnone k Hk Hseen).
    - exfalso. destruct Hend as [k [Hk [_ Herr]]].
      specialize (Hwait k Hk). unfold wait_resolves in Hwait.
      rewrite Herr in Hwait. discriminate. }
  split; [|split].
  - intros st o st' Hrun.
    destruct (confirm_spec w page st) as [o' [st2 [Hrun' Hend]]].
    rewrite Hrun in Hrun'. injection Hrun' as <- <-.
    destruct o as [[]|e|c| |]; try contradiction.
    + left. reflexivity.
    + right. destruct Hend as [k [Hk [Hnow Herr]]].
      exists e, k. repeat split; try assumption; lia.
  - exact Habsent.
  - intros model query skipKindle st0 st1 o stf Hpre Hnone Hwait Hrun.
    apply bind_ret_inv in Hpre. destruct Hpre as [[] [s1 [H1 Hpre]]].
    apply bind_ret_inv in Hpre. destruct Hpre as [[] [s2 [H2 Hpre]]].
    apply bind_ret_inv in Hpre. destruct Hpre as [[] [s3 [H3 H4]]].
    destruct (Habsent st1 Hnone Hwait) as [st2 [rest [H5 [Hnow Hlog]]]].
    unfold fullFlow in Hrun.
    rewrite (bind_run _ _ _ _ _ H1) in Hrun.
    rewrite (bind_run _ _ _ _ _ H2) in Hrun.
    rewrite (bind_run _ _ _ _ _ H3) in Hrun.
    rewrite (bind_run _ _ _ _ _ H4) in Hrun.
    rewrite (bind_run _ _ _ _ _ H5) in Hrun.
    apply poll_opening_logged in Hrun.
    + destruct Hrun as [l Hl]. exists l, rest.
      rewrite Hl, Hlog, Hnow. reflexivity.
    + intros b. apply grows_bind; [apply grows_exportToGoogleDocs|].
      intros d. apply grows_after_export.
Qed.

(** A concrete run to which [confirmation_absent_is_not_an_error] applies. *)
Lemma confirmation_absent_is_not_an_error_witness :
  (exists st' rest,
     confirmResearchStart Worlds.quiet Worlds.page0 Worlds.st0 = (Ret tt, st') /\
     now st' = now Worlds.st0 + 60000 /\
     log st' = (now st', NO_BUTTON_LINE) :: rest) /\
  (exists l rest,
     log (snd (fullFlow Worlds.quiet Worlds.page0 (Models.resolveModel None)
                 "history of the printing press" false Worlds.st0))
     = (l ++ (72000, POLL_OPENING_LINE) :: (72000, NO_BUTTON_LINE) :: rest)%list).
Proof.
  pose proof (confirmation_absent_is_not_an_error Worlds.quiet Worlds.page0)
    as [_ [Hstage Hflow]].
  assert (Hnone : forall t, no_confirm_button Worlds.quiet Worlds.page0 t).
  { intros t k Hk [[label [_ Hs]] | Hl]; discriminate. }
  assert (Hwait : forall t, polls_wait Worlds.quiet Worlds.page0 t).
  { intros t k Hk. reflexivity. }
  split.
  - apply (Hstage Worlds.st0); [apply Hnone | apply Hwait].
  - pose (pre := (navigateToGemini Worlds.quiet Worlds.page0 GEMINI_URL ;;
                  selectModel Worlds.quiet Worlds.page0 (Models.resolveModel None) ;;
                  enableDeepResearch Worlds.quiet Worlds.page0 ;;
                  submitQuery Worlds.quiet Worlds.page0
                    "history of the printing press")%run).
    pose (st1 := snd (pre Worlds.st0)).
    change 72000 with (now st1 + 60000).
    apply (Hflow (Models.resolveModel None) "history of the printing press" false
             Worlds.st0 st1
             (fst (fullFlow Worlds.quiet Worlds.page0 (Models.resolveModel None)
                     "history of the printing press" false Worlds.st0))).
    + vm_compute. reflexivity.
    + apply Hnone.
    + apply Hwait.
    + apply surjective_pairing.
Defined.
End OrchestratorClaims.

(** ** Claims on model resolution *)

Section ModelClaims.
Import Models.

Lemma MODELS_at_is_model (i : nat) :
  (i < 3)%nat -> is_model (MODELS_at i).
Proof.
  intros Hi. unfold is_model.
  destruct i as [|[|[|i]]]; [| | |lia];
    (eexists; split; [|reflexivity]); cbn; tauto.
Qed.

(** Every value stored in the alias object is one of the three
    models. *)
Lemma aliases_are_models (k : string) (v : JsVal) :
  aliases !! k = Some v -> is_model v.
Proof.
  intros H. unfold aliases in H.
  apply elem_of_list_to_map_2 in H.
  repeat (apply elem_of_cons in H; destruct H as [H | H];
          [injection H as _ ->; apply MODELS_at_is_model; lia|]).
  apply elem_of_nil in H. contradiction.
Qed.

(** What holds of [resolveModel]: an absent argument gives the default,
    and so does every string whose lower-case form is neither an alias
    nor a property that objects inherit. *)
Lemma resolveModel_absent : resolveModel None = DEFAULT_MODEL.
Proof. reflexivity. Qed.

Lemma resolveModel_defaults (s : string) :
  aliases !! JsString.toLowerCase s = None ->
  ObjectPrototype !! JsString.toLowerCase s = None ->
  resolveModel (Some s) = DEFAULT_MODEL.
Proof.
  intros Hown Hproto. unfold resolveModel.
  destruct (JsString.truthy s); [|reflexivity].
  cbn [negb]. unfold js_get. rewrite Hown, Hproto. reflexivity.
Qed.

(** Away from the inherited properties, [resolveModel] returns one of
    the three models. *)
Lemma resolveModel_is_model (s : string) :
  ObjectPrototype !! JsString.toLowerCase s = None ->
  is_model (resolveModel (Some s)).
Proof.
  intros Hproto. unfold resolveModel.
  destruct (JsString.truthy s); cbn [negb];
    [|apply (MODELS_at_is_model 1); lia].
  unfold js_get.
  destruct (aliases !! JsString.toLowerCase s) as [v|] eqn:Hown.
  - pose proof (aliases_are_models _ _ Hown) as [m [Hin ->]].
    exists m. split; [exact Hin | reflexivity].
  - rewrite Hproto. apply (MODELS_at_is_model 1). lia.
Qed.

(** C10 does not hold of the code: [--model constructor] is not a key or
    an alias, yet [resolveModel] does not return the default model, nor
    any model: the lookup in the alias object finds the [constructor]
    that every object inherits, a truthy value, and returns it. *)
Theorem resolveModel_returns_inherited_property :
  aliases !! "constructor" = None /\
  resolveModel (Some "constructor") = VBuiltin "Object" /\
  resolveModel (Some "constructor") <> DEFAULT_MODEL /\
  ~ is_model (resolveModel (Some "constructor")).
Proof.
  split; [vm_compute; reflexivity|].
  split; [vm_compute; reflexivity|].
  split.
  - vm_compute. discriminate.
  - intros [m [_ H]]. vm_compute in H. discriminate.
Qed.
End ModelClaims.

(** * Further properties *)

(** ** What a run adds to the log *)

Section Emits.
Import Js Drk Trace.
Variable p : Z * Event -> bool.

Lemma emits_nothing {A} (m : M A) :
  (forall st, snd (m st) = st) -> emits p m.
Proof.
  intros H st o st' Hrun. specialize (H st). rewrite Hrun in H. cbn in H. subst st'.
  exists []. split; reflexivity.
Qed.

Lemma emits_ret {A} (a : A) : emits p (ret a).
Proof. apply emits_nothing. reflexivity. Qed.

Lemma emits_throw {A} (e : JsError) : emits p (@throw A e).
Proof. apply emits_nothing. reflexivity. Qed.

Lemma emits_exit {A} (c : Z) : emits p (@process_exit A c).
Proof. apply emits_nothing. reflexivity. Qed.

Lemma emits_never {A} : emits p (@never A).
Proof. apply emits_nothing. reflexivity. Qed.

Lemma emits_out_of_fuel {A} : emits p (@out_of_fuel A).
Proof. apply emits_nothing. reflexivity. Qed.

Lemma emits_date_now : emits p date_now.
Proof. apply emits_nothing. reflexivity. Qed.

Lemma emits_emit (e : Event) : (forall t, p (t, e) = true) -> emits p (emit e).
Proof.
  intros H st o st' Hrun. injection Hrun as _ <-.
  exists [(now st, e)]. split; [reflexivity|]. cbn. rewrite H. reflexivity.
Qed.

Lemma emits_console (l : Line) : (forall t, p (t, EPrint l) = true) -> emits p (console l).
Proof. apply emits_emit. Qed.

Lemma emits_sleep (ms : Z) : (forall t, p (t, ESleep ms) = true) -> emits p (sleep ms).
Proof.
  intros H st o st' Hrun. injection Hrun as _ <-.
  exists [(now st, ESleep ms)]. split; [reflexivity|]. cbn. rewrite H. reflexivity.
Qed.

Lemma emits_bind {A B} (m : M A) (k : A -> M B) :
  emits p m -> (forall a, emits p (k a)) -> emits p (bind m k).
Proof.
  intros Hm Hk st o st' H. unfold bind in H.
  destruct (m st) as [[a|e|c| |] st1] eqn:Hrun;
    destruct (Hm _ _ _ Hrun) as [l1 [Hl1 Hp1]];
    try (injection H as _ <-; exists l1; split; assumption).
  destruct (Hk a _ _ _ H) as [l2 [Hl2 Hp2]].
  exists (l2 ++ l1)%list. split.
  - rewrite Hl2, Hl1. apply app_assoc.
  - rewrite forallb_app, Hp1, Hp2. reflexivity.
Qed.

Lemma emits_try_catch {A} (m : M A) (h : JsError -> M A) :
  emits p m -> (forall e, emits p (h e)) -> emits p (try_catch m h).
Proof.
  intros Hm Hh st o st' H. unfold try_catch in H.
  destruct (m st) as [[a|e|c| |] st1] eqn:Hrun;
    destruct (Hm _ _ _ Hrun) as [l1 [Hl1 Hp1]];
    try (injection H as _ <-; exists l1; split; assumption).
  destruct (Hh e _ _ _ H) as [l2 [Hl2 Hp2]].
  exists (l2 ++ l1)%list. split.
  - rewrite Hl2, Hl1. apply app_assoc.
  - rewrite forallb_app, Hp1, Hp2. reflexivity.
Qed.

Lemma emits_while {V R} (cond : V -> M bool) (body : V -> M (Ctl V R)) :
  (forall v, emits p (cond v)) -> (forall v, emits p (body v)) ->
  forall fuel v, emits p (while_ fuel cond body v).
Proof.
  intros Hc Hb. induction fuel as [|fuel IH]; intros v.
  - apply emits_out_of_fuel.
  - cbn [while_]. apply emits_bind; [apply Hc|].
    intros [|]; [|apply emits_ret].
    apply emits_bind; [apply Hb|].
    intros [v'|v'|r]; [apply IH | apply emits_ret | apply emits_ret].
Qed.

Lemma emits_for_of {A V R} (body : A -> V -> M (Ctl V R)) :
  (forall x v, emits p (body x v)) ->
  forall l v, emits p (for_of l body v).
Proof.
  intros Hb. induction l as [|x l IH]; intros v.
  - apply emits_ret.
  - cbn [for_of]. apply emits_bind; [apply Hb|].
    intros [v'|v'|r]; [apply IH | apply emits_ret | apply emits_ret].
Qed.

Variable w : World.

Lemma emits_answer (c : Call) : emits p (answer w c).
Proof. apply emits_nothing. intros st. reflexivity. Qed.

Lemma emits_issue (c : Call) : (forall t, p (t, ECall c) = true) -> emits p (issue w c).
Proof.
  intros H st o st' Hrun. injection Hrun as _ <-.
  exists [(now st, ECall c)]. split; [reflexivity|]. cbn. rewrite H. reflexivity.
Qed.

Lemma emits_await (r : Res Value) : emits p (await r).
Proof. destruct r; [apply emits_ret | apply emits_throw]. Qed.

Lemma emits_call (c : Call) : (forall t, p (t, ECall c) = true) -> emits p (call w c).
Proof. intros H. apply emits_bind; [apply emits_issue; exact H | intros; apply emits_await]. Qed.

Lemma emits_await_both (a b : Res Value) : emits p (await_both a b).
Proof.
  unfold await_both.
  apply emits_bind; [apply emits_await|]. intros va.
  apply emits_bind; [apply emits_await|]. intros vb. apply emits_ret.
Qed.
End Emits.

(** Reduces [emits p m], for a computation built from the primitives, to
    the test of each entry it can add. *)
Ltac emits_step :=
  lazymatch goal with
  | |- Trace.emits _ (Drk.while_ _ _ _ _) => apply emits_while; intros ?
  | |- Trace.emits _ (Drk.for_of _ _ _) => apply emits_for_of; intros ? ?
  | |- Trace.emits _ (Js.bind _ _) => apply emits_bind; [|intros ?]
  | |- Trace.emits _ (Js.try_catch _ _) => apply emits_try_catch; [|intros ?]
  | |- Trace.emits _ (Js.ret _) => apply emits_ret
  | |- Trace.emits _ (Js.throw _) => apply emits_throw
  | |- Trace.emits _ (Js.process_exit _) => apply emits_exit
  | |- Trace.emits _ Js.never => apply emits_never
  | |- Trace.emits _ Js.date_now => apply emits_date_now
  | |- Trace.emits _ (Js.console _) => apply emits_console; intros ?; reflexivity
  | |- Trace.emits _ (Js.emit _) => apply emits_emit; intros ?; reflexivity
  | |- Trace.emits _ (Js.sleep _) => apply emits_sleep; intros ?; reflexivity
  | |- Trace.emits _ (Drk.answer _ _) => apply emits_answer
  | |- Trace.emits _ (Drk.issue _ _) => apply emits_issue; intros ?; reflexivity
  | |- Trace.emits _ (Drk.await _) => apply emits_await
  | |- Trace.emits _ (Drk.await_both _ _) => apply emits_await_both
  | |- Trace.emits _ (Drk.call _ _) => apply emits_call; intros ?; reflexivity
  | |- Trace.emits _ (match ?x with _ => _ end) => destruct x
  | |- Trace.emits _ (let _ := _ in _) => cbv zeta
  end.

Ltac emits_all := repeat emits_step.

Section ReadOnlyStages.
Import Js Drk Trace.

(** X1: the poller only observes.  Every call it makes, in every world,
    is one of its three probes: the status chip, the length of the
    report, the visibility of the activity indicators.  It never clicks,
    types or navigates. *)
Theorem poller_only_probes (w : World) (page : PageRef) (st : State) (o : Outcome bool) (st' : State) :
  pollForCompletion w page st = (o, st') ->
  exists l, log st' = (l ++ log st)%list /\ forallb is_poller_probe l = true.
Proof.
  revert st o st'. change (emits is_poller_probe (pollForCompletion w page)).
  unfold pollForCompletion, phase1, phase2, phase1_iteration, phase2_iteration,
    readChip, readReportLength, logSub.
  emits_all.
Qed.

(** A concrete run to which [poller_only_probes] applies. *)
Lemma poller_only_probes_witness :
  exists l,
    log (snd (pollForCompletion Worlds.long_report Worlds.page0 Worlds.st0))
      = (l ++ log Worlds.st0)%list /\
    forallb is_poller_probe l = true.
Proof.
  apply (poller_only_probes Worlds.long_report Worlds.page0 Worlds.st0
           (fst (pollForCompletion Worlds.long_report Worlds.page0 Worlds.st0))).
  apply surjective_pairing.
Defined.

(** X2: with [--no-kindle] nothing is delivered.  In every world the full
    flow and the send-only flow, run with [skipKindle], make no call of
    the delivery stage: no upload control, no file chooser, no file set,
    no send control. *)
Theorem no_kindle_means_no_delivery (w : World) (page : PageRef)
    (model : Models.JsVal) (text : string) :
  emits no_delivery_call (fullFlow w page model text true) /\
  emits no_delivery_call (sendOnlyFlow w page text true).
Proof.
  split.
  - unfold fullFlow, navigateToGemini, selectModel, enableDeepResearch, submitQuery,
      confirmResearchStart, confirm_iteration, confirm_attempt, confirm_try_label,
      pollForCompletion, phase1, phase2, phase1_iteration, phase2_iteration,
      readChip, readReportLength,
      exportToGoogleDocs, export_iteration, export_scan_page,
      downloadEpubFromDocs, openDownloadMenu, download_try_selector,
      waitForTimeout, logSub, logStep, log_.
    cbn [negb]. emits_all.
  - unfold sendOnlyFlow,
      exportToGoogleDocs, export_iteration, export_scan_page,
      downloadEpubFromDocs, openDownloadMenu, download_try_selector,
      waitForTimeout, logSub, logStep, log_.
    cbn [negb]. emits_all.
Qed.

(** A concrete run to which [no_kindle_means_no_delivery] applies. *)
Lemma no_kindle_means_no_delivery_witness :
  exists l,
    log (snd (fullFlow Worlds.quiet Worlds.page0 (Models.resolveModel None)
                "history of the printing press" true Worlds.st0))
      = (l ++ log Worlds.st0)%list /\
    forallb no_delivery_call l = true.
Proof.
  refine (proj1 (no_kindle_means_no_delivery Worlds.quiet Worlds.page0
                   (Models.resolveModel None) "history of the printing press")
            Worlds.st0 _ _ _).
  apply surjective_pairing.
Defined.
End ReadOnlyStages.

(** ** What [main] does with the browser context *)

Section MainCleanup.
Import Js Drk Trace.
Lemma try_finally_ret_inv {A} (m : M A) (f : M unit) (st st' : State) (a : A) :
  try_finally m f st = (Ret a, st') ->
  exists st1, m st = (Ret a, st1) /\ f st1 = (Ret tt, st').
Proof.
  unfold try_finally.
  destruct (m st) as [[b|e|c| |] st1]; intros H; try discriminate.
  - unfold bind, ret in H.
    destruct (f st1) as [[[]|e|c| |] st2] eqn:Hf; try discriminate.
    injection H as <- <-. exists st1. split; [reflexivity | exact Hf].
  - unfold bind, throw in H.
    destruct (f st1) as [[[]|e'|c| |] st2]; discriminate.
Qed.

Lemma close_context_last (w : World) (st st' : State) :
  (call w CCloseContext ;; ret tt)%run st = (Ret tt, st') ->
  log st' = (now st', ECall CCloseContext) :: log st.
Proof.
  unfold call. cbv beta iota delta [bind ret issue await throw].
  destruct (w (now st) CCloseContext); intros H; [|discriminate].
  injection H as <-. reflexivity.
Qed.

(** X3: a run of [main] that returns normally has closed the browser
    context, and that was the last thing it did. *)
Theorem main_returns_only_after_close (w : World) (argv : list string) (st st' : State) :
  main w argv st = (Ret tt, st') ->
  exists rest, log st' = (now st', ECall CCloseContext) :: rest.
Proof.
  unfold main.
  destruct (take_option argv "--profile") as [profileArg args1].
  destruct (take_option args1 "--model") as [modelArg args2].
  intros H.
  apply bind_ret_inv in H. destruct H as [[] [s1 [_ H]]].
  apply bind_ret_inv in H. destruct H as [[] [s2 [_ H]]].
  apply bind_ret_inv in H. destruct H as [[] [s3 [Hlogin H]]].
  destruct (includes args2 "--send-only").
  - apply bind_ret_inv in H. destruct H as [[] [s4 [_ H]]].
    apply bind_ret_inv in H. destruct H as [page [s5 [_ H]]].
    apply try_finally_ret_inv in H. destruct H as [s6 [_ H]].
    apply close_context_last in H. eexists. exact H.
  - apply bind_ret_inv in H. destruct H as [[] [s4 [_ H]]].
    apply bind_ret_inv in H. destruct H as [[] [s5 [_ H]]].
    apply bind_ret_inv in H. destruct H as [page [s6 [_ H]]].
    apply try_finally_ret_inv in H. destruct H as [s7 [_ H]].
    apply close_context_last in H. eexists. exact H.
Qed.

(** A concrete run to which [main_returns_only_after_close] applies. *)
Lemma main_returns_only_after_close_witness :
  exists rest,
    log (snd (main Worlds.long_report ["history of the printing press"] Worlds.st0))
    = (now (snd (main Worlds.long_report ["history of the printing press"] Worlds.st0)),
       ECall CCloseContext) :: rest.
Proof.
  apply (main_returns_only_after_close Worlds.long_report
           ["history of the printing press"] Worlds.st0).
  vm_compute. reflexivity.
Defined.
End MainCleanup.

(** ** Ending the process *)

Section MainExit.
Import Js Drk Trace.

Variable p : Z * Event -> bool.

Lemma emits_on_exit {A} (m : M A) : emits p m -> on_exit p m.
Proof. intros H st c st' Hrun. exact (H _ _ _ Hrun). Qed.

Lemma on_exit_bind {A B} (m : M A) (k : A -> M B) :
  emits p m -> (forall a, on_exit p (k a)) -> on_exit p (bind m k).
Proof.
  intros Hm Hk st c st' H. unfold bind in H.
  destruct (m st) as [[a|e|c0| |] st1] eqn:Hrun;
    destruct (Hm _ _ _ Hrun) as [l1 [Hl1 Hp1]]; try discriminate.
  - destruct (Hk a _ _ _ H) as [l2 [Hl2 Hp2]].
    exists (l2 ++ l1)%list. split.
    + rewrite Hl2, Hl1. apply app_assoc.
    + rewrite forallb_app, Hp1, Hp2. reflexivity.
  - injection H as _ <-. exists l1. split; assumption.
Qed.

Variable w : World.

(** The [finally] block of [main] cannot end the process; when the
    guarded block has ended it, the [finally] block has not run. *)
Lemma on_exit_finally_close {A} (m : M A) :
  on_exit p m -> on_exit p (try_finally m (call w CCloseContext ;; ret tt)%run).
Proof.
  intros Hm st c st' H. unfold try_finally in H.
  destruct (m st) as [[a|e|c0| |] st1] eqn:Hrun; try discriminate.
  - exfalso. revert H. unfold call.
    cbv beta iota delta [bind ret issue await throw].
    destruct (w (now st1) CCloseContext); discriminate.
  - exfalso. revert H. unfold call.
    cbv beta iota delta [bind ret issue await throw].
    destruct (w (now st1) CCloseContext); discriminate.
  - injection H as <- <-. exact (Hm _ _ _ Hrun).
Qed.
End MainExit.

Section MainExitClaims.
Import Js Drk Trace.

Section Flows.
Variable w : World.

Lemma launchBrowser_never_closes (profilePath : option string) :
emits not_context_close (launchBrowser w profilePath).
Proof. unfold launchBrowser, logStep, logSub. emits_all. Qed.

Lemma fullFlow_never_closes (page : PageRef) (model : Models.JsVal) (query : string)
  (skipKindle : bool) :
emits not_context_close (fullFlow w page model query skipKindle).
Proof.
unfold fullFlow, navigateToGemini, selectModel, enableDeepResearch, submitQuery,
  confirmResearchStart, confirm_iteration, confirm_attempt, confirm_try_label,
  pollForCompletion, phase1, phase2, phase1_iteration, phase2_iteration,
  readChip, readReportLength,
  exportToGoogleDocs, export_iteration, export_scan_page,
  downloadEpubFromDocs, openDownloadMenu, download_try_selector,
  sendToKindle, waitForTimeout, logSub, logStep, log_.
emits_all.
Qed.

Lemma sendOnlyFlow_never_closes (page : PageRef) (geminiUrl : string)
  (skipKindle : bool) :
emits not_context_close (sendOnlyFlow w page geminiUrl skipKindle).
Proof.
unfold sendOnlyFlow,
  exportToGoogleDocs, export_iteration, export_scan_page,
  downloadEpubFromDocs, openDownloadMenu, download_try_selector,
  sendToKindle, waitForTimeout, logSub, logStep, log_.
emits_all.
Qed.

End Flows.

(** X4: when [main] ends the process through [process.exit], with any
    status, it has not closed the browser context: no entry it added to
    the log is [context.close()]. *)
Theorem main_exit_skips_close (w : World) (argv : list string) (st : State) (c : Z) (st' : State) :
  main w argv st = (Exit c, st') ->
  exists l, log st' = (l ++ log st)%list /\ forallb not_context_close l = true.
Proof.
  revert st c st'. change (on_exit not_context_close (main w argv)).
  unfold main.
  destruct (take_option argv "--profile") as [profileArg args1].
  destruct (take_option args1 "--model") as [modelArg args2].
  pose proof (launchBrowser_never_closes w) as Hlaunch.
  apply on_exit_bind.
  { unfold log_. emits_all. }
  intros _. apply on_exit_bind.
  { unfold logBanner, log_. emits_all. }
  intros _. apply on_exit_bind.
  { destruct (includes args2 "--login-only"); [|apply emits_ret].
    apply emits_bind; [apply Hlaunch|]. intros page.
    unfold navigateToGemini, waitForTimeout, log_, logSub, logStep. emits_all. }
  intros _.
  destruct (includes args2 "--send-only").
  - apply on_exit_bind.
    { unfold log_. emits_all. }
    intros _. apply on_exit_bind; [apply Hlaunch|]. intros page.
    apply on_exit_finally_close. apply emits_on_exit.
    apply emits_try_catch; [apply sendOnlyFlow_never_closes|].
    intros e. unfold log_. emits_all.
  - apply on_exit_bind.
    { unfold log_. emits_all. }
    intros _. apply on_exit_bind.
    { emits_all. }
    intros _. apply on_exit_bind; [apply Hlaunch|]. intros page.
    apply on_exit_finally_close. apply emits_on_exit.
    apply emits_try_catch; [apply fullFlow_never_closes|].
    intros e. unfold log_. emits_all.
Qed.

(** A concrete run to which [main_exit_skips_close] applies. *)
Lemma main_exit_skips_close_witness :
  exists l,
    log (snd (main Worlds.no_export_menu ["history of the printing press"] Worlds.st0))
      = (l ++ log Worlds.st0)%list /\
    forallb not_context_close l = true.
Proof.
  apply (main_exit_skips_close Worlds.no_export_menu
           ["history of the printing press"] Worlds.st0 1).
  vm_compute. reflexivity.
Defined.
End MainExitClaims.

(** ** The command line *)

Section CommandLine.
Import Js Drk.

Lemma indexOf_absent (args : list string) (x : string) :
  ~ In x args -> indexOf args x = None.
Proof.
  induction args as [|a args IH]; intros Hx; [reflexivity|].
  cbn [indexOf]. destruct (String.eqb a x) eqn:Heq.
  - apply String.eqb_eq in Heq. exfalso. apply Hx. left. exact Heq.
  - rewrite IH; [reflexivity|]. intros H. apply Hx. right. exact H.
Qed.

Lemma indexOf_first (pre rest : list string) (x : string) :
  ~ In x pre -> indexOf (pre ++ x :: rest)%list x = Some (List.length pre).
Proof.
  induction pre as [|a pre IH]; intros Hx.
  - cbn. rewrite String.eqb_refl. reflexivity.
  - cbn [app indexOf List.length]. destruct (String.eqb a x) eqn:Heq.
    + apply String.eqb_eq in Heq. exfalso. apply Hx. left. exact Heq.
    + rewrite IH; [reflexivity|]. intros H. apply Hx. right. exact H.
Qed.

Lemma lookup_after (pre rest : list string) (i : nat) :
  ((pre ++ rest)%list) !! (List.length pre + i)%nat = rest !! i.
Proof. induction pre as [|a pre IH]; [reflexivity | exact IH]. Qed.

Lemma splice2_at (pre post : list string) (x v : string) :
  splice2 (pre ++ x :: v :: post)%list (List.length pre) = (pre ++ post)%list.
Proof.
  unfold splice2. induction pre as [|a pre IH]; [reflexivity|].
  cbn. f_equal. exact IH.
Qed.

Lemma take_option_absent (args : list string) (flag : string) :
  ~ In flag args -> take_option args flag = (None, args).
Proof.
  intros H. unfold take_option. rewrite (indexOf_absent args flag H). reflexivity.
Qed.

(** X5: how an option with a value is read from the command line.  The
    first occurrence of the flag decides.  When a non-empty word follows
    it, that word is the value, whatever it is, and flag and value are
    removed from the arguments; when the flag is the last word, or an
    empty word follows it, or the flag is absent, there is no value and
    the arguments are left as they are. *)
Theorem take_option_spec (flag : string) (pre post : list string) (v : string) :
  ~ In flag pre ->
  take_option (pre ++ flag :: v :: post)%list flag
    = (if JsString.truthy v then (Some v, (pre ++ post)%list)
       else (None, (pre ++ flag :: v :: post)%list)) /\
  take_option (pre ++ [flag])%list flag = (None, (pre ++ [flag])%list) /\
  take_option pre flag = (None, pre).
Proof.
  intros Hpre. split; [|split].
  - unfold take_option. rewrite (indexOf_first pre (v :: post) flag Hpre).
    replace (S (List.length pre)) with (List.length pre + 1)%nat by lia.
    rewrite (lookup_after pre (flag :: v :: post) 1). cbn [lookup list_lookup].
    destruct (JsString.truthy v); [|reflexivity].
    rewrite splice2_at. reflexivity.
  - unfold take_option. rewrite (indexOf_first pre [] flag Hpre).
    replace (S (List.length pre)) with (List.length pre + 1)%nat by lia.
    rewrite (lookup_after pre [flag] 1). reflexivity.
  - apply take_option_absent. exact Hpre.
Qed.

(** A concrete run to which [take_option_spec] applies. *)
Lemma take_option_spec_witness :
  take_option (["--no-kindle"] ++ "--model" :: "--login-only" :: ["printing press"])%list
              "--model"
    = (Some "--login-only", ["--no-kindle"; "printing press"]) /\
  take_option (["--no-kindle"] ++ ["--model"])%list "--model"
    = (None, ["--no-kindle"; "--model"]) /\
  take_option ["--no-kindle"] "--model" = (None, ["--no-kindle"]).
Proof.
  apply (take_option_spec "--model" ["--no-kindle"] ["printing press"] "--login-only").
  intros [H|[]]. discriminate.
Defined.

Lemma In_take (l : list string) (i : nat) (a : string) : In a (take i l) -> In a l.
Proof.
  revert i. induction l as [|b l IH]; intros [|i] H; cbn in H; try contradiction.
  destruct H as [H|H]; [left; exact H | right; exact (IH i H)].
Qed.

Lemma In_drop (l : list string) (i : nat) (a : string) : In a (drop i l) -> In a l.
Proof.
  revert i. induction l as [|b l IH]; intros [|i] H; cbn in H; try contradiction.
  - exact H.
  - right. exact (IH i H).
Qed.

(** Reading an option adds no word to the arguments. *)
Lemma take_option_subset (args : list string) (flag a : string) :
  In a (snd (take_option args flag)) -> In a args.
Proof.
  unfold take_option.
  destruct (indexOf args flag) as [i|]; [|exact (fun H => H)].
  destruct (args !! S i) as [v|]; [|exact (fun H => H)].
  destruct (JsString.truthy v); [|exact (fun H => H)].
  cbn [snd]. unfold splice2. intros H. apply in_app_or in H.
  destruct H as [H|H]; [exact (In_take _ _ _ H) | exact (In_drop _ _ _ H)].
Qed.

Lemma includes_false_iff (args : list string) (x : string) :
  includes args x = false <-> ~ In x args.
Proof.
  unfold includes. induction args as [|a args IH]; cbn.
  - split; [intros _ [] | reflexivity].
  - destruct (String.eqb a x) eqn:Heq; cbn.
    + apply String.eqb_eq in Heq. split; [discriminate|]. intros H. exfalso. apply H. left. exact Heq.
    + apply String.eqb_neq in Heq. rewrite IH. split.
      * intros H [H1|H1]; [exact (Heq H1) | exact (H H1)].
      * intros H H1. apply H. right. exact H1.
Qed.

Lemma filter_only_flags (args : list string) :
  (forall a, In a args -> JsString.startsWith a "--" = true) ->
  List.filter (fun a => negb (JsString.startsWith a "--")) args = [].
Proof.
  induction args as [|a args IH]; intros H; [reflexivity|].
  cbn [List.filter]. rewrite (H a (or_introl eq_refl)). cbn [negb].
  apply IH. intros b Hb. apply H. right. exact Hb.
Qed.

(** X6: a command line of flags only, without [--login-only] and
    [--send-only], has no query: [main] prints the usage text and ends
    the process with status 0, and does nothing else; in particular the
    browser is not launched. *)
Theorem flags_only_print_help (w : World) (argv : list string) (st : State) :
  (forall a, In a argv -> JsString.startsWith a "--" = true) ->
  includes argv "--login-only" = false ->
  includes argv "--send-only" = false ->
  main w argv st
    = (Exit 0, mkState (now st) ((now st, EPrint ConsoleHelp) :: log st)) /\
  exit_status (Exit 0) = Some 0.
Proof.
  intros Hflags Hlogin Hsend. split; [|reflexivity].
  unfold main.
  destruct (take_option argv "--profile") as [profileArg args1] eqn:H1.
  destruct (take_option args1 "--model") as [modelArg args2] eqn:H2.
  assert (Hsub : forall a, In a args2 -> In a argv).
  { intros a Ha. apply (take_option_subset argv "--profile"). rewrite H1. cbn [snd].
    apply (take_option_subset args1 "--model"). rewrite H2. exact Ha. }
  assert (Hl : includes args2 "--login-only" = false).
  { apply includes_false_iff. intros H. apply includes_false_iff in Hlogin.
    apply Hlogin. apply Hsub. exact H. }
  assert (Hs : includes args2 "--send-only" = false).
  { apply includes_false_iff. intros H. apply includes_false_iff in Hsend.
    apply Hsend. apply Hsub. exact H. }
  rewrite Hl, Hs.
  rewrite filter_only_flags; [reflexivity|].
  intros a Ha. apply Hflags. apply Hsub. exact Ha.
Qed.

(** A concrete run to which [flags_only_print_help] applies. *)
Lemma flags_only_print_help_witness :
  main Worlds.quiet ["--no-kindle"; "--model"; "--profile"] Worlds.st0
    = (Exit 0, mkState (now Worlds.st0)
                 ((now Worlds.st0, EPrint ConsoleHelp) :: log Worlds.st0)) /\
  exit_status (Exit 0) = Some 0.
Proof.
  apply flags_only_print_help.
  - intros a [<-|[<-|[<-|[]]]]; reflexivity.
  - reflexivity.
  - reflexivity.
Defined.

Lemma not_a_flag (url flag : string) :
  JsString.startsWith url "--" = false ->
  JsString.startsWith flag "--" = true ->
  String.eqb url flag = false.
Proof.
  intros Hurl Hflag. destruct (String.eqb url flag) eqn:Heq; [|reflexivity].
  apply String.eqb_eq in Heq. subst flag. rewrite Hurl in Hflag. discriminate.
Qed.

(** X7: the send-only mode checks its address before it launches the
    browser.  For the command line [--send-only url] with a [url] that
    does not contain [gemini.google.com], [main] prints the banner and
    the error line and ends the process with status 1, without a single
    call of the automation surface. *)
Theorem send_only_checks_url_first (w : World) (url : string) (st : State) :
  JsString.startsWith url "--" = false ->
  JsString.includes url "gemini.google.com" = false ->
  main w ["--send-only"; url] st
    = (Exit 1,
       mkState (now st)
         ((now st, EPrint (Log (Text "❌ Forneça a URL de uma pesquisa Gemini existente.")))
          :: (now st, EPrint (Log SEPARATOR))
          :: (now st, EPrint (Log (Text "   Gemini → Google Docs → EPUB → Kindle")))
          :: (now st, EPrint (Log (Text "📚 Deep Research to Kindle")))
          :: (now st, EPrint (Log SEPARATOR))
          :: (now st, EPrint ConsoleBlank)
          :: log st)).
Proof.
  intros Hflag Hurl.
  assert (Hno : forall flag, JsString.startsWith flag "--" = true ->
                             flag <> "--send-only" ->
                             ~ In flag ["--send-only"; url]).
  { intros flag Hf Hne [H|[H|[]]]; [exact (Hne (eq_sym H))|].
    subst flag. rewrite Hflag in Hf. discriminate. }
  unfold main.
  rewrite (take_option_absent _ "--profile" (Hno "--profile" eq_refl ltac:(discriminate))).
  rewrite (take_option_absent _ "--model" (Hno "--model" eq_refl ltac:(discriminate))).
  rewrite (proj2 (includes_false_iff _ "--login-only")
             (Hno "--login-only" eq_refl ltac:(discriminate))).
  rewrite (proj2 (includes_false_iff _ "--no-kindle")
             (Hno "--no-kindle" eq_refl ltac:(discriminate))).
  change (includes ["--send-only"; url] "--send-only") with true.
  cbn [List.filter]. change (JsString.startsWith "--send-only" "--") with true.
  rewrite Hflag. cbn [negb andb join]. rewrite Hurl. rewrite orb_true_r.
  reflexivity.
Qed.

(** A concrete run to which [send_only_checks_url_first] applies. *)
Lemma send_only_checks_url_first_witness :
  fst (main Worlds.quiet ["--send-only"; "https://example.org/report"] Worlds.st0)
    = Exit 1.
Proof.
  rewrite (send_only_checks_url_first Worlds.quiet "https://example.org/report"
             Worlds.st0); reflexivity.
Defined.
End CommandLine.

(** ** More on the completion poller *)

Section PollerTiming.
Import Js Drk.
Variable w : World.
Variable page : PageRef.

Lemma isDone_truthy (s : string) : isDone s = true -> JsString.truthy s = true.
Proof. destruct s; [discriminate | reflexivity]. Qed.

(** Phase 1 ends at the first check that observes something, and its
    last line then reports what it observed. *)
Lemma phase1_first_observation (st : State) (k : Z) :
  0 <= k < 24 ->
  (forall j, 0 <= j < k ->
     chipAt w page (now st + 5000 * j) = "" /\
     indicatorAt w page (now st + 5000 * j) = false) ->
  (JsString.truthy (chipAt w page (now st + 5000 * k)) = true \/
   indicatorAt w page (now st + 5000 * k) = true) ->
  exists st1 m rest,
    phase1 w page st = (Ret true, st1) /\
    now st1 = now st + 5000 * k /\
    log st1 = (now st1, EPrint (LogSub m)) :: rest /\
    (m = MStatusDetected (chipAt w page (now st1)) \/
     m = Text "✅ Pesquisa já concluída!" \/
     m = Text "Atividade de pesquisa detectada.").
Proof.
  intros Hk Hquiet Hseen.
  unfold phase1. unfold bind at 1. cbn [date_now].
  unfold bind at 1.
  destruct (while_ _ _ _ false st) as [o st1] eqn:Hloop.
  unfold loop_fuel in Hloop.
  assert (HQ : o = Ret (Done true) /\ now st1 = now st + 5000 * k /\
               exists m rest,
                 log st1 = (now st1, EPrint (LogSub m)) :: rest /\
                 (m = MStatusDetected (chipAt w page (now st1)) \/
                  m = Text "✅ Pesquisa já concluída!" \/
                  m = Text "Atividade de pesquisa detectada.")).
  { refine (while_rule _ _ (now st + 120000) 5000
              (fun v s => exists j, 0 <= j <= k /\ now s = now st + 5000 * j)
              (fun o s' => o = Ret (Done true) /\ now s' = now st + 5000 * k /\
                 exists m rest,
                   log s' = (now s', EPrint (LogSub m)) :: rest /\
                   (m = MStatusDetected (chipAt w page (now s')) \/
                    m = Text "✅ Pesquisa já concluída!" \/
                    m = Text "Atividade de pesquisa detectada."))
              _ _ _ _ false st o st1 _ _ Hloop).
    - intros v s. exists (now s <? now st + 120000).
      split; [reflexivity|]. intros H. apply Z.ltb_lt in H. lia.
    - intros v s [j [Hj Hnow]] Hc.
      cbv beta iota delta [bind ret date_now] in Hc.
      injection Hc as Hb. apply Z.ltb_ge in Hb. lia.
    - intros v s [j [Hj Hnow]] Hc.
      rewrite phase1_iteration_eq. cbv zeta.
      destruct (Z.eq_dec j k) as [->|Hne].
      + rewrite <- Hnow in Hseen.
        destruct (JsString.truthy (chipAt w page (now s))) eqn:Htruthy.
        { cbn [now log]. split; [reflexivity|]. split; [exact Hnow|].
          destruct (isDone (chipAt w page (now s)));
            eexists; eexists; (split; [reflexivity|]); tauto. }
        destruct Hseen as [Hs|Hs]; [discriminate|]. rewrite Hs.
        cbn [now log]. split; [reflexivity|]. split; [exact Hnow|].
        eexists; eexists; (split; [reflexivity|]); tauto.
      + destruct (Hquiet j ltac:(lia)) as [Hchip Hind].
        rewrite Hnow, Hchip, Hind. cbn [JsString.truthy now].
        split; [lia|]. exists (j + 1). lia.
    - exists 0. lia.
    - change (Z.of_nat (Z.to_nat (120000 / 5000))) with 24. lia. }
  destruct HQ as [-> [Hnow [m [rest [Hlog Hm]]]]].
  exists st1, m, rest. repeat split; assumption.
Qed.

(** The poller after a phase 1 that observed something at its check
    number [k]. *)
Lemma poll_after_observation (st : State) (k : Z) :
  0 <= k < 24 ->
  (forall j, 0 <= j < k ->
     chipAt w page (now st + 5000 * j) = "" /\
     indicatorAt w page (now st + 5000 * j) = false) ->
  (JsString.truthy (chipAt w page (now st + 5000 * k)) = true \/
   indicatorAt w page (now st + 5000 * k) = true) ->
  exists st2 m rest,
    pollForCompletion w page st = phase2 w page (now st) st2 /\
    now st2 = now st + 5000 * k /\
    log st2 = (now st2, PHASE2_LINE) :: (now st2, EPrint (LogSub m)) :: rest /\
    (m = MStatusDetected (chipAt w page (now st2)) \/
     m = Text "✅ Pesquisa já concluída!" \/
     m = Text "Atividade de pesquisa detectada.").
Proof.
  intros Hk Hquiet Hseen.
  unfold pollForCompletion.
  cbv beta iota delta [bind logSub console emit date_now]. cbn [now log].
  match goal with
  | |- context [phase1 w page ?s] =>
      destruct (phase1_first_observation s k Hk Hquiet Hseen)
        as [st1 [m [rest [Hrun [Hnow [Hlog Hm]]]]]];
      rewrite Hrun
  end.
  cbn [now] in Hnow.
  cbv beta iota delta [negb ret]. cbn [now log].
  eexists. exists m, rest. split; [reflexivity|]. cbn [now log].
  split; [exact Hnow|]. split; [rewrite Hlog; reflexivity | exact Hm].
Qed.
End PollerTiming.

Section PollerTimingClaims.
Import Js Drk.

(** X8: the discovery phase ends at the first of its checks, 5 seconds
    apart, at which the status chip shows some text or the activity
    indicator is visible.  The poller then enters phase 2 at that very
    instant, the line before the phase 2 line reports the observation,
    and the warning of an undetected start is not printed. *)
Theorem discovery_ends_at_first_observation (w : World) (page : PageRef)
    (st : State) (k : Z) :
  0 <= k < 24 ->
  (forall j, 0 <= j < k ->
     chipAt w page (now st + 5000 * j) = "" /\
     indicatorAt w page (now st + 5000 * j) = false) ->
  (JsString.truthy (chipAt w page (now st + 5000 * k)) = true \/
   indicatorAt w page (now st + 5000 * k) = true) ->
  exists st2 m rest,
    pollForCompletion w page st = phase2 w page (now st) st2 /\
    now st2 = now st + 5000 * k /\
    log st2 = (now st2, PHASE2_LINE) :: (now st2, EPrint (LogSub m)) :: rest /\
    (m = MStatusDetected (chipAt w page (now st2)) \/
     m = Text "✅ Pesquisa já concluída!" \/
     m = Text "Atividade de pesquisa detectada.") /\
    EPrint (LogSub m) <> NOT_DETECTED_LINE.
Proof.
  intros Hk Hquiet Hseen.
  destruct (poll_after_observation w page st k Hk Hquiet Hseen)
    as [st2 [m [rest [Heq [Hnow [Hlog Hm]]]]]].
  exists st2, m, rest. repeat split; try assumption.
  destruct Hm as [-> | [-> | ->]]; discriminate.
Qed.

(** A concrete run to which [discovery_ends_at_first_observation] applies. *)
Lemma discovery_ends_at_first_observation_witness :
  exists st2 m rest,
    pollForCompletion Worlds.late_status Worlds.page0 Worlds.st0
      = phase2 Worlds.late_status Worlds.page0 (now Worlds.st0) st2 /\
    now st2 = now Worlds.st0 + 5000 * 1 /\
    log st2 = (now st2, PHASE2_LINE) :: (now st2, EPrint (LogSub m)) :: rest /\
    (m = MStatusDetected (chipAt Worlds.late_status Worlds.page0 (now st2)) \/
     m = Text "✅ Pesquisa já concluída!" \/
     m = Text "Atividade de pesquisa detectada.") /\
    EPrint (LogSub m) <> NOT_DETECTED_LINE.
Proof.
  apply (discovery_ends_at_first_observation Worlds.late_status Worlds.page0
           Worlds.st0 1).
  - lia.
  - intros j Hj. replace j with 0 by lia. split; reflexivity.
  - left. reflexivity.
Defined.

(** X9: the poller is bounded in both directions.  In every world it
    returns a boolean; [true] comes less than 15 minutes and 5 seconds
    after the call, [false] no earlier than 15 minutes and less than 15
    minutes and 30 seconds after it; and the clock never runs
    backwards. *)
Theorem poller_returns_within_bounds (w : World) (page : PageRef) (st : State) :
  exists b st',
    pollForCompletion w page st = (Ret b, st') /\
    now st <= now st' /\
    (if b then now st' - now st < MAX_POLL_TIME_MS + 5000
     else MAX_POLL_TIME_MS <= now st' - now st
            < MAX_POLL_TIME_MS + POLL_INTERVAL_MS).
Proof.
  destruct (poll_total w page st) as [b [st' Hrun]].
  exists b, st'. split; [exact Hrun|].
  destruct b.
  - destruct (poll_success w page st st' Hrun)
      as [st2 [rest [Heq [Hnow [Hlog [Hs | Hl]]]]]].
    + destruct Hs as [t [rest' [H1 [H2 [H3 [H4 H5]]]]]]. lia.
    + destruct Hl as [rest' [H1 [H2 _]]]. unfold MAX_POLL_TIME_MS in *. lia.
  - destruct (poll_failure w page st st' Hrun) as [H1 [H2 _]].
    unfold MAX_POLL_TIME_MS, POLL_INTERVAL_MS in *. lia.
Qed.

(** X10: a completion is detected within one poll interval.  When the
    status chip shows a text that is not done until instant [T] and a
    done status from [T] on, and [T] comes no later than 14 minutes and
    30 seconds after the call, the poller returns [true] no earlier than
    5 seconds after [T] (the settle delay) and less than 35 seconds after
    it (one poll interval and the settle delay). *)
Theorem completion_detected_within_one_poll (w : World) (page : PageRef)
    (st : State) (T : Z) :
  now st <= T <= now st + 870000 ->
  (forall t, now st <= t < T ->
     JsString.truthy (chipAt w page t) = true /\ isDone (chipAt w page t) = false) ->
  (forall t, T <= t -> isDone (chipAt w page t) = true) ->
  exists st',
    pollForCompletion w page st = (Ret true, st') /\
    T + 5000 <= now st' < T + POLL_INTERVAL_MS + 5000.
Proof.
  intros HT Hbefore Hafter.
  assert (Hseen : JsString.truthy (chipAt w page (now st + 5000 * 0)) = true \/
                  indicatorAt w page (now st + 5000 * 0) = true).
  { left. replace (now st + 5000 * 0) with (now st) by lia.
    destruct (Z.eq_dec (now st) T) as [Heq|Hne].
    - apply isDone_truthy. apply Hafter. lia.
    - apply Hbefore. lia. }
  destruct (poll_after_observation w page st 0 ltac:(lia) ltac:(intros; lia) Hseen)
    as [st2 [m [rest [Heq [Hnow2 _]]]]].
  rewrite Heq. clear Heq Hseen.
  unfold phase2. unfold bind at 1. cbn [date_now].
  unfold bind at 1.
  destruct (while_ _ _ _ tt st2) as [o st1] eqn:Hloop.
  unfold loop_fuel in Hloop.
  assert (HQ : o = Ret (Returned true) /\
               T + 5000 <= now st1 < T + POLL_INTERVAL_MS + 5000).
  { refine (while_rule _ _ (now st + MAX_POLL_TIME_MS) 10000
              (fun _ s => now st <= now s < T + POLL_INTERVAL_MS)
              (fun o s' => o = Ret (Returned true) /\
                           T + 5000 <= now s' < T + POLL_INTERVAL_MS + 5000)
              _ _ _ _ tt st2 o st1 _ _ Hloop).
    - intros v s. exists (now s - now st <? MAX_POLL_TIME_MS).
      split; [reflexivity|]. intros H. apply Z.ltb_lt in H. lia.
    - intros v s Hs Hc.
      cbv beta iota delta [bind ret date_now] in Hc.
      injection Hc as Hb. apply Z.ltb_ge in Hb.
      unfold MAX_POLL_TIME_MS, POLL_INTERVAL_MS in *. lia.
    - intros [] s Hs Hc.
      rewrite phase2_iteration_eq. cbv zeta.
      destruct (Z_lt_dec (now s) T) as [Hlt|Hge].
      + destruct (Hbefore (now s) ltac:(lia)) as [Htruthy Hnot].
        rewrite Hnot, Htruthy. cbn [now]. unfold POLL_INTERVAL_MS in *. lia.
      + rewrite (Hafter (now s) ltac:(lia)). cbn [now].
        split; [reflexivity | lia].
    - unfold POLL_INTERVAL_MS. lia.
    - change (Z.of_nat (Z.to_nat (MAX_POLL_TIME_MS / 10000))) with 90.
      unfold MAX_POLL_TIME_MS. lia. }
  destruct HQ as [-> Hbound].
  cbv beta iota delta [ret]. exists st1. split; [reflexivity | exact Hbound].
Qed.

(** A concrete run to which [completion_detected_within_one_poll] applies. *)
Lemma completion_detected_within_one_poll_witness :
  exists st',
    pollForCompletion Scenarios.done_after_90s Worlds.page0 Worlds.st0 = (Ret true, st') /\
    90000 + 5000 <= now st' < 90000 + POLL_INTERVAL_MS + 5000.
Proof.
  apply (completion_detected_within_one_poll Scenarios.done_after_90s Worlds.page0
           Worlds.st0 90000).
  - cbn. lia.
  - intros t [_ Ht]. unfold chipAt, Scenarios.done_after_90s. cbn.
    apply Z.ltb_lt in Ht. rewrite Ht. split; reflexivity.
  - intros t Ht. unfold chipAt, Scenarios.done_after_90s. cbn.
    apply Z.ltb_ge in Ht. rewrite Ht. reflexivity.
Defined.
End PollerTimingClaims.

(** ** The best-effort stages *)

Section BestEffortClaims.
Import Js Drk.

End BestEffortClaims.

(** ** What a successful run has done *)

Section Happened.
Import Js Drk Trace.
Variable w : World.

Lemma happened_before (p : Z * Event -> bool) (st s1 st' : State) :
  (exists l, log s1 = (l ++ log st)%list) ->
  happened p s1 st' -> happened p st st'.
Proof.
  intros [l1 H1] [l [H2 Hp]]. exists (l ++ l1)%list. split.
  - rewrite H2, H1. rewrite <- app_assoc. reflexivity.
  - rewrite existsb_app, Hp. reflexivity.
Qed.

Lemma happened_after (p : Z * Event -> bool) (st s1 st' : State) :
  happened p st s1 ->
  (exists l, log st' = (l ++ log s1)%list) ->
  happened p st st'.
Proof.
  intros [l [H1 Hp]] [l2 H2]. exists (l2 ++ l)%list. split.
  - rewrite H2, H1. rewrite <- app_assoc. reflexivity.
  - rewrite existsb_app, Hp. apply orb_true_r.
Qed.

(** A step of a run that returned: the first part returned and only
    added to the log. *)
Lemma bind_ret_grows {A B} (m : M A) (k : A -> M B) (st st' : State) (b : B) :
  grows m ->
  bind m k st = (Ret b, st') ->
  exists a s1,
    m st = (Ret a, s1) /\ (exists l, log s1 = (l ++ log st)%list) /\
    k a s1 = (Ret b, st').
Proof.
  intros Hg H. apply bind_ret_inv in H. destruct H as [a [s1 [Hm Hk]]].
  exists a, s1. split; [exact Hm|]. split; [|exact Hk].
  exact (Hg _ _ _ Hm).
Qed.

Lemma try_catch_exit_ret_inv {A} (m : M A) (h : JsError -> M A) (st st' : State) (a : A) :
  (forall e s, match h e s with (Ret _, _) => False | _ => True end) ->
  try_catch m h st = (Ret a, st') -> m st = (Ret a, st').
Proof.
  intros Hh. unfold try_catch.
  destruct (m st) as [[b|e|c| |] s1]; intros H; try discriminate; try exact H.
  specialize (Hh e s1). rewrite H in Hh. contradiction.
Qed.

Lemma grows_navigateToGemini (page : PageRef) (url : string) :
  grows (navigateToGemini w page url).
Proof. unfold navigateToGemini, waitForTimeout, logSub, logStep, console. grow. Qed.

Lemma grows_selectModel (page : PageRef) (model : Models.JsVal) :
  grows (selectModel w page model).
Proof. unfold selectModel, waitForTimeout, logSub, logStep, console. grow. Qed.

Lemma grows_enableDeepResearch (page : PageRef) : grows (enableDeepResearch w page).
Proof. unfold enableDeepResearch, waitForTimeout, logSub, logStep, console. grow. Qed.

Lemma grows_submitQuery (page : PageRef) (query : string) :
  grows (submitQuery w page query).
Proof. unfold submitQuery, waitForTimeout, logSub, logStep, console. grow. Qed.

Lemma grows_confirmResearchStart (page : PageRef) : grows (confirmResearchStart w page).
Proof.
  unfold confirmResearchStart, confirm_iteration, confirm_attempt, confirm_try_label,
    waitForTimeout, logSub, logStep, console.
  grow.
Qed.

Lemma grows_launchBrowser (profilePath : option string) :
  grows (launchBrowser w profilePath).
Proof. unfold launchBrowser, logSub, logStep, console. grow. Qed.

Lemma grows_logBanner : grows logBanner.
Proof. unfold logBanner, log_, console. grow. Qed.

(** The path the download stage returns is the path it saved the file
    to. *)
Lemma download_saves_what_it_returns (docsPage : PageRef) (st st' : State)
    (path : string) :
  downloadEpubFromDocs w docsPage st = (Ret path, st') ->
  happened (saved_as path) st st'.
Proof.
  unfold downloadEpubFromDocs. intros H.
  do 17 (apply bind_ret_grows in H;
         [ destruct H as [? [? [_ [?Hg H]]]];
           apply (happened_before _ _ _ _ Hg); clear Hg
         | unfold openDownloadMenu, download_try_selector, waitForTimeout,
             logSub, logStep, console; grow ]).
  cbv zeta in H.
  unfold call, logSub, console in H.
  cbv beta iota delta [bind ret issue await throw emit] in H. cbn [now log] in H.
  destruct (w _ (CSaveAs _)); [|discriminate].
  injection H as <- <-. cbn [now log].
  unfold happened. cbn [now log].
  match goal with
  | |- exists l, ?a :: ?b :: ?c :: ?r = (l ++ ?r)%list /\ _ => exists [a; b; c]
  end.
  split; [reflexivity|].
  cbn. rewrite String.eqb_refl. reflexivity.
Qed.

(** A delivery stage that returned has set the file and clicked the send
    control. *)
Lemma sendToKindle_sends (page : PageRef) (epubPath : string) (st st' : State) :
  sendToKindle w page epubPath st = (Ret tt, st') ->
  happened (sets_file epubPath) st st' /\ happened is_send_click st st'.
Proof.
  unfold sendToKindle. intros H.
  assert (Hsuffix : forall k : M unit, grows k ->
            forall (c : Call) (p : Z * Event -> bool) s s',
              (forall t, p (t, ECall c) = true) ->
              (call w c ;; k)%run s = (Ret tt, s') -> happened p s s').
  { intros k Hk c p s s' Hp Hrun.
    apply bind_ret_inv in Hrun. destruct Hrun as [v [s1 [Hc Hrun]]].
    apply (happened_after _ _ s1).
    - unfold call in Hc. cbv beta iota delta [bind ret issue await throw] in Hc.
      destruct (w (now s) c); [|discriminate]. injection Hc as _ <-.
      exists [(now s, ECall c)]. split; [reflexivity|]. cbn. rewrite Hp. reflexivity.
    - exact (Hk _ _ _ Hrun). }
  split.
  - do 10 (apply bind_ret_grows in H;
          [ destruct H as [? [? [_ [?Hg H]]]];
            apply (happened_before _ _ _ _ Hg); clear Hg
          | unfold waitForTimeout, logSub, logStep, console; grow ]).
    revert H. apply Hsuffix.
    + unfold waitForTimeout, logSub, logStep, console. grow.
    + intros t. cbn. apply String.eqb_refl.
  - do 16 (apply bind_ret_grows in H;
           [ destruct H as [? [? [_ [?Hg H]]]];
             apply (happened_before _ _ _ _ Hg); clear Hg
           | unfold waitForTimeout, logSub, logStep, console; grow ]).
    revert H. apply Hsuffix.
    + unfold waitForTimeout, logSub, logStep, console. grow.
    + intros t. reflexivity.
Qed.
End Happened.

Section Success.
Import Js Drk Trace.
Variable w : World.

Lemma delivered_before (skipKindle : bool) (st s1 st' : State) :
  (exists l, log s1 = (l ++ log st)%list) ->
  delivered skipKindle s1 st' -> delivered skipKindle st st'.
Proof.
  intros Hg [path [H1 [H2 H3]]]. exists path.
  split; [exact (happened_before _ _ _ _ Hg H1)|].
  split; [exact (happened_before _ _ _ _ Hg H2)|].
  intros Hs. destruct (H3 Hs) as [H4 H5].
  split; [exact (happened_before _ _ _ _ Hg H4) | exact (happened_before _ _ _ _ Hg H5)].
Qed.

Lemma delivered_after (skipKindle : bool) (st s1 st' : State) :
  delivered skipKindle st s1 ->
  (exists l, log st' = (l ++ log s1)%list) ->
  delivered skipKindle st st'.
Proof.
  intros [path [H1 [H2 H3]]] Hg. exists path.
  split; [exact (happened_after _ _ _ _ H1 Hg)|].
  split; [exact (happened_after _ _ _ _ H2 Hg)|].
  intros Hs. destruct (H3 Hs) as [H4 H5].
  split; [exact (happened_after _ _ _ _ H4 Hg) | exact (happened_after _ _ _ _ H5 Hg)].
Qed.

Lemma happened_here (p : Z * Event -> bool) (l : list (Z * Event)) (st st' : State) :
  log st' = (l ++ log st)%list -> happened p st st' -> existsb p l = true.
Proof.
  intros Hl [l' [Hl' Hp]]. rewrite Hl in Hl'. apply app_inv_tail in Hl'.
  rewrite Hl'. exact Hp.
Qed.

Lemma console_then {B} (line : Line) (k : M B) (p : Z * Event -> bool)
    (st st' : State) (b : B) :
  grows k ->
  (forall t, p (t, EPrint line) = true) ->
  (console line ;; k)%run st = (Ret b, st') -> happened p st st'.
Proof.
  intros Hk Hp Hrun.
  cbv beta iota delta [bind console emit] in Hrun.
  destruct (Hk _ _ _ Hrun) as [l Hl]. cbn [log] in Hl.
  exists (l ++ [(now st, EPrint line)])%list. split.
  - rewrite Hl. rewrite <- app_assoc. reflexivity.
  - rewrite existsb_app. cbn. rewrite Hp. cbn. apply orb_true_r.
Qed.

(** What both flows end on, from the download on. *)
Lemma download_and_delivery (page docsPage : PageRef) (skipKindle : bool)
    (skipped closing : M unit) (st st' : State) :
  grows skipped -> grows closing ->
  (epubPath <- downloadEpubFromDocs w docsPage ;;
   call w (CClosePage docsPage) ;;
   (if negb skipKindle then sendToKindle w page epubPath else skipped) ;;
   console ConsoleBlank ;;
   log_ SEPARATOR ;;
   log_ (Text "🎉 Concluído!") ;;
   log_ (MEpub epubPath) ;;
   closing)%run st = (Ret tt, st') ->
  delivered skipKindle st st'.
Proof.
  intros Hskipped Hclosing H.
  apply bind_ret_inv in H. destruct H as [path [s1 [Hdl H]]].
  pose proof (grows_downloadEpubFromDocs w docsPage _ _ _ Hdl) as Hg1.
  apply download_saves_what_it_returns in Hdl.
  assert (Hrest : exists l, log st' = (l ++ log s1)%list).
  { revert H. match goal with |- ?m s1 = _ -> _ => assert (Hg : grows m) end.
    { apply grows_bind; [apply grows_call|]. intros _.
      apply grows_bind.
      { destruct (negb skipKindle); [apply grows_sendToKindle | exact Hskipped]. }
      intros _. unfold log_, console.
      do 4 (apply grows_bind; [apply grows_emit | intros _]). exact Hclosing. }
    intros H. exact (Hg _ _ _ H). }
  exists path. split; [exact (happened_after _ _ _ _ Hdl Hrest)|].
  apply bind_ret_grows in H; [|apply grows_call].
  destruct H as [v [s2 [_ [Hg2 H]]]].
  split.
  - apply (happened_before _ _ _ _ Hg1). apply (happened_before _ _ _ _ Hg2).
    apply bind_ret_grows in H;
      [|destruct (negb skipKindle); [apply grows_sendToKindle | exact Hskipped]].
    destruct H as [[] [s3 [_ [Hg3 H]]]]. apply (happened_before _ _ _ _ Hg3).
    unfold log_ in H.
    do 3 (apply bind_ret_grows in H; [|apply grows_console];
          destruct H as [[] [? [_ [?Hg H]]]];
          apply (happened_before _ _ _ _ Hg); clear Hg).
    revert H. apply console_then; [exact Hclosing|].
    intros t. cbn. apply String.eqb_refl.
  - intros ->. cbn [negb] in H.
    apply bind_ret_inv in H. destruct H as [[] [s3 [Hsend H]]].
    apply sendToKindle_sends in Hsend. destruct Hsend as [Hset Hclick].
    assert (Hg4 : exists l, log st' = (l ++ log s3)%list).
    { revert H. match goal with |- ?m s3 = _ -> _ => assert (Hg : grows m) end.
      { unfold log_, console.
        do 4 (apply grows_bind; [apply grows_emit | intros _]). exact Hclosing. }
      intros H. exact (Hg _ _ _ H). }
    split.
    + apply (happened_before _ _ _ _ Hg1). apply (happened_before _ _ _ _ Hg2).
      exact (happened_after _ _ _ _ Hset Hg4).
    + apply (happened_before _ _ _ _ Hg1). apply (happened_before _ _ _ _ Hg2).
      exact (happened_after _ _ _ _ Hclick Hg4).
Qed.

Lemma fullFlow_success (page : PageRef) (model : Models.JsVal) (query : string)
    (skipKindle : bool) (st st' : State) :
  fullFlow w page model query skipKindle st = (Ret tt, st') ->
  delivered skipKindle st st'.
Proof.
  unfold fullFlow. intros H.
  apply bind_ret_grows in H; [|apply grows_navigateToGemini].
  destruct H as [? [? [_ [Hg H]]]]. apply (delivered_before _ _ _ _ Hg). clear Hg.
  apply bind_ret_grows in H; [|apply grows_selectModel].
  destruct H as [? [? [_ [Hg H]]]]. apply (delivered_before _ _ _ _ Hg). clear Hg.
  apply bind_ret_grows in H; [|apply grows_enableDeepResearch].
  destruct H as [? [? [_ [Hg H]]]]. apply (delivered_before _ _ _ _ Hg). clear Hg.
  apply bind_ret_grows in H; [|apply grows_submitQuery].
  destruct H as [? [? [_ [Hg H]]]]. apply (delivered_before _ _ _ _ Hg). clear Hg.
  apply bind_ret_grows in H; [|apply grows_confirmResearchStart].
  destruct H as [? [? [_ [Hg H]]]]. apply (delivered_before _ _ _ _ Hg). clear Hg.
  apply bind_ret_grows in H; [|apply grows_pollForCompletion].
  destruct H as [? [? [_ [Hg H]]]]. apply (delivered_before _ _ _ _ Hg). clear Hg.
  apply bind_ret_grows in H; [|apply grows_exportToGoogleDocs].
  destruct H as [docsPage [? [_ [Hg H]]]]. apply (delivered_before _ _ _ _ Hg). clear Hg.
  revert H. apply download_and_delivery.
  - apply grows_console.
  - apply grows_bind; [|intros _; apply grows_console].
    destruct (negb skipKindle); [apply grows_console | apply grows_ret].
Qed.

Lemma sendOnlyFlow_success (page : PageRef) (geminiUrl : string)
    (skipKindle : bool) (st st' : State) :
  sendOnlyFlow w page geminiUrl skipKindle st = (Ret tt, st') ->
  delivered skipKindle st st'.
Proof.
  unfold sendOnlyFlow. intros H.
  do 5 (apply bind_ret_grows in H;
        [ destruct H as [? [? [_ [?Hg H]]]];
          apply (delivered_before _ _ _ _ Hg); clear Hg
        | unfold waitForTimeout, logSub, logStep, console; grow ]).
  apply bind_ret_grows in H; [|apply grows_exportToGoogleDocs].
  destruct H as [docsPage [? [_ [Hg H]]]]. apply (delivered_before _ _ _ _ Hg). clear Hg.
  revert H. apply download_and_delivery; apply grows_console.
Qed.
End Success.

(** Solves [grows m] for a computation built from the stages and the
    primitives. *)
Ltac grow_stage :=
  lazymatch goal with
  | |- Js.grows (Drk.exportToGoogleDocs _ _) => apply grows_exportToGoogleDocs
  | |- Js.grows (Drk.downloadEpubFromDocs _ _) => apply grows_downloadEpubFromDocs
  | |- Js.grows (Drk.sendToKindle _ _ _) => apply grows_sendToKindle
  | |- Js.grows (Drk.pollForCompletion _ _) => apply grows_pollForCompletion
  | |- Js.grows (Drk.confirmResearchStart _ _) => apply grows_confirmResearchStart
  | |- Js.grows (Drk.submitQuery _ _ _) => apply grows_submitQuery
  | |- Js.grows (Drk.enableDeepResearch _ _) => apply grows_enableDeepResearch
  | |- Js.grows (Drk.selectModel _ _ _) => apply grows_selectModel
  | |- Js.grows (Drk.navigateToGemini _ _ _) => apply grows_navigateToGemini
  | |- Js.grows (Drk.launchBrowser _ _) => apply grows_launchBrowser
  | |- Js.grows (Drk.logBanner) => apply grows_logBanner
  | |- Js.grows (Js.console _) => apply grows_console
  | _ => grow_step
  end.

Section SuccessClaims.
Import Js Drk Trace.

(** X12: what a normal return of [main] guarantees.  When [main] returns
    (the process ends with status 0 without [process.exit]), the run has
    saved an EPUB with [download.saveAs] and the closing banner names the
    very path it was saved to; and unless [--no-kindle] is among the
    arguments, that same path was set on the file chooser of Send to
    Kindle and the send control was clicked. *)
Theorem main_return_means_epub_delivered (w : World) (argv : list string)
    (st st' : State) :
  main w argv st = (Ret tt, st') ->
  exists path l,
    log st' = (l ++ log st)%list /\
    existsb (saved_as path) l = true /\
    existsb (announces_epub path) l = true /\
    (includes argv "--no-kindle" = false ->
     existsb (sets_file path) l = true /\ existsb is_send_click l = true).
Proof.
  intros H.
  assert (Hd : delivered (includes argv "--no-kindle") st st' /\
               exists l, log st' = (l ++ log st)%list).
  { revert H. unfold main.
    destruct (take_option argv "--profile") as [profileArg args1] eqn:H1.
    destruct (take_option args1 "--model") as [modelArg args2] eqn:H2.
    assert (Hsub : forall a, In a args2 -> In a argv).
    { intros a Ha. apply (take_option_subset argv "--profile"). rewrite H1. cbn [snd].
      apply (take_option_subset args1 "--model"). rewrite H2. exact Ha. }
    assert (Hskip : includes argv "--no-kindle" = false ->
                    includes args2 "--no-kindle" = false).
    { intros Hno. apply includes_false_iff. intros Hin.
      apply includes_false_iff in Hno. apply Hno. apply Hsub. exact Hin. }
    intros H.
    assert (Hweaken : forall s, delivered (includes args2 "--no-kindle") s st' ->
                                delivered (includes argv "--no-kindle") s st').
    { intros s [path [Ha [Hb Hc]]]. exists path. split; [exact Ha|]. split; [exact Hb|].
      intros Hno. apply Hc. apply Hskip. exact Hno. }
    split.
    2:{ revert H. match goal with |- ?m st = _ -> _ => assert (Hg : grows m) end.
        { unfold sendOnlyFlow, fullFlow, log_, logSub, logStep, waitForTimeout.
          repeat grow_stage. }
        intros H. exact (Hg _ _ _ H). }
    apply bind_ret_grows in H; [|repeat grow_stage].
    destruct H as [? [? [_ [Hg H]]]]. apply (delivered_before _ _ _ _ Hg). clear Hg.
    apply bind_ret_grows in H; [|apply grows_logBanner].
    destruct H as [? [? [_ [Hg H]]]]. apply (delivered_before _ _ _ _ Hg). clear Hg.
    apply bind_ret_grows in H;
      [|unfold navigateToGemini, log_, logSub, logStep, waitForTimeout, console;
        destruct (includes args2 "--login-only");
        [apply grows_bind; [apply grows_launchBrowser | intros ?; grow] | apply grows_ret]].
    destruct H as [? [? [_ [Hg H]]]]. apply (delivered_before _ _ _ _ Hg). clear Hg.
    apply Hweaken.
    destruct (includes args2 "--send-only").
    - apply bind_ret_grows in H; [|unfold log_, console; grow].
      destruct H as [? [? [_ [Hg H]]]]. apply (delivered_before _ _ _ _ Hg). clear Hg.
      apply bind_ret_grows in H; [|apply grows_launchBrowser].
      destruct H as [page [? [_ [Hg H]]]]. apply (delivered_before _ _ _ _ Hg). clear Hg.
      apply try_finally_ret_inv in H. destruct H as [s6 [H Hclose]].
      apply try_catch_exit_ret_inv in H.
      + apply sendOnlyFlow_success in H.
        apply (delivered_after _ _ _ _ H).
        apply close_context_last in Hclose. exists [(now st', ECall CCloseContext)].
        exact Hclose.
      + intros e s. reflexivity.
    - apply bind_ret_grows in H; [|apply grows_console].
      destruct H as [? [? [_ [Hg H]]]]. apply (delivered_before _ _ _ _ Hg). clear Hg.
      apply bind_ret_grows in H; [|apply grows_console].
      destruct H as [? [? [_ [Hg H]]]]. apply (delivered_before _ _ _ _ Hg). clear Hg.
      apply bind_ret_grows in H; [|apply grows_launchBrowser].
      destruct H as [page [? [_ [Hg H]]]]. apply (delivered_before _ _ _ _ Hg). clear Hg.
      apply try_finally_ret_inv in H. destruct H as [s6 [H Hclose]].
      apply try_catch_exit_ret_inv in H.
      + apply fullFlow_success in H.
        apply (delivered_after _ _ _ _ H).
        apply close_context_last in Hclose. exists [(now st', ECall CCloseContext)].
        exact Hclose.
      + intros e s. unfold log_, console, call.
        cbv beta iota delta [bind ret try_catch issue await throw emit process_exit].
        cbn [now log]. destruct (w (now s) (CScreenshot page "error.png")); exact I. }
  destruct Hd as [[path [Ha [Hb Hc]]] [l Hl]].
  exists path, l. split; [exact Hl|].
  split; [exact (happened_here _ _ _ _ Hl Ha)|].
  split; [exact (happened_here _ _ _ _ Hl Hb)|].
  intros Hno. destruct (Hc Hno) as [Hd He].
  split; [exact (happened_here _ _ _ _ Hl Hd) | exact (happened_here _ _ _ _ Hl He)].
Qed.

(** A concrete run to which [main_return_means_epub_delivered] applies. *)
Lemma main_return_means_epub_delivered_witness :
  exists path l,
    log (snd (main Worlds.long_report ["history of the printing press"] Worlds.st0))
      = (l ++ log Worlds.st0)%list /\
    existsb (saved_as path) l = true /\
    existsb (announces_epub path) l = true /\
    (includes ["history of the printing press"] "--no-kindle" = false ->
     existsb (sets_file path) l = true /\ existsb is_send_click l = true).
Proof.
  apply (main_return_means_epub_delivered Worlds.long_report
           ["history of the printing press"] Worlds.st0).
  vm_compute. reflexivity.
Defined.
End SuccessClaims.

(** ** The export stage *)

Section ExportStage.
Import Js Drk ExportView.
Variable w : World.
Variable page : PageRef.

(** The scan of the tabs, as a function of what the world answers. *)
Lemma export_scan_spec (ps : list PageRef) (d : option PageRef) (st : State) :
  exists st',
    now st' = now st /\
    for_of ps (export_scan_page w) d st =
      (match scan_tabs w (now st) ps with
       | Ok None => Ret (Done d)
       | Ok (Some p) => Ret (Done (Some p))
       | Err e => Throw e
       end, st').
Proof.
  revert st. induction ps as [|p ps IH]; intros st.
  - exists st. split; reflexivity.
  - cbn [for_of scan_tabs]. unfold export_scan_page at 1, call.
    cbv beta iota delta [bind ret issue await throw]. cbn [now log].
    destruct (w (now st) (CUrl p)) as [u|e].
    + destruct (JsString.includes (as_str u) "docs.google.com/document").
      * eexists. split; [|reflexivity]. reflexivity.
      * match goal with
        | |- context [for_of ps _ d ?s] => destruct (IH s) as [st' [Hnow Hrun]]
        end.
        cbn [now] in Hnow, Hrun. exists st'. split; [exact Hnow|].
        rewrite Hrun. destruct (scan_tabs w (now st) ps) as [[q|]|e]; reflexivity.
    + eexists. split; [|reflexivity]. reflexivity.
Qed.

Lemma export_iteration_tab (st : State) (p : PageRef) :
  docsTabAt w (now st) = Ok (Some p) ->
  exists st',
    export_iteration w page None st = (Ret (Break (Some p)), st') /\ now st' = now st.
Proof.
  unfold docsTabAt. intros H.
  unfold export_iteration, call.
  cbv beta iota delta [bind ret issue await throw]. cbn [now log].
  destruct (w (now st) CPages) as [ps|e]; [|discriminate].
  match goal with
  | |- context [for_of _ _ None ?s] =>
      destruct (export_scan_spec (as_pages ps) None s) as [st' [Hnow Hrun]]
  end.
  cbn [now] in Hnow, Hrun. rewrite Hrun, H.
  exists st'. split; [reflexivity | exact Hnow].
Qed.

Lemma export_iteration_nothing (st : State) :
  no_document_at w page (now st) ->
  exists st',
    export_iteration w page None st = (Ret (Next None), st') /\
    now st' = now st + 2000.
Proof.
  unfold no_document_at, docsTabAt, sees. intros [H Hlink].
  unfold export_iteration, call.
  cbv beta iota delta [bind ret issue await throw]. cbn [now log].
  destruct (w (now st) CPages) as [ps|e]; [|discriminate].
  match goal with
  | |- context [for_of _ _ None ?s] =>
      destruct (export_scan_spec (as_pages ps) None s) as [st' [Hnow Hrun]]
  end.
  cbn [now] in Hnow, Hrun. rewrite Hrun, H.
  cbv beta iota delta [try_catch bind ret issue sleep]. cbn [now log].
  rewrite Hnow, Hlink. cbn [now log].
  eexists. split; [reflexivity|]. cbn [now]. lia.
Qed.

(** The wait for the document: [k] polls that find nothing, then the
    poll that finds the tab. *)
Lemma export_wait_finds_tab (st : State) (k : Z) (p : PageRef) :
  0 <= k < 15 ->
  (forall j, 0 <= j < k -> no_document_at w page (now st + 2000 * j)) ->
  docsTabAt w (now st + 2000 * k) = Ok (Some p) ->
  exists st',
    while_ (loop_fuel 30000 2000)
      (fun _ => t <- date_now ;; ret (t - now st <? 30000))%run
      (export_iteration w page) None st = (Ret (Done (Some p)), st') /\
    now st' = now st + 2000 * k.
Proof.
  intros Hk Hnone Htab.
  destruct (while_ _ _ _ None st) as [o st'] eqn:Hloop.
  unfold loop_fuel in Hloop.
  assert (HQ : o = Ret (Done (Some p)) /\ now st' = now st + 2000 * k).
  { refine (while_rule _ _ (now st + 30000) 2000
              (fun v s => v = None /\ exists j, 0 <= j <= k /\ now s = now st + 2000 * j)
              (fun o s' => o = Ret (Done (Some p)) /\ now s' = now st + 2000 * k)
              _ _ _ _ None st o st' _ _ Hloop).
    - intros v s. exists (now s - now st <? 30000).
      split; [reflexivity|]. intros H. apply Z.ltb_lt in H. lia.
    - intros v s [_ [j [Hj Hs]]] Hc.
      cbv beta iota delta [bind ret date_now] in Hc.
      injection Hc as Hb. apply Z.ltb_ge in Hb. lia.
    - intros v s [-> [j [Hj Hs]]] Hc.
      destruct (Z.eq_dec j k) as [->|Hne].
      + rewrite <- Hs in Htab.
        destruct (export_iteration_tab s p Htab) as [s1 [Hrun Hnow]].
        rewrite Hrun. split; [reflexivity | lia].
      + assert (Hn : no_document_at w page (now s)).
        { rewrite Hs. apply Hnone. lia. }
        destruct (export_iteration_nothing s Hn) as [s1 [Hrun Hnow]].
        rewrite Hrun. split; [lia|]. split; [reflexivity|].
        exists (j + 1). lia.
    - split; [reflexivity|]. exists 0. lia.
    - change (Z.of_nat (Z.to_nat (30000 / 2000))) with 15. lia. }
  destruct HQ as [-> Hnow]. exists st'. split; [reflexivity | exact Hnow].
Qed.

(** The wait for the document when nothing shows: fifteen polls, thirty
    seconds. *)
Lemma export_wait_gives_up (st : State) :
  (forall j, 0 <= j < 15 -> no_document_at w page (now st + 2000 * j)) ->
  exists st',
    while_ (loop_fuel 30000 2000)
      (fun _ => t <- date_now ;; ret (t - now st <? 30000))%run
      (export_iteration w page) None st = (Ret (Done None), st') /\
    now st' = now st + 30000.
Proof.
  intros Hnone.
  destruct (while_ _ _ _ None st) as [o st'] eqn:Hloop.
  unfold loop_fuel in Hloop.
  assert (HQ : o = Ret (Done None) /\ now st' = now st + 30000).
  { refine (while_rule _ _ (now st + 30000) 2000
              (fun v s => v = None /\ exists j, 0 <= j <= 15 /\ now s = now st + 2000 * j)
              (fun o s' => o = Ret (Done None) /\ now s' = now st + 30000)
              _ _ _ _ None st o st' _ _ Hloop).
    - intros v s. exists (now s - now st <? 30000).
      split; [reflexivity|]. intros H. apply Z.ltb_lt in H. lia.
    - intros v s [-> [j [Hj Hs]]] Hc.
      cbv beta iota delta [bind ret date_now] in Hc.
      injection Hc as Hb. apply Z.ltb_ge in Hb. split; [reflexivity | lia].
    - intros v s [-> [j [Hj Hs]]] Hc.
      cbv beta iota delta [bind ret date_now] in Hc.
      injection Hc as Hb. apply Z.ltb_lt in Hb.
      assert (Hn : no_document_at w page (now s)).
      { rewrite Hs. apply Hnone. lia. }
      destruct (export_iteration_nothing s Hn) as [s1 [Hrun Hnow]].
      rewrite Hrun. split; [lia|]. split; [reflexivity|].
      exists (j + 1). lia.
    - split; [reflexivity|]. exists 0. lia.
    - change (Z.of_nat (Z.to_nat (30000 / 2000))) with 15. lia. }
  destruct HQ as [-> Hnow]. exists st'. split; [reflexivity | exact Hnow].
Qed.

Lemma export_iteration_dead_link (st : State) (h : Value) (np : PageRef) (e : JsError) :
  docsTabAt w (now st) = Ok None ->
  sees w page DocsLink (now st) = true ->
  w (now st) (CGetAttribute page DocsLink "href") = Ok h ->
  w (now st) CNewPage = Ok (VPage np) ->
  w (now st) (CGoto np (as_str h)) = Err e ->
  exists st',
    export_iteration w page None st = (Ret (Next (Some np)), st') /\
    now st' = now st + 2000.
Proof.
  unfold docsTabAt, sees. intros H Hlink Hhref Hnew Hgoto.
  unfold export_iteration, call.
  cbv beta iota delta [bind ret issue await throw]. cbn [now log].
  destruct (w (now st) CPages) as [ps|e']; [|discriminate].
  match goal with
  | |- context [for_of _ _ None ?s] =>
      destruct (export_scan_spec (as_pages ps) None s) as [st' [Hnow Hrun]]
  end.
  cbn [now] in Hnow, Hrun. rewrite Hrun, H.
  unfold logSub, console.
  cbv beta iota delta [try_catch bind ret issue await throw sleep emit]. cbn [now log].
  rewrite Hnow, Hlink. cbn [now log].
  rewrite ?Hnow, Hhref. cbn [now log].
  rewrite ?Hnow, Hnew. cbn [now log as_page default from_option id].
  rewrite ?Hnow, Hgoto. cbn [now log].
  eexists. split; [reflexivity|]. cbn [now]. lia.
Qed.

Lemma export_iteration_kept (st : State) (np : PageRef) :
  docsTabAt w (now st) = Ok None ->
  exists st',
    export_iteration w page (Some np) st = (Ret (Break (Some np)), st') /\
    now st' = now st.
Proof.
  unfold docsTabAt. intros H.
  unfold export_iteration, call.
  cbv beta iota delta [bind ret issue await throw]. cbn [now log].
  destruct (w (now st) CPages) as [ps|e']; [|discriminate].
  match goal with
  | |- context [for_of _ _ (Some np) ?s] =>
      destruct (export_scan_spec (as_pages ps) (Some np) s) as [st' [Hnow Hrun]]
  end.
  cbn [now] in Hnow, Hrun. rewrite Hrun, H.
  exists st'. split; [reflexivity | exact Hnow].
Qed.

(** The wait for the document when the first poll finds a link that
    the new tab fails to load. *)
Lemma export_wait_keeps_dead_tab (st : State) (h : Value) (np : PageRef) (e : JsError) :
  docsTabAt w (now st) = Ok None ->
  sees w page DocsLink (now st) = true ->
  w (now st) (CGetAttribute page DocsLink "href") = Ok h ->
  w (now st) CNewPage = Ok (VPage np) ->
  w (now st) (CGoto np (as_str h)) = Err e ->
  docsTabAt w (now st + 2000) = Ok None ->
  exists st',
    while_ (loop_fuel 30000 2000)
      (fun _ => t <- date_now ;; ret (t - now st <? 30000))%run
      (export_iteration w page) None st = (Ret (Done (Some np)), st') /\
    now st' = now st + 2000.
Proof.
  intros H Hlink Hhref Hnew Hgoto H2.
  destruct (export_iteration_dead_link st h np e H Hlink Hhref Hnew Hgoto)
    as [s1 [Hrun1 Hnow1]].
  rewrite <- Hnow1 in H2.
  destruct (export_iteration_kept s1 np H2) as [s2 [Hrun2 Hnow2]].
  exists s2. split; [|lia].
  unfold loop_fuel. change (Z.to_nat (30000 / 2000)) with 15%nat.
  rewrite while_unroll. unfold bind at 1. cbv beta iota delta [bind ret date_now].
  replace (now st - now st <? 30000) with true by (symmetry; apply Z.ltb_lt; lia).
  rewrite Hrun1.
  rewrite while_unroll. cbv beta iota delta [bind ret date_now].
  replace (now s1 - now st <? 30000) with true by (symmetry; apply Z.ltb_lt; lia).
  rewrite Hrun2. reflexivity.
Qed.

(** The export stage up to the wait for the document. *)
Lemma export_enters_wait {B} (k : LoopEnd (option PageRef) Empty_set -> M B) (st : State) :
  export_starts w page (now st) = true ->
  exists s1,
    now s1 = now st + 1500 /\
    (logStep 5 (Text "📤 Exportando para o Google Docs...") ;;
     logSub (Text ("Clicando " +:+ quoted "Compartilhar e exportar" +:+ "...")) ;;
     call w (CWaitFor page ExportMenuButton 10000) ;;
     call w (CClick page ExportMenuButton) ;;
     waitForTimeout w page 1500 ;;
     logSub (Text "✅ Menu aberto.") ;;
     logSub (Text ("Clicando " +:+ quoted "Exportar para o Google Docs" +:+ "...")) ;;
     call w (CWaitFor page ExportToDocsButton 5000) ;;
     call w (CClick page ExportToDocsButton) ;;
     logSub (Text "✅ Exportação iniciada.") ;;
     logSub (Text "Aguardando Google Docs abrir...") ;;
     startTime <- date_now ;;
     r <- while_ (loop_fuel 30000 2000)
            (fun _ => t <- date_now ;; ret (t - startTime <? 30000))
            (export_iteration w page) None ;;
     k r)%run st
    = (r <- while_ (loop_fuel 30000 2000)
            (fun _ => t <- date_now ;; ret (t - now s1 <? 30000))
            (export_iteration w page) None ;;
       k r)%run s1.
Proof.
  unfold export_starts, is_ok, wait_resolves. intros H.
  apply andb_prop in H. destruct H as [H H4].
  apply andb_prop in H. destruct H as [H H3].
  apply andb_prop in H. destruct H as [H Hw].
  apply andb_prop in H. destruct H as [H1 H2].
  unfold call, waitForTimeout, logStep, logSub, console.
  cbv beta iota delta [bind ret issue answer await throw emit sleep date_now].
  cbn [now log].
  destruct (w (now st) (CWaitFor page ExportMenuButton 10000)); [|discriminate].
  cbn [now log].
  destruct (w (now st) (CClick page ExportMenuButton)); [|discriminate].
  cbn [now log].
  destruct (w (now st) (CWaitForTimeout page 1500)); [|discriminate].
  cbn [now log].
  destruct (w (now st + 1500) (CWaitFor page ExportToDocsButton 5000)); [|discriminate].
  cbn [now log].
  destruct (w (now st + 1500) (CClick page ExportToDocsButton)); [|discriminate].
  cbn [now log].
  match goal with
  | |- exists s1, _ /\ ?lhs = _ =>
      match lhs with context [while_ _ _ _ None ?s] => exists s end
  end.
  split; reflexivity.
Qed.
End ExportStage.

Section ExportClaims.
Import Js Drk ExportView.

(** X13: the export stage takes the first document tab it sees.  When the
    two clicks that start the export and the wait between them succeed,
    the first [k] polls of the wait for the document, two seconds apart,
    find neither a document tab nor a link, and poll [k] (within the 30
    seconds) finds a tab [p] whose URL contains
    [docs.google.com/document], the stage returns that tab, 1.5 seconds
    plus [2 k] seconds plus 3 seconds after it was called, provided the
    tab answers the load-state wait, the wait of three seconds and the
    final [url()]. *)
Theorem export_returns_first_document_tab (w : World) (page p : PageRef)
    (st : State) (k : Z) :
  0 <= k < 15 ->
  export_starts w page (now st) = true ->
  (forall j, 0 <= j < k -> no_document_at w page (now st + 1500 + 2000 * j)) ->
  docsTabAt w (now st + 1500 + 2000 * k) = Ok (Some p) ->
  is_ok (w (now st + 1500 + 2000 * k) (CWaitForLoadState p)) = true ->
  wait_resolves w p 3000 (now st + 1500 + 2000 * k) = true ->
  is_ok (w (now st + 1500 + 2000 * k + 3000) (CUrl p)) = true ->
  exists st',
    exportToGoogleDocs w page st = (Ret p, st') /\
    now st' = now st + 1500 + 2000 * k + 3000.
Proof.
  intros Hk Hstart Hnone Htab Hload Hwait Hurl.
  unfold exportToGoogleDocs. cbv zeta.
  destruct (export_enters_wait w page
              (fun r =>
                 (docsPage <-
                    match (match r with Done d => d | Returned e => match e with end end) with
                    | Some d => ret d
                    | None =>
                        logSub (Text ("Procurando botão " +:+ quoted "Abrir documento"
                                      +:+ " no toast...")) ;;
                        try_catch
                          (call w (CWaitFor page OpenDocumentToast 10000) ;;
                           ev <- issue w (CWaitForPage 15000) ;;
                           ck <- issue w (CClick page OpenDocumentToast) ;;
                           both <- await_both ev ck ;;
                           ret (default page (as_page (fst both))))
                          (fun err =>
                             throw (mkError "Error"
                                      ("Google Docs não abriu após exportação: "
                                       +:+ err_message err)))
                    end ;;
                  call w (CWaitForLoadState docsPage) ;;
                  waitForTimeout w docsPage 3000 ;;
                  u <- call w (CUrl docsPage) ;;
                  logSub (MDocsOpened (as_str u)) ;;
                  ret docsPage)%run)
              st Hstart) as [s1 [Hnow1 Heq]].
  rewrite Heq. clear Heq.
  destruct (export_wait_finds_tab w page s1 k p Hk) as [s2 [Hloop Hnow2]].
  { intros j Hj. rewrite Hnow1. apply Hnone. exact Hj. }
  { rewrite Hnow1. exact Htab. }
  rewrite (bind_run _ _ _ _ _ Hloop).
  unfold call, waitForTimeout, logSub, console.
  cbv beta iota delta [bind ret issue answer await throw emit sleep]. cbn [now log].
  rewrite Hnow2, Hnow1.
  unfold is_ok in Hload, Hurl. unfold wait_resolves in Hwait.
  destruct (w (now st + 1500 + 2000 * k) (CWaitForLoadState p)); [|discriminate].
  cbn [now log].
  destruct (w (now st + 1500 + 2000 * k) (CWaitForTimeout p 3000)); [|discriminate].
  cbn [now log].
  destruct (w (now st + 1500 + 2000 * k + 3000) (CUrl p)); [|discriminate].
  eexists. split; reflexivity.
Qed.

(** A concrete run to which [export_returns_first_document_tab] applies. *)
Lemma export_returns_first_document_tab_witness :
  exists st',
    exportToGoogleDocs Scenarios.docs_tab_after_4s Worlds.page0 Worlds.st0
      = (Ret (Page 1), st') /\
    now st' = now Worlds.st0 + 1500 + 2000 * 2 + 3000.
Proof.
  apply (export_returns_first_document_tab Scenarios.docs_tab_after_4s
           Worlds.page0 (Page 1) Worlds.st0 2).
  - lia.
  - reflexivity.
  - intros j Hj. assert (Hc : j = 0 \/ j = 1) by lia.
    destruct Hc as [-> | ->]; split; reflexivity.
  - reflexivity.
  - reflexivity.
  - reflexivity.
  - reflexivity.
Defined.

(** X14: a tab that failed to load is taken for the document.  When the
    first poll of the wait finds no document tab but a visible link, the
    stage opens a new tab and navigates it to the link; if that
    navigation rejects, the error is swallowed and, two seconds later,
    with still no document tab among the open ones, the stage goes on
    with the new tab and, when the tab answers the load-state wait, the
    wait of three seconds and [url()], returns it as the document page,
    although it never loaded the document. *)
Theorem export_returns_tab_that_failed_to_load (w : World) (page np : PageRef)
    (st : State) (h : Value) (e : JsError) :
  export_starts w page (now st) = true ->
  docsTabAt w (now st + 1500) = Ok None ->
  sees w page DocsLink (now st + 1500) = true ->
  w (now st + 1500) (CGetAttribute page DocsLink "href") = Ok h ->
  w (now st + 1500) CNewPage = Ok (VPage np) ->
  w (now st + 1500) (CGoto np (as_str h)) = Err e ->
  docsTabAt w (now st + 3500) = Ok None ->
  is_ok (w (now st + 3500) (CWaitForLoadState np)) = true ->
  wait_resolves w np 3000 (now st + 3500) = true ->
  is_ok (w (now st + 6500) (CUrl np)) = true ->
  exists st',
    exportToGoogleDocs w page st = (Ret np, st') /\
    now st' = now st + 6500.
Proof.
  intros Hstart Htab Hlink Hhref Hnew Hgoto Htab2 Hload Hwait Hurl.
  unfold exportToGoogleDocs. cbv zeta.
  destruct (export_enters_wait w page
              (fun r =>
                 (docsPage <-
                    match (match r with Done d => d | Returned e => match e with end end) with
                    | Some d => ret d
                    | None =>
                        logSub (Text ("Procurando botão " +:+ quoted "Abrir documento"
                                      +:+ " no toast...")) ;;
                        try_catch
                          (call w (CWaitFor page OpenDocumentToast 10000) ;;
                           ev <- issue w (CWaitForPage 15000) ;;
                           ck <- issue w (CClick page OpenDocumentToast) ;;
                           both <- await_both ev ck ;;
                           ret (default page (as_page (fst both))))
                          (fun err =>
                             throw (mkError "Error"
                                      ("Google Docs não abriu após exportação: "
                                       +:+ err_message err)))
                    end ;;
                  call w (CWaitForLoadState docsPage) ;;
                  waitForTimeout w docsPage 3000 ;;
                  u <- call w (CUrl docsPage) ;;
                  logSub (MDocsOpened (as_str u)) ;;
                  ret docsPage)%run)
              st Hstart) as [s1 [Hnow1 Heq]].
  rewrite Heq. clear Heq.
  rewrite <- Hnow1 in Htab, Hlink, Hhref, Hnew, Hgoto.
  replace (now st + 3500) with (now s1 + 2000) in Htab2 by lia.
  destruct (export_wait_keeps_dead_tab w page s1 h np e Htab Hlink Hhref Hnew Hgoto Htab2)
    as [s2 [Hloop Hnow2]].
  rewrite (bind_run _ _ _ _ _ Hloop).
  unfold call, waitForTimeout, logSub, console.
  cbv beta iota delta [bind ret issue answer await throw emit sleep]. cbn [now log].
  replace (now s2) with (now st + 3500) by lia.
  unfold is_ok in Hload, Hurl. unfold wait_resolves in Hwait.
  destruct (w (now st + 3500) (CWaitForLoadState np)); [|discriminate].
  cbn [now log].
  destruct (w (now st + 3500) (CWaitForTimeout np 3000)); [|discriminate].
  cbn [now log].
  replace (now st + 3500 + 3000) with (now st + 6500) by lia.
  destruct (w (now st + 6500) (CUrl np)); [|discriminate].
  eexists. split; reflexivity.
Qed.

(** A concrete run to which [export_returns_tab_that_failed_to_load] applies. *)
Lemma export_returns_tab_that_failed_to_load_witness :
  exists st',
    exportToGoogleDocs Scenarios.docs_link_dead Worlds.page0 Worlds.st0
      = (Ret (Page 1), st') /\
    now st' = now Worlds.st0 + 6500.
Proof.
  apply (export_returns_tab_that_failed_to_load Scenarios.docs_link_dead
           Worlds.page0 (Page 1) Worlds.st0
           (VStr "https://docs.google.com/document/d/1")
           (mkError "Error" "net::ERR_ABORTED")); reflexivity.
Defined.

(** X15: how the export stage gives up.  When the two clicks that start
    the export and the wait between them succeed, none of the fifteen
    polls of the wait finds a
    document tab or a link, and the wait for the toast then rejects with
    an error [e], the stage throws, 31.5 seconds after it was called, a
    plain [Error] whose message is the fixed prefix followed by the
    message of [e]; the name of [e] is lost. *)
Theorem export_gives_up_with_wrapped_error (w : World) (page : PageRef)
    (st : State) (e : JsError) :
  export_starts w page (now st) = true ->
  (forall j, 0 <= j < 15 -> no_document_at w page (now st + 1500 + 2000 * j)) ->
  w (now st + 31500) (CWaitFor page OpenDocumentToast 10000) = Err e ->
  exists st',
    exportToGoogleDocs w page st
      = (Throw (mkError "Error"
                  ("Google Docs não abriu após exportação: " +:+ err_message e)), st') /\
    now st' = now st + 31500.
Proof.
  intros Hstart Hnone Htoast.
  unfold exportToGoogleDocs. cbv zeta.
  destruct (export_enters_wait w page
              (fun r =>
                 (docsPage <-
                    match (match r with Done d => d | Returned e => match e with end end) with
                    | Some d => ret d
                    | None =>
                        logSub (Text ("Procurando botão " +:+ quoted "Abrir documento"
                                      +:+ " no toast...")) ;;
                        try_catch
                          (call w (CWaitFor page OpenDocumentToast 10000) ;;
                           ev <- issue w (CWaitForPage 15000) ;;
                           ck <- issue w (CClick page OpenDocumentToast) ;;
                           both <- await_both ev ck ;;
                           ret (default page (as_page (fst both))))
                          (fun err =>
                             throw (mkError "Error"
                                      ("Google Docs não abriu após exportação: "
                                       +:+ err_message err)))
                    end ;;
                  call w (CWaitForLoadState docsPage) ;;
                  waitForTimeout w docsPage 3000 ;;
                  u <- call w (CUrl docsPage) ;;
                  logSub (MDocsOpened (as_str u)) ;;
                  ret docsPage)%run)
              st Hstart) as [s1 [Hnow1 Heq]].
  rewrite Heq. clear Heq.
  destruct (export_wait_gives_up w page s1) as [s2 [Hloop Hnow2]].
  { intros j Hj. rewrite Hnow1. apply Hnone. exact Hj. }
  rewrite (bind_run _ _ _ _ _ Hloop).
  unfold call, waitForTimeout, logSub, console.
  cbv beta iota delta [bind ret try_catch issue await throw emit sleep]. cbn [now log].
  replace (now s2) with (now st + 31500) by lia.
  rewrite Htoast. eexists. split; reflexivity.
Qed.

(** A concrete run to which [export_gives_up_with_wrapped_error] applies. *)
Lemma export_gives_up_with_wrapped_error_witness :
  exists st',
    exportToGoogleDocs Scenarios.docs_never_opens Worlds.page0 Worlds.st0
      = (Throw (mkError "Error"
                  ("Google Docs não abriu após exportação: "
                   +:+ err_message Worlds.timeoutError)), st') /\
    now st' = now Worlds.st0 + 31500.
Proof.
  apply (export_gives_up_with_wrapped_error Scenarios.docs_never_opens
           Worlds.page0 Worlds.st0 Worlds.timeoutError).
  - reflexivity.
  - intros j Hj. split; reflexivity.
  - reflexivity.
Defined.
End ExportClaims.

(** ** The delivery stage *)

Section DeliveryClaims.
Import Js Drk ExportView DeliveryView.

(** X16: the delivery stage returns exactly when its ten awaits before the
    confirmation resolve; the confirmation is optional.  When the
    navigation, the wait of three seconds, the upload control, the file
    chooser, the click on the upload control, the setting of the file,
    the wait of five seconds, the send control, the click on it and the
    second wait of five seconds all resolve, [sendToKindle] returns
    normally 13 seconds after it was called, and whether the success
    text shows only decides its last line.  When one of the ten rejects
    (a wait rejects when the page has been closed), [sendToKindle]
    throws. *)
Theorem delivery_confirmation_is_optional (w : World) (page : PageRef)
    (epubPath : string) (st : State) :
  (delivery_accepted w page epubPath (now st) = true ->
   exists st' rest,
     sendToKindle w page epubPath st = (Ret tt, st') /\
     now st' = now st + 13000 /\
     log st' = (now st', DELIVERY_LAST_LINE (delivery_confirmed w page (now st))) :: rest) /\
  (delivery_accepted w page epubPath (now st) = false ->
   exists e st', sendToKindle w page epubPath st = (Throw e, st')).
Proof.
  unfold delivery_accepted, delivery_confirmed, DELIVERY_LAST_LINE, is_ok,
    wait_resolves.
  unfold sendToKindle, call, await_both, waitForTimeout, logStep, logSub, console.
  cbv beta iota zeta delta [bind ret try_catch issue answer await throw emit sleep].
  cbn [now log].
  destruct (w (now st) (CGoto page SEND_TO_KINDLE_URL)); cbn [now log andb];
    [|split; [discriminate | intros _; eexists; eexists; reflexivity]].
  destruct (w (now st) (CWaitForTimeout page 3000)); cbn [now log andb];
    [|split; [discriminate | intros _; eexists; eexists; reflexivity]].
  destruct (w (now st + 3000) (CWaitFor page UploadButton 10000)); cbn [now log andb];
    [|split; [discriminate | intros _; eexists; eexists; reflexivity]].
  destruct (w (now st + 3000) (CWaitForFileChooser page 15000)); cbn [now log andb];
    [|split; [discriminate | intros _; eexists; eexists; reflexivity]].
  destruct (w (now st + 3000) (CClick page UploadButton)); cbn [now log andb];
    [|split; [discriminate | intros _; eexists; eexists; reflexivity]].
  destruct (w (now st + 3000) (CSetFiles epubPath)); cbn [now log andb];
    [|split; [discriminate | intros _; eexists; eexists; reflexivity]].
  destruct (w (now st + 3000) (CWaitForTimeout page 5000)); cbn [now log andb];
    [|split; [discriminate | intros _; eexists; eexists; reflexivity]].
  destruct (w (now st + 3000 + 5000) (CWaitFor page SendButton 15000)); cbn [now log andb];
    [|split; [discriminate | intros _; eexists; eexists; reflexivity]].
  destruct (w (now st + 3000 + 5000) (CClick page SendButton)); cbn [now log andb];
    [|split; [discriminate | intros _; eexists; eexists; reflexivity]].
  destruct (w (now st + 3000 + 5000) (CWaitForTimeout page 5000)); cbn [now log andb];
    [|split; [discriminate | intros _; eexists; eexists; reflexivity]].
  split; [|discriminate]. intros _.
  destruct (w (now st + 3000 + 5000 + 5000) (CWaitFor page SuccessText 15000));
    cbn [now log]; eexists; eexists; (split; [reflexivity|]); cbn [now log];
    (split; [lia | reflexivity]).
Qed.

(** A concrete run to which [delivery_confirmation_is_optional] applies. *)
Lemma delivery_confirmation_is_optional_witness :
  exists st' rest,
    sendToKindle Scenarios.no_success_text Worlds.page0 "~/Downloads/report.epub" Worlds.st0
      = (Ret tt, st') /\
    now st' = now Worlds.st0 + 13000 /\
    log st' = (now st', DELIVERY_LAST_LINE false) :: rest.
Proof.
  apply (proj1 (delivery_confirmation_is_optional Scenarios.no_success_text
                  Worlds.page0 "~/Downloads/report.epub" Worlds.st0)).
  reflexivity.
Defined.
End DeliveryClaims.

(** ** The done status *)

Section DoneStatus.
Import Js Drk.

Lemma match_here_append (pat : list JsString.CharClass) (s b : string) :
  JsString.match_here pat s = true -> JsString.match_here pat (s +:+ b) = true.
Proof.
  revert s. induction pat as [|cl pat IH]; intros s H; [reflexivity|].
  destruct s as [|c s]; [discriminate|].
  change (String c s +:+ b) with (String c (s +:+ b)).
  cbn [JsString.match_here] in *.
  apply andb_prop in H. destruct H as [H1 H2].
  rewrite H1, (IH s H2). reflexivity.
Qed.

Lemma search_append (pat : list JsString.CharClass) (s b : string) :
  JsString.search pat s = true -> JsString.search pat (s +:+ b) = true.
Proof.
  induction s as [|c s IH]; intros H.
  - cbn [JsString.search] in H. rewrite orb_false_r in H.
    apply (match_here_append pat "" b) in H.
    destruct (("" +:+ b)%string) as [|c' s'] eqn:Hb.
    + cbn [JsString.search]. rewrite H. reflexivity.
    + cbn [JsString.search]. rewrite H. reflexivity.
  - change (String c s +:+ b) with (String c (s +:+ b)).
    cbn [JsString.search] in *.
    apply orb_prop in H. destruct H as [H|H].
    + apply (match_here_append pat (String c s) b) in H.
      change (String c s +:+ b) with (String c (s +:+ b)) in H.
      rewrite H. reflexivity.
    + rewrite (IH H). apply orb_true_r.
Qed.

Lemma search_prepend (pat : list JsString.CharClass) (a s : string) :
  JsString.search pat s = true -> JsString.search pat (a +:+ s) = true.
Proof.
  intros H. induction a as [|c a IH]; [exact H|].
  change (String c a +:+ s) with (String c (a +:+ s)).
  cbn [JsString.search]. rewrite IH. apply orb_true_r.
Qed.

Lemma re_test_anywhere (re : list (list JsString.CharClass)) (a s b : string) :
  re_test re s = true -> re_test re (a +:+ s +:+ b) = true.
Proof.
  unfold re_test. intros H. apply existsb_exists in H. destruct H as [alt [Hin H]].
  apply existsb_exists. exists alt. split; [exact Hin|].
  apply search_prepend. apply search_append. exact H.
Qed.
End DoneStatus.

Section DoneStatusClaims.
Import Js Drk.

(** X17: the done test is not anchored.  A status text counts as done as
    soon as it contains a done word anywhere: whatever stands before or
    after a text that is done, the whole is done as well, so a status
    that negates or qualifies the word is taken for a completion. *)
Theorem done_word_anywhere_is_done (a s b : string) :
  isDone s = true -> isDone (a +:+ s +:+ b) = true.
Proof. unfold isDone. apply re_test_anywhere. Qed.

(** A concrete run to which [done_word_anywhere_is_done] applies. *)
Lemma done_word_anywhere_is_done_witness :
  isDone ("Ainda não " +:+ "concluído" +:+ " (3 de 5 etapas)") = true.
Proof.
  apply (done_word_anywhere_is_done "Ainda não " "concluído" " (3 de 5 etapas)").
  reflexivity.
Defined.
End DoneStatusClaims.

(** ** The confirmation stage in time *)

Section ConfirmTiming.
Import Js Drk ConfirmView.
Variable w : World.
Variable page : PageRef.

Lemma confirm_iteration_miss (st : State) :
  nothing_to_click w page (now st) ->
  wait_resolves w page 2000 (now st) = true ->
  exists st',
    confirm_iteration w page tt st = (Ret (Next tt), st') /\
    now st' = now st + 2000.
Proof.
  intros [Hall Hloose] Hwait. unfold wait_resolves in Hwait.
  unfold confirm_iteration, confirm_attempt.
  unfold try_catch, bind at 1. unfold bind at 1.
  pose proof (for_of_labels_skip w page possibleButtons [] st Hall) as Hskip.
  rewrite app_nil_r in Hskip. rewrite Hskip. clear Hskip.
  cbn [for_of]. unfold call, waitForTimeout.
  cbv beta iota zeta delta [bind ret issue answer await sleep].
  cbn [now log]. rewrite Hloose. cbn [as_bool now log].
  destruct (w (now st) (CWaitForTimeout page 2000)); [|discriminate].
  cbn [now log]. eexists. split; reflexivity.
Qed.

Lemma confirm_iteration_hit (pre post : list string) (x : string) (st : State) :
  possibleButtons = (pre ++ x :: post)%list ->
  (forall p, In p pre -> w (now st) (CIsVisible page (RoleButton p)) = Ok (VBool false)) ->
  w (now st) (CIsVisible page (RoleButton x)) = Ok (VBool true) ->
  w (now st) (CClick page (RoleButton x)) = Ok VUnit ->
  wait_resolves w page 5000 (now st) = true ->
  exists rest,
    confirm_iteration w page tt st =
      (Ret (Return tt),
       mkState (now st + 5000)
         ((now st, ESleep 5000)
          :: (now st, EPrint (LogSub (Text "✅ Pesquisa iniciada (plano confirmado).")))
          :: (now st, ECall (CClick page (RoleButton x)))
          :: (now st, EPrint (LogSub (MButtonFound x))) :: rest)).
Proof.
  intros Hsplit Hpre Hx Hclick Hwait. unfold wait_resolves in Hwait.
  unfold confirm_iteration, confirm_attempt. rewrite Hsplit.
  unfold try_catch, bind at 1. unfold bind at 1.
  rewrite (for_of_labels_skip w page pre (x :: post) st Hpre).
  cbn [for_of]. unfold bind at 1.
  unfold confirm_try_label at 1. unfold call, waitForTimeout.
  cbv beta iota zeta delta [bind ret issue answer await sleep logSub console emit].
  cbn [now log]. rewrite Hx. cbn [as_bool now log].
  rewrite Hclick. cbn [now log].
  destruct (w (now st) (CWaitForTimeout page 5000)); [|discriminate].
  cbn [now log]. eexists. reflexivity.
Qed.
End ConfirmTiming.

Section ConfirmTimingClaims.
Import Js Drk ConfirmView.

(** X18: the confirmation button is clicked at the first poll that sees
    it.  When the first [k] polls of the confirmation stage, two seconds
    apart, see no button at all and the wait of two seconds after each
    of them resolves, and at poll [k] (within the 60 seconds) the label
    [x] of the list is visible, the labels before it are not, the click
    on it succeeds and the wait of five seconds after the click
    resolves, the stage clicks [x] at that poll and returns five seconds
    later; the click is the last call it makes. *)
Theorem confirmation_clicks_at_first_sighting (w : World) (page : PageRef)
    (st : State) (k : Z) (pre post : list string) (x : string) :
  0 <= k < 30 ->
  possibleButtons = (pre ++ x :: post)%list ->
  (forall j, 0 <= j < k -> nothing_to_click w page (now st + 2000 * j)) ->
  (forall j, 0 <= j < k -> wait_resolves w page 2000 (now st + 2000 * j) = true) ->
  (forall p, In p pre ->
     w (now st + 2000 * k) (CIsVisible page (RoleButton p)) = Ok (VBool false)) ->
  w (now st + 2000 * k) (CIsVisible page (RoleButton x)) = Ok (VBool true) ->
  w (now st + 2000 * k) (CClick page (RoleButton x)) = Ok VUnit ->
  wait_resolves w page 5000 (now st + 2000 * k) = true ->
  exists st' rest,
    confirmResearchStart w page st = (Ret tt, st') /\
    now st' = now st + 2000 * k + 5000 /\
    log st' =
      (now st + 2000 * k, ESleep 5000)
      :: (now st + 2000 * k,
          EPrint (LogSub (Text "✅ Pesquisa iniciada (plano confirmado).")))
      :: (now st + 2000 * k, ECall (CClick page (RoleButton x)))
      :: (now st + 2000 * k, EPrint (LogSub (MButtonFound x))) :: rest.
Proof.
  intros Hk Hsplit Hquiet Hwaits Hpre Hx Hclick Hwait.
  unfold confirmResearchStart.
  cbv beta iota zeta delta [bind logSub console emit date_now]. cbn [now log].
  match goal with
  | |- context [while_ ?f ?c ?b tt ?s] =>
      set (s0 := s); destruct (while_ f c b tt s0) as [o st1] eqn:Hloop
  end.
  unfold loop_fuel in Hloop.
  assert (HQ :
    o = Ret (Returned tt) /\
    now st1 = now st + 2000 * k + 5000 /\
    exists rest,
      log st1 =
        (now st + 2000 * k, ESleep 5000)
        :: (now st + 2000 * k,
            EPrint (LogSub (Text "✅ Pesquisa iniciada (plano confirmado).")))
        :: (now st + 2000 * k, ECall (CClick page (RoleButton x)))
        :: (now st + 2000 * k, EPrint (LogSub (MButtonFound x))) :: rest).
  { refine (while_rule _ _ (now st + 60000) 2000
              (fun _ s => exists j, 0 <= j <= k /\ now s = now st + 2000 * j)
              (fun o s' =>
                 o = Ret (Returned tt) /\
                 now s' = now st + 2000 * k + 5000 /\
                 exists rest,
                   log s' =
                     (now st + 2000 * k, ESleep 5000)
                     :: (now st + 2000 * k,
                         EPrint (LogSub (Text "✅ Pesquisa iniciada (plano confirmado).")))
                     :: (now st + 2000 * k, ECall (CClick page (RoleButton x)))
                     :: (now st + 2000 * k, EPrint (LogSub (MButtonFound x))) :: rest)
              _ _ _ _ tt s0 o st1 _ _ Hloop).
    - intros v s. exists (now s - now st <? 60000).
      split; [reflexivity|]. intros H. apply Z.ltb_lt in H. lia.
    - intros v s [j [Hj Hs]] Hc.
      cbv beta iota delta [bind ret date_now] in Hc.
      injection Hc as Hb. apply Z.ltb_ge in Hb. lia.
    - intros [] s [j [Hj Hs]] Hc.
      destruct (Z.eq_dec j k) as [->|Hne].
      + rewrite <- Hs in Hpre, Hx, Hclick, Hwait.
        destruct (confirm_iteration_hit w page pre post x s Hsplit Hpre Hx Hclick Hwait)
          as [rest Hrun].
        rewrite Hrun. rewrite <- Hs. split; [reflexivity|].
        split; [reflexivity|]. exists rest. reflexivity.
      + assert (Hn : nothing_to_click w page (now s)).
        { rewrite Hs. apply Hquiet. lia. }
        assert (Hw : wait_resolves w page 2000 (now s) = true).
        { rewrite Hs. apply Hwaits. lia. }
        destruct (confirm_iteration_miss w page s Hn Hw) as [s1 [Hrun Hnow]].
        rewrite Hrun. split; [lia|]. exists (j + 1). lia.
    - exists 0. subst s0. cbn [now]. lia.
    - subst s0. cbn [now].
      change (Z.of_nat (Z.to_nat (60000 / 2000))) with 30. lia. }
  destruct HQ as [-> [Hnow [rest Hlog]]].
  cbv beta iota delta [ret]. exists st1, rest.
  split; [reflexivity|]. split; [exact Hnow | exact Hlog].
Qed.

(** A concrete run to which [confirmation_clicks_at_first_sighting] applies. *)
Lemma confirmation_clicks_at_first_sighting_witness :
  exists st' rest,
    confirmResearchStart Scenarios.plan_after_3s Worlds.page0 Worlds.st0 = (Ret tt, st') /\
    now st' = now Worlds.st0 + 2000 * 2 + 5000 /\
    log st' =
      (now Worlds.st0 + 2000 * 2, ESleep 5000)
      :: (now Worlds.st0 + 2000 * 2,
          EPrint (LogSub (Text "✅ Pesquisa iniciada (plano confirmado).")))
      :: (now Worlds.st0 + 2000 * 2, ECall (CClick Worlds.page0 (RoleButton "Start research")))
      :: (now Worlds.st0 + 2000 * 2, EPrint (LogSub (MButtonFound "Start research")))
      :: rest.
Proof.
  apply (confirmation_clicks_at_first_sighting Scenarios.plan_after_3s Worlds.page0
           Worlds.st0 2
           ["Iniciar investigação"; "Start investigation"; "Iniciar pesquisa"]
           ["Looks good"; "Confirmar"] "Start research").
  - lia.
  - reflexivity.
  - intros j Hj. assert (Hc : j = 0 \/ j = 1) by lia.
    destruct Hc as [-> | ->]; (split; [|reflexivity]);
      intros p Hp; reflexivity.
  - intros j Hj. reflexivity.
  - intros p [<-|[<-|[<-|[]]]]; reflexivity.
  - reflexivity.
  - reflexivity.
  - reflexivity.
Defined.
End ConfirmTimingClaims.

(** ** The most recent EPUB of the Downloads folder *)

Section RecentEpub.
Import Js Downloads QArith.
Local Open Scope Q_scope.

Lemma newer_iff (afterTime : Q) (f : EpubFile) :
  newer afterTime f = true <-> afterTime < mtime f.
Proof.
  unfold newer. rewrite Qlt_alt.
  destruct (mtime f ?= afterTime) eqn:Hc.
  - split; [discriminate|]. intros H.
    apply Qeq_alt in Hc. rewrite <- Qlt_alt in H. rewrite Hc in H.
    exfalso. exact (Qlt_irrefl _ H).
  - split; [discriminate|]. intros H.
    rewrite <- Qlt_alt in Hc, H. exfalso. exact (Qlt_irrefl _ (Qlt_trans _ _ _ Hc H)).
  - split; [|reflexivity]. intros _.
    rewrite <- Qgt_alt in Hc. rewrite <- Qlt_alt. exact Hc.
Qed.

Lemma byNewest_le (x y : EpubFile) :
  Qle_bool (byNewest x y) 0 = true <-> mtime y <= mtime x.
Proof.
  rewrite Qle_bool_iff. unfold byNewest. split; intros H; Lqa.lra.
Qed.

Lemma insert_not_nil (cmp : EpubFile -> EpubFile -> Q) (x : EpubFile) (l : list EpubFile) :
  insert cmp x l <> [].
Proof. destruct l as [|y ys]; cbn; [discriminate|]. destruct (Qle_bool _ _); discriminate. Qed.

Lemma sort_nil (cmp : EpubFile -> EpubFile -> Q) (l : list EpubFile) :
  sort cmp l = [] -> l = [].
Proof.
  destruct l as [|x xs]; [reflexivity|]. cbn. intros H.
  exfalso. exact (insert_not_nil _ _ _ H).
Qed.

(** The head of the sorted array: the first of the newest. *)
Lemma sort_head (l : list EpubFile) (f : EpubFile) (rest : list EpubFile) :
  sort byNewest l = f :: rest ->
  exists pre post,
    l = (pre ++ f :: post)%list /\
    (forall g, In g pre -> mtime g < mtime f) /\
    (forall g, In g post -> mtime g <= mtime f).
Proof.
  revert f rest. induction l as [|x xs IH]; intros f rest H; [discriminate|].
  cbn [sort] in H.
  destruct (sort byNewest xs) as [|y ys] eqn:Hs.
  - apply sort_nil in Hs. subst xs. cbn in H. injection H as <- _.
    exists [], []. split; [reflexivity|]. split; intros g [].
  - destruct (IH y ys eq_refl) as [pre [post [Hxs [Hpre Hpost]]]].
    cbn [insert] in H.
    destruct (Qle_bool (byNewest x y) 0) eqn:Hc.
    + injection H as <- _. apply byNewest_le in Hc.
      exists [], xs. split; [reflexivity|]. split; [intros g []|].
      intros g Hg. rewrite Hxs in Hg. apply in_app_or in Hg.
      destruct Hg as [Hg|[<-|Hg]].
      * specialize (Hpre g Hg). Lqa.lra.
      * exact Hc.
      * specialize (Hpost g Hg). Lqa.lra.
    + injection H as <- _.
      assert (Hlt : mtime x < mtime y).
      { destruct (Qlt_le_dec (mtime x) (mtime y)) as [Hlt|Hle]; [exact Hlt|].
        apply byNewest_le in Hle. rewrite Hle in Hc. discriminate. }
      exists (x :: pre), post. split; [rewrite Hxs; reflexivity|].
      split; [|exact Hpost].
      intros g [<-|Hg]; [exact Hlt | exact (Hpre g Hg)].
Qed.

Lemma filter_split {A} (p : A -> bool) (l a : list A) (x : A) (b : list A) :
  List.filter p l = (a ++ x :: b)%list ->
  exists a0 b0,
    l = (a0 ++ x :: b0)%list /\ List.filter p a0 = a /\ List.filter p b0 = b /\
    p x = true.
Proof.
  revert a. induction l as [|y l IH]; intros a H.
  - destruct a; discriminate.
  - cbn [List.filter] in H. destruct (p y) eqn:Hy.
    + destruct a as [|a1 a].
      * cbn in H. injection H as -> Hb.
        exists [], l. cbn. repeat split; try assumption.
      * cbn in H. injection H as -> H.
        destruct (IH a H) as [a0 [b0 [Hl [Ha [Hb Hx]]]]].
        exists (a1 :: a0), b0. cbn [List.filter app]. rewrite Hy, Ha, Hl.
        repeat split; assumption.
    + destruct (IH a H) as [a0 [b0 [Hl [Ha [Hb Hx]]]]].
      exists (y :: a0), b0. cbn [List.filter app]. rewrite Hy, Hl.
      repeat split; assumption.
Qed.

Variable fs : Fs.

Lemma map_stat_split (ns : list string) (a : list EpubFile) (f : EpubFile)
    (b : list EpubFile) :
  map_stat fs ns = Ok (a ++ f :: b)%list ->
  exists na nb,
    ns = (na ++ name f :: nb)%list /\
    map_stat fs na = Ok a /\ map_stat fs nb = Ok b /\
    path f = Drk.path_resolve Drk.DOWNLOADS_DIR (name f) /\
    statSync_mtimeMs fs (path f) = Ok (mtime f).
Proof.
  revert a. induction ns as [|n ns IH]; intros a H.
  - cbn in H. destruct a; discriminate.
  - cbn [map_stat] in H.
    destruct (statSync_mtimeMs fs (Drk.path_resolve Drk.DOWNLOADS_DIR n)) as [m|e] eqn:Hm;
      [|discriminate].
    destruct (map_stat fs ns) as [files|e] eqn:Hrest; [|discriminate].
    injection H as H. destruct a as [|a1 a].
    + cbn in H. injection H as <- ->.
      exists [], ns. cbn [app name path mtime map_stat].
      repeat split; try assumption; reflexivity.
    + cbn in H. injection H as <- ->.
      destruct (IH a eq_refl) as [na [nb [Hns [Ha [Hb [Hp Hs]]]]]].
      exists (n :: na), nb. cbn [app map_stat]. rewrite Hm, Ha, Hns.
      repeat split; assumption.
Qed.

Lemma map_stat_In (ns : list string) (files : list EpubFile) (n : string) (m : Q) :
  map_stat fs ns = Ok files ->
  In n ns ->
  statSync_mtimeMs fs (Drk.path_resolve Drk.DOWNLOADS_DIR n) = Ok m ->
  In (mkEpubFile (Drk.path_resolve Drk.DOWNLOADS_DIR n) n m) files.
Proof.
  revert files. induction ns as [|n0 ns IH]; intros files H Hin Hm; [contradiction|].
  cbn [map_stat] in H.
  destruct (statSync_mtimeMs fs (Drk.path_resolve Drk.DOWNLOADS_DIR n0)) as [m0|e] eqn:Hm0;
    [|discriminate].
  destruct (map_stat fs ns) as [rest|e] eqn:Hrest; [|discriminate].
  injection H as <-. destruct Hin as [->|Hin].
  - rewrite Hm in Hm0. injection Hm0 as <-. left. reflexivity.
  - right. exact (IH rest eq_refl Hin Hm).
Qed.

Lemma map_stat_sound (ns : list string) (files : list EpubFile) (g : EpubFile) :
  map_stat fs ns = Ok files ->
  In g files ->
  In (name g) ns /\
  statSync_mtimeMs fs (Drk.path_resolve Drk.DOWNLOADS_DIR (name g)) = Ok (mtime g).
Proof.
  revert files. induction ns as [|n0 ns IH]; intros files H Hin.
  - cbn in H. injection H as <-. contradiction.
  - cbn [map_stat] in H.
    destruct (statSync_mtimeMs fs (Drk.path_resolve Drk.DOWNLOADS_DIR n0)) as [m0|e] eqn:Hm0;
      [|discriminate].
    destruct (map_stat fs ns) as [rest|e] eqn:Hrest; [|discriminate].
    injection H as <-. destruct Hin as [<-|Hin].
    + cbn [name mtime]. split; [left; reflexivity | exact Hm0].
    + destruct (IH rest eq_refl Hin) as [H1 H2]. split; [right; exact H1 | exact H2].
Qed.

Lemma map_stat_err (ns : list string) (n : string) :
  In n ns ->
  ExportView.is_ok (statSync_mtimeMs fs (Drk.path_resolve Drk.DOWNLOADS_DIR n)) = false ->
  ExportView.is_ok (map_stat fs ns) = false.
Proof.
  induction ns as [|n0 ns IH]; intros Hin Hm; [contradiction|].
  cbn [map_stat].
  destruct (statSync_mtimeMs fs (Drk.path_resolve Drk.DOWNLOADS_DIR n0)) as [m0|e] eqn:Hm0;
    [|reflexivity].
  destruct Hin as [->|Hin].
  - rewrite Hm0 in Hm. discriminate.
  - specialize (IH Hin Hm). destruct (map_stat fs ns); [discriminate | reflexivity].
Qed.

Lemma map_stat_err_inv (ns : list string) :
  ExportView.is_ok (map_stat fs ns) = false ->
  exists n, In n ns /\
    ExportView.is_ok (statSync_mtimeMs fs (Drk.path_resolve Drk.DOWNLOADS_DIR n)) = false.
Proof.
  induction ns as [|n0 ns IH]; intros H; [discriminate|].
  cbn [map_stat] in H.
  destruct (statSync_mtimeMs fs (Drk.path_resolve Drk.DOWNLOADS_DIR n0)) as [m0|e] eqn:Hm0.
  - destruct (map_stat fs ns) as [rest|e]; [discriminate|].
    destruct (IH eq_refl) as [n [Hin Hn]]. exists n. split; [right; exact Hin | exact Hn].
  - exists n0. split; [left; reflexivity|]. rewrite Hm0. reflexivity.
Qed.
End RecentEpub.

Section RecentEpubClaims.
Import Js Downloads QArith.
Local Open Scope Q_scope.

(** X19: what [findRecentEpub] returns.  A file it returns is an entry
    of the Downloads folder with the extension [.epub] in any letter
    case, carries the path and the modification time [statSync] gave for
    it, and is newer than [afterTime]; every [.epub] entry listed before
    it is strictly older and every one listed after it is no newer, so it
    is the newest, and among equally new ones the first in the order of
    the listing. *)
Theorem findRecentEpub_returns_first_newest (fs : Fs) (afterTime : Q) (f : EpubFile) :
  findRecentEpub fs afterTime = Some f ->
  exists pre post,
    readdirSync fs Drk.DOWNLOADS_DIR = Ok (pre ++ name f :: post)%list /\
    is_epub (name f) = true /\
    path f = Drk.path_resolve Drk.DOWNLOADS_DIR (name f) /\
    statSync_mtimeMs fs (path f) = Ok (mtime f) /\
    afterTime < mtime f /\
    (forall n m, In n pre -> is_epub n = true ->
       statSync_mtimeMs fs (Drk.path_resolve Drk.DOWNLOADS_DIR n) = Ok m ->
       m < mtime f) /\
    (forall n m, In n post -> is_epub n = true ->
       statSync_mtimeMs fs (Drk.path_resolve Drk.DOWNLOADS_DIR n) = Ok m ->
       m <= mtime f).
Proof.
  unfold findRecentEpub. intros H.
  destruct (readdirSync fs Drk.DOWNLOADS_DIR) as [names|e]; [|discriminate].
  destruct (map_stat fs (List.filter is_epub names)) as [files|e] eqn:Hfiles; [|discriminate].
  destruct (sort byNewest (List.filter (newer afterTime) files)) as [|f0 rest] eqn:Hsort;
    [discriminate|].
  injection H as ->.
  destruct (sort_head _ _ _ Hsort) as [pre1 [post1 [Hsplit1 [Hpre1 Hpost1]]]].
  destruct (filter_split _ _ _ _ _ Hsplit1) as [a0 [b0 [Hfiles0 [Ha0 [Hb0 Hnew]]]]].
  rewrite Hfiles0 in Hfiles.
  destruct (map_stat_split fs _ _ _ _ Hfiles) as [na [nb [Hns [Hna [Hnb [Hpath Hstat]]]]]].
  destruct (filter_split _ _ _ _ _ Hns) as [pre [post [Hnames [Hpre [Hpost Hepub]]]]].
  apply newer_iff in Hnew.
  exists pre, post. rewrite Hnames.
  split; [reflexivity|]. split; [exact Hepub|]. split; [exact Hpath|].
  split; [exact Hstat|]. split; [exact Hnew|].
  split.
  - intros n m Hin He Hm.
    assert (Hn : In n na).
    { rewrite <- Hpre. apply filter_In. split; assumption. }
    pose proof (map_stat_In fs na a0 n m Hna Hn Hm) as Hg.
    destruct (newer afterTime (mkEpubFile (Drk.path_resolve Drk.DOWNLOADS_DIR n) n m)) eqn:Hc.
    + apply (Hpre1 (mkEpubFile (Drk.path_resolve Drk.DOWNLOADS_DIR n) n m)).
      rewrite <- Ha0. apply filter_In. split; assumption.
    + destruct (Qlt_le_dec afterTime m) as [Hlt|Hle].
      * apply (newer_iff afterTime (mkEpubFile (Drk.path_resolve Drk.DOWNLOADS_DIR n) n m)) in Hlt.
        rewrite Hlt in Hc. discriminate.
      * Lqa.lra.
  - intros n m Hin He Hm.
    assert (Hn : In n nb).
    { rewrite <- Hpost. apply filter_In. split; assumption. }
    pose proof (map_stat_In fs nb b0 n m Hnb Hn Hm) as Hg.
    destruct (newer afterTime (mkEpubFile (Drk.path_resolve Drk.DOWNLOADS_DIR n) n m)) eqn:Hc.
    + apply (Hpost1 (mkEpubFile (Drk.path_resolve Drk.DOWNLOADS_DIR n) n m)).
      rewrite <- Hb0. apply filter_In. split; assumption.
    + destruct (Qlt_le_dec afterTime m) as [Hlt|Hle].
      * apply (newer_iff afterTime (mkEpubFile (Drk.path_resolve Drk.DOWNLOADS_DIR n) n m)) in Hlt.
        rewrite Hlt in Hc. discriminate.
      * Lqa.lra.
Qed.

(** A concrete run to which [findRecentEpub_returns_first_newest] applies. *)
Lemma findRecentEpub_returns_first_newest_witness :
  exists pre post,
    readdirSync sample_folder Drk.DOWNLOADS_DIR
      = Ok (pre ++ "report.epub"%string :: post)%list /\
    is_epub "report.epub" = true /\
    "~/Downloads/report.epub"%string
      = Drk.path_resolve Drk.DOWNLOADS_DIR "report.epub" /\
    statSync_mtimeMs sample_folder "~/Downloads/report.epub" = Ok (5001 # 2) /\
    2000 # 1 < 5001 # 2 /\
    (forall n m, In n pre -> is_epub n = true ->
       statSync_mtimeMs sample_folder (Drk.path_resolve Drk.DOWNLOADS_DIR n) = Ok m ->
       m < 5001 # 2) /\
    (forall n m, In n post -> is_epub n = true ->
       statSync_mtimeMs sample_folder (Drk.path_resolve Drk.DOWNLOADS_DIR n) = Ok m ->
       m <= 5001 # 2).
Proof.
  apply (findRecentEpub_returns_first_newest sample_folder (2000 # 1)
           (mkEpubFile "~/Downloads/report.epub" "report.epub" (5001 # 2))).
  vm_compute. reflexivity.
Defined.

(** X20: when [findRecentEpub] returns [null].  It does so exactly when
    the folder cannot be listed, or [statSync] throws on some [.epub]
    entry of it (even if other entries are recent), or no [.epub] entry
    is newer than [afterTime]. *)
Theorem findRecentEpub_null (fs : Fs) (afterTime : Q) :
  findRecentEpub fs afterTime = None <->
  match readdirSync fs Drk.DOWNLOADS_DIR with
  | Err _ => True
  | Ok names =>
      (exists n, In n names /\ is_epub n = true /\
         ExportView.is_ok
           (statSync_mtimeMs fs (Drk.path_resolve Drk.DOWNLOADS_DIR n)) = false) \/
      (forall n m, In n names -> is_epub n = true ->
         statSync_mtimeMs fs (Drk.path_resolve Drk.DOWNLOADS_DIR n) = Ok m ->
         m <= afterTime)
  end.
Proof.
  unfold findRecentEpub.
  destruct (readdirSync fs Drk.DOWNLOADS_DIR) as [names|e]; [|split; [intros _; exact I | reflexivity]].
  destruct (map_stat fs (List.filter is_epub names)) as [files|e] eqn:Hfiles.
  - destruct (sort byNewest (List.filter (newer afterTime) files)) as [|f0 rest] eqn:Hsort.
    + split; [intros _ | reflexivity]. right.
      apply sort_nil in Hsort. intros n m Hin He Hm.
      assert (Hn : In n (List.filter is_epub names)) by (apply filter_In; split; assumption).
      pose proof (map_stat_In fs _ _ n m Hfiles Hn Hm) as Hg.
      destruct (Qlt_le_dec afterTime m) as [Hlt|Hle]; [|exact Hle].
      apply (newer_iff afterTime (mkEpubFile (Drk.path_resolve Drk.DOWNLOADS_DIR n) n m)) in Hlt.
      assert (Hf : In (mkEpubFile (Drk.path_resolve Drk.DOWNLOADS_DIR n) n m)
                      (List.filter (newer afterTime) files))
        by (apply filter_In; split; assumption).
      rewrite Hsort in Hf. contradiction.
    + split; [discriminate|]. intros [[n [Hin [He Hbad]]] | Hall].
      * pose proof (map_stat_err fs (List.filter is_epub names) n) as Herr.
        rewrite Hfiles in Herr. cbn in Herr.
        assert (Hn : In n (List.filter is_epub names)) by (apply filter_In; split; assumption).
        specialize (Herr Hn Hbad). discriminate.
      * exfalso.
        assert (Hf : In f0 (List.filter (newer afterTime) files)).
        { destruct (sort_head _ _ _ Hsort) as [pre [post [Hsplit _]]].
          rewrite Hsplit. apply in_or_app. right. left. reflexivity. }
        apply filter_In in Hf. destruct Hf as [Hf Hnew].
        destruct (map_stat_sound fs _ _ f0 Hfiles Hf) as [Hin Hm].
        apply filter_In in Hin. destruct Hin as [Hin He].
        specialize (Hall (name f0) (mtime f0) Hin He Hm).
        apply newer_iff in Hnew. Lqa.lra.
  - split; [intros _ | reflexivity]. left.
    destruct (map_stat_err_inv fs (List.filter is_epub names)) as [n [Hin Hbad]].
    { rewrite Hfiles. reflexivity. }
    apply filter_In in Hin. destruct Hin as [Hin He].
    exists n. repeat split; assumption.
Qed.

(** A concrete run to which [findRecentEpub_null] applies. *)
Lemma findRecentEpub_null_witness :
  findRecentEpub locked_folder 0 = None.
Proof.
  apply (proj2 (findRecentEpub_null locked_folder 0)).
  left. exists "old.epub"%string. split; [left; reflexivity|].
  split; reflexivity.
Defined.
End RecentEpubClaims.

(** ** Model resolution away from the inherited properties *)

Section ModelExtra.
Import Models.

(** X21: what [resolveModel] guarantees.  For every argument whose
    lower-case form is not the name of a property that objects inherit,
    the result is one of the three entries of [MODELS]; and it is the
    default model when the lower-case form is not an alias either. *)
Theorem resolveModel_gives_a_model_unless_inherited (s : string) :
  ObjectPrototype !! JsString.toLowerCase s = None ->
  is_model (resolveModel (Some s)) /\
  (aliases !! JsString.toLowerCase s = None -> resolveModel (Some s) = DEFAULT_MODEL).
Proof.
  intros Hproto. split.
  - apply resolveModel_is_model. exact Hproto.
  - intros Hown. apply resolveModel_defaults; assumption.
Qed.

(** A concrete run to which [resolveModel_gives_a_model_unless_inherited] applies. *)
Lemma resolveModel_gives_a_model_unless_inherited_witness :
  is_model (resolveModel (Some "RÁPIDO")) /\
  (aliases !! JsString.toLowerCase "RÁPIDO" = None ->
   resolveModel (Some "RÁPIDO") = DEFAULT_MODEL).
Proof.
  apply (resolveModel_gives_a_model_unless_inherited "RÁPIDO").
  vm_compute. reflexivity.
Defined.
End ModelExtra.

(** ** The login mode *)

Section LoginOnly.
Import Js Drk Trace CommandLine.

(** X22: the login mode never ends by itself.  When [--login-only] is
    among the arguments left after the options were read, [main]
    neither returns nor calls [process.exit], whatever else is on the
    command line: it is left waiting for ever, or rejects with the error
    of the launch, of the navigation to Gemini or of a new tab; and it
    never closes the browser context. *)
Theorem login_only_never_returns (w : World) (argv : list string)
    (st : State) (o : Outcome unit) (st' : State) :
  includes (remaining_args argv) "--login-only" = true ->
  main w argv st = (o, st') ->
  (o = Hang \/ exists e, o = Throw e) /\
  exists l, log st' = (l ++ log st)%list /\ forallb not_context_close l = true.
Proof.
  unfold remaining_args, main.
  destruct (take_option argv "--profile") as [profileArg args1]. cbn [snd].
  destruct (take_option args1 "--model") as [modelArg args2].
  cbn [snd]. intros Hlogin. rewrite Hlogin. cbn [negb andb].
  intros H.
  assert (Hrun :
    (logBanner ;;
     page <- launchBrowser w (option_map (path_resolve ".") profileArg) ;;
     log_ (Text "🔑 Modo login — browser aberto.") ;;
     logSub (MProfile (default PROFILE_DIR (option_map (path_resolve ".") profileArg))) ;;
     logSub (Text "Faça login no Google (Gemini, Docs, Gmail), Amazon e Claude.") ;;
     logSub (Text "Pressione Ctrl+C quando terminar.") ;;
     navigateToGemini w page GEMINI_URL ;;
     kindlePage <- call w CNewPage ;;
     issue w (CGoto (default page (as_page kindlePage)) SEND_TO_KINDLE_URL) ;;
     claudePage <- call w CNewPage ;;
     issue w (CGoto (default page (as_page claudePage)) "https://claude.ai") ;;
     @never unit)%run st = (o, st')).
  { revert H. cbv beta iota delta [bind ret].
    destruct (logBanner st) as [[[]|e|c| |] s1]; try (intros H; exact H).
    match goal with
    | |- context [launchBrowser w ?p s1] => destruct (launchBrowser w p s1) as [[page|e|c| |] s2]
    end; try (intros H; exact H).
    repeat match goal with
    | |- context [match ?m ?s with _ => _ end] =>
        lazymatch m with
        | never => fail
        | _ => destruct (m s) as [[?|?|?| |] ?]; try (intros H; exact H)
        end
    end. }
  clear H. split.
  - revert Hrun. unfold logBanner, launchBrowser, navigateToGemini, call, waitForTimeout,
      log_, logStep, logSub, console.
    cbv beta iota zeta delta [bind ret issue await throw emit answer sleep never].
    cbn [now log].
    repeat match goal with
    | |- context [match w ?t ?c with _ => _ end] =>
        destruct (w t c); cbn [now log as_pages]
    | |- context [match as_pages ?v with _ => _ end] =>
        destruct (as_pages v); cbn [now log]
    end;
    intros H; injection H as <- _; first [left; reflexivity | right; eexists; reflexivity].
  - revert Hrun.
    match goal with
    | |- ?m st = _ -> _ => assert (Hm : emits not_context_close m)
    end.
    { apply emits_bind; [unfold logBanner, log_; emits_all|]. intros _.
      apply emits_bind; [apply launchBrowser_never_closes|]. intros page.
      unfold navigateToGemini, waitForTimeout, log_, logStep, logSub. emits_all. }
    intros Hrun. exact (Hm _ _ _ Hrun).
Qed.

(** A concrete run to which [login_only_never_returns] applies. *)
Lemma login_only_never_returns_witness :
  (fst (main Worlds.quiet ["--login-only"; "ignored query"] Worlds.st0) = Hang \/
   exists e, fst (main Worlds.quiet ["--login-only"; "ignored query"] Worlds.st0) = Throw e) /\
  exists l,
    log (snd (main Worlds.quiet ["--login-only"; "ignored query"] Worlds.st0))
      = (l ++ log Worlds.st0)%list /\
    forallb not_context_close l = true.
Proof.
  apply (login_only_never_returns Worlds.quiet ["--login-only"; "ignored query"]
           Worlds.st0).
  - reflexivity.
  - apply surjective_pairing.
Defined.
End LoginOnly.

(** ** Every run comes to an end *)


Section Completes.
Import Js Drk Trace.
Variable w : World.

Lemma completes_ret {A} (a : A) : completes (ret a).
Proof. intros st. exact I. Qed.

Lemma completes_throw {A} (e : JsError) : completes (@throw A e).
Proof. intros st. exact I. Qed.

Lemma completes_date_now : completes date_now.
Proof. intros st. exact I. Qed.

Lemma completes_emit (e : Event) : completes (emit e).
Proof. intros st. exact I. Qed.

Lemma completes_console (l : Line) : completes (console l).
Proof. intros st. exact I. Qed.

Lemma completes_sleep (ms : Z) : completes (sleep ms).
Proof. intros st. exact I. Qed.

Lemma completes_answer (c : Call) : completes (answer w c).
Proof. intros st. exact I. Qed.

Lemma completes_issue (c : Call) : completes (issue w c).
Proof. intros st. exact I. Qed.

Lemma completes_await (r : Res Value) : completes (await r).
Proof. intros st. destruct r; exact I. Qed.

Lemma completes_bind {A B} (m : M A) (k : A -> M B) :
  completes m -> (forall a, completes (k a)) -> completes (bind m k).
Proof.
  intros Hm Hk st. specialize (Hm st). unfold bind.
  destruct (m st) as [[a|e|c| |] s1]; cbn [fst] in *; try assumption.
  apply Hk.
Qed.

Lemma completes_call (c : Call) : completes (call w c).
Proof. apply completes_bind; [apply completes_issue | intros r; apply completes_await]. Qed.

Lemma completes_await_both (a b : Res Value) : completes (await_both a b).
Proof.
  unfold await_both.
  apply completes_bind; [apply completes_await|]. intros va.
  apply completes_bind; [apply completes_await|]. intros vb. apply completes_ret.
Qed.

Lemma completes_try_catch {A} (m : M A) (h : JsError -> M A) :
  completes m -> (forall e, completes (h e)) -> completes (try_catch m h).
Proof.
  intros Hm Hh st. specialize (Hm st). unfold try_catch.
  destruct (m st) as [[a|e|c| |] s1]; cbn [fst] in *; try assumption.
  apply Hh.
Qed.

Lemma completes_try_finally {A} (m : M A) (f : M unit) :
  completes m -> completes f -> completes (try_finally m f).
Proof.
  intros Hm Hf st. specialize (Hm st). unfold try_finally.
  destruct (m st) as [[a|e|c| |] s1]; cbn [fst] in *; try assumption.
  - apply completes_bind; [exact Hf | intros _; apply completes_ret].
  - apply completes_bind; [exact Hf | intros _; apply completes_throw].
Qed.

Lemma completes_for_of {A V R} (body : A -> V -> M (Ctl V R)) :
  (forall x v, completes (body x v)) -> forall l v, completes (for_of l body v).
Proof.
  intros Hb l. induction l as [|x l IH]; intros v; cbn [for_of].
  - apply completes_ret.
  - apply completes_bind; [apply Hb|]. intros [v'|v'|r];
      [apply IH | apply completes_ret | apply completes_ret].
Qed.
End Completes.

(** Solves [completes m] for a computation without loops on the clock. *)
Ltac complete_step :=
  lazymatch goal with
  | |- Trace.completes (Drk.for_of _ _ _) => apply completes_for_of; intros ? ?
  | |- Trace.completes (Js.bind _ _) => apply completes_bind; [|intros ?]
  | |- Trace.completes (Js.try_catch _ _) => apply completes_try_catch; [|intros ?]
  | |- Trace.completes (Js.try_finally _ _) => apply completes_try_finally
  | |- Trace.completes (Js.ret _) => apply completes_ret
  | |- Trace.completes (Js.throw _) => apply completes_throw
  | |- Trace.completes Js.date_now => apply completes_date_now
  | |- Trace.completes (Js.console _) => apply completes_console
  | |- Trace.completes (Js.emit _) => apply completes_emit
  | |- Trace.completes (Js.sleep _) => apply completes_sleep
  | |- Trace.completes (Drk.answer _ _) => apply completes_answer
  | |- Trace.completes (Drk.issue _ _) => apply completes_issue
  | |- Trace.completes (Drk.await _) => apply completes_await
  | |- Trace.completes (Drk.await_both _ _) => apply completes_await_both
  | |- Trace.completes (Drk.call _ _) => apply completes_call
  | |- Trace.completes (match ?x with _ => _ end) => destruct x
  | |- Trace.completes (let _ := _ in _) => cbv zeta
  end.

Ltac complete := repeat complete_step.

Section StagesSettle.
Import Js Drk Trace ExportView.
Variable w : World.

Lemma completes_pollForCompletion (page : PageRef) : completes (pollForCompletion w page).
Proof.
  intros st. destruct (poll_total w page st) as [b [st' H]]. rewrite H. exact I.
Qed.

Lemma completes_confirmResearchStart (page : PageRef) :
  completes (confirmResearchStart w page).
Proof.
  intros st. destruct (confirm_spec w page st) as [o [st' [H Ho]]]. rewrite H.
  cbn [fst]. destruct o; first [exact I | exact Ho].
Qed.

(** One poll of the wait for the document either ends the wait or
    sleeps two seconds. *)
Lemma export_iteration_step (page : PageRef) (d : option PageRef) (st : State) :
  match export_iteration w page d st with
  | (Ret (Next _), st') => now st' = now st + 2000
  | (Ret _, _) | (Throw _, _) => True
  | _ => False
  end.
Proof.
  unfold export_iteration, call.
  cbv beta iota delta [bind ret issue await throw]. cbn [now log].
  destruct (w (now st) CPages) as [ps|e]; [|exact I].
  match goal with
  | |- context [for_of _ _ d ?s] =>
      destruct (export_scan_spec w (as_pages ps) d s) as [st' [Hnow Hrun]]
  end.
  cbn [now] in Hnow, Hrun. rewrite Hrun.
  destruct (scan_tabs w (now st) (as_pages ps)) as [[p|]|e]; [exact I| |exact I].
  destruct d as [d|]; [exact I|].
  unfold logSub, console.
  cbv beta iota delta [try_catch bind ret issue await throw answer sleep emit]. cbn [now log].
  destruct (as_bool (or_default (w (now st') (CIsVisible page DocsLink)) (VBool false)));
    cbn [now log]; [|lia].
  destruct (w (now st') (CGetAttribute page DocsLink "href")); cbn [now log]; [|lia].
  destruct (w (now st') CNewPage); cbn [now log]; [|lia].
  match goal with
  | |- context [match w ?t ?c with _ => _ end] => destruct (w t c); cbn [now log]
  end; [exact I | lia].
Qed.

(** The wait for the document ends within its thirty seconds. *)
Lemma export_wait_completes {B} (page : PageRef)
    (k : LoopEnd (option PageRef) Empty_set -> M B) :
  (forall r, completes (k r)) ->
  completes (startTime <- date_now ;;
           r <- while_ (loop_fuel 30000 2000)
                  (fun _ => t <- date_now ;; ret (t - startTime <? 30000))
                  (export_iteration w page) None ;;
           k r)%run.
Proof.
  intros Hk st. unfold bind at 1. cbv beta iota delta [date_now].
  unfold bind at 1.
  destruct (while_ _ _ _ None st) as [o st'] eqn:Hloop.
  unfold loop_fuel in Hloop.
  assert (HQ : match o with Ret _ | Throw _ => True | _ => False end).
  { refine (while_rule _ _ (now st + 30000) 2000
              (fun _ _ => True)
              (fun o _ => match o with Ret _ | Throw _ => True | _ => False end)
              _ _ _ _ None st o st' _ _ Hloop).
    - intros v s. exists (now s - now st <? 30000).
      split; [reflexivity|]. intros H. apply Z.ltb_lt in H. lia.
    - intros v s _ _. exact I.
    - intros v s _ _. pose proof (export_iteration_step page v s) as Hstep.
      destruct (export_iteration w page v s) as [[[v'|v'|r]|e|c| |] s1];
        try exact I; try contradiction.
      split; [lia | exact I].
    - exact I.
    - change (Z.of_nat (Z.to_nat (30000 / 2000))) with 15. lia. }
  destruct o as [r|e|c| |]; try contradiction; [|exact I].
  apply Hk.
Qed.

Lemma completes_exportToGoogleDocs (page : PageRef) : completes (exportToGoogleDocs w page).
Proof.
  unfold exportToGoogleDocs, waitForTimeout, logStep, logSub.
  do 11 (apply completes_bind; [complete | intros ?]).
  cbv zeta. apply export_wait_completes. intros r. complete.
Qed.

Lemma completes_downloadEpubFromDocs (docsPage : PageRef) :
  completes (downloadEpubFromDocs w docsPage).
Proof.
  unfold downloadEpubFromDocs, openDownloadMenu, download_try_selector,
    waitForTimeout, logStep, logSub.
  complete.
Qed.

Lemma completes_sendToKindle (page : PageRef) (epubPath : string) :
  completes (sendToKindle w page epubPath).
Proof. unfold sendToKindle, waitForTimeout, logStep, logSub. complete. Qed.

Lemma completes_launchBrowser (profilePath : option string) :
  completes (launchBrowser w profilePath).
Proof. unfold launchBrowser, logStep, logSub. complete. Qed.

Lemma completes_fullFlow (page : PageRef) (model : Models.JsVal) (query : string)
    (skipKindle : bool) :
  completes (fullFlow w page model query skipKindle).
Proof.
  unfold fullFlow.
  apply completes_bind; [unfold navigateToGemini, waitForTimeout, logStep, logSub; complete|].
  intros _.
  apply completes_bind; [unfold selectModel, waitForTimeout, logStep, logSub; complete|].
  intros _.
  apply completes_bind; [unfold enableDeepResearch, waitForTimeout, logStep, logSub; complete|].
  intros _.
  apply completes_bind; [unfold submitQuery, waitForTimeout, logStep, logSub; complete|].
  intros _.
  apply completes_bind; [apply completes_confirmResearchStart|]. intros _.
  apply completes_bind; [apply completes_pollForCompletion|]. intros _.
  apply completes_bind; [apply completes_exportToGoogleDocs|]. intros docsPage.
  apply completes_bind; [apply completes_downloadEpubFromDocs|]. intros epubPath.
  apply completes_bind; [apply completes_call|]. intros _.
  apply completes_bind.
  { destruct (negb skipKindle); [apply completes_sendToKindle | apply completes_console]. }
  intros _. unfold log_. complete.
Qed.

Lemma completes_sendOnlyFlow (page : PageRef) (geminiUrl : string) (skipKindle : bool) :
  completes (sendOnlyFlow w page geminiUrl skipKindle).
Proof.
  unfold sendOnlyFlow, waitForTimeout, logStep, logSub.
  do 5 (apply completes_bind; [complete | intros ?]).
  apply completes_bind; [apply completes_exportToGoogleDocs|]. intros docsPage.
  apply completes_bind; [apply completes_downloadEpubFromDocs|]. intros epubPath.
  apply completes_bind; [apply completes_call|]. intros _.
  apply completes_bind.
  { destruct (negb skipKindle); [apply completes_sendToKindle | apply completes_console]. }
  intros _. unfold log_. complete.
Qed.
End StagesSettle.

Section MainEnds.
Import Js Drk Trace.

Lemma completes_settles {A} (m : M A) : completes m -> settles m.
Proof.
  intros H st. specialize (H st). unfold ends.
  destruct (fst (m st)); try contradiction; exact I.
Qed.

Lemma settles_bind {A B} (m : M A) (k : A -> M B) :
  settles m -> (forall a, settles (k a)) -> settles (bind m k).
Proof.
  intros Hm Hk st. specialize (Hm st). unfold bind.
  destruct (m st) as [[a|e|c| |] s1]; cbn [fst] in *; try assumption.
  apply Hk.
Qed.

Lemma settles_try_catch {A} (m : M A) (h : JsError -> M A) :
  settles m -> (forall e, settles (h e)) -> settles (try_catch m h).
Proof.
  intros Hm Hh st. specialize (Hm st). unfold try_catch.
  destruct (m st) as [[a|e|c| |] s1]; cbn [fst] in *; try assumption.
  apply Hh.
Qed.

Lemma settles_try_finally {A} (m : M A) (f : M unit) :
  settles m -> completes f -> settles (try_finally m f).
Proof.
  intros Hm Hf st. specialize (Hm st). unfold try_finally.
  destruct (m st) as [[a|e|c| |] s1]; cbn [fst] in *; try assumption.
  - apply completes_settles.
    apply completes_bind; [exact Hf | intros _; apply completes_ret].
  - apply completes_settles.
    apply completes_bind; [exact Hf | intros _; apply completes_throw].
Qed.

Lemma settles_exit0 {A} : settles (@process_exit A 0).
Proof. intros st. left. reflexivity. Qed.

Lemma settles_exit1 {A} : settles (@process_exit A 1).
Proof. intros st. right. reflexivity. Qed.

(** A step of a run that ended the process: the first part, which
    cannot end it, returned. *)
Lemma bind_exit_inv {A B} (m : M A) (k : A -> M B) (st st' : State) (c : Z) :
  completes m ->
  bind m k st = (Exit c, st') ->
  exists a s1, m st = (Ret a, s1) /\ k a s1 = (Exit c, st').
Proof.
  intros Hm H. specialize (Hm st). unfold bind in H.
  destruct (m st) as [[a|e|c0| |] s1]; cbn [fst] in Hm; try contradiction;
    try discriminate.
  exists a, s1. split; [reflexivity | exact H].
Qed.

Lemma try_finally_exit_inv {A} (m : M A) (f : M unit) (st st' : State) (c : Z) :
  completes f ->
  try_finally m f st = (Exit c, st') -> m st = (Exit c, st').
Proof.
  intros Hf H. unfold try_finally in H.
  destruct (m st) as [[a|e|c0| |] s1]; try discriminate; try exact H.
  - exfalso. specialize (Hf s1). unfold bind in H.
    destruct (f s1) as [[[]|e|c0| |] s2]; cbn [fst] in Hf; try contradiction;
      discriminate.
  - exfalso. specialize (Hf s1). unfold bind in H.
    destruct (f s1) as [[[]|e'|c0| |] s2]; cbn [fst] in Hf; try contradiction;
      discriminate.
Qed.

Lemma try_catch_exit_inv {A} (m : M A) (h : JsError -> M A) (st st' : State) (c : Z) :
  completes m ->
  try_catch m h st = (Exit c, st') ->
  exists e s1, m st = (Throw e, s1) /\ h e s1 = (Exit c, st').
Proof.
  intros Hm H. specialize (Hm st). unfold try_catch in H.
  destruct (m st) as [[a|e|c0| |] s1]; cbn [fst] in Hm; try contradiction;
    try discriminate.
  exists e, s1. split; [reflexivity | exact H].
Qed.
(** The login mode ends in the wait that never settles, or with the
    error of one of its calls. *)
Lemma login_mode_outcome (w : World) (profilePath : option string) (st : State) :
  match fst ((page <- launchBrowser w profilePath ;;
              log_ (Text "🔑 Modo login — browser aberto.") ;;
              logSub (MProfile (default PROFILE_DIR profilePath)) ;;
              logSub (Text "Faça login no Google (Gemini, Docs, Gmail), Amazon e Claude.") ;;
              logSub (Text "Pressione Ctrl+C quando terminar.") ;;
              navigateToGemini w page GEMINI_URL ;;
              kindlePage <- call w CNewPage ;;
              issue w (CGoto (default page (as_page kindlePage)) SEND_TO_KINDLE_URL) ;;
              claudePage <- call w CNewPage ;;
              issue w (CGoto (default page (as_page claudePage)) "https://claude.ai") ;;
              @never unit)%run st) with
  | Hang | Throw _ => True
  | _ => False
  end.
Proof.
  unfold launchBrowser, navigateToGemini, call, waitForTimeout,
    log_, logStep, logSub, console.
  cbv beta iota zeta delta [bind ret issue await throw emit answer sleep never].
  cbn [now log].
  repeat match goal with
  | |- context [match w ?t ?c with _ => _ end] =>
      destruct (w t c); cbn [now log as_pages fst]
  | |- context [match as_pages ?v with _ => _ end] =>
      destruct (as_pages v); cbn [now log fst]
  end; exact I.
Qed.
End MainEnds.

Section SettlesClaims.
Import Js Drk Trace CommandLine.

(** X23: outside the login mode every run ends, with status 0 or 1.
    When [--login-only] is not among the arguments left after the
    options were read, [main] never waits for ever and none of its loops
    runs past its time budget, in any world: it returns, or calls
    [process.exit] with 0 or 1, or rejects; so the process ends with
    status 0 or 1. *)
Theorem main_always_ends (w : World) (argv : list string) (st : State) :
  includes (remaining_args argv) "--login-only" = false ->
  ends (fst (main w argv st)) /\
  (exit_status (fst (main w argv st)) = Some 0 \/
   exit_status (fst (main w argv st)) = Some 1).
Proof.
  intros Hlogin.
  assert (He : ends (fst (main w argv st))).
  { revert Hlogin. unfold remaining_args, main.
    destruct (take_option argv "--profile") as [profileArg args1]. cbn [snd].
    destruct (take_option args1 "--model") as [modelArg args2]. cbn [snd].
    intros ->. revert st.
    match goal with |- forall st, ends (fst (?m st)) => change (settles m) end.
    apply settles_bind.
    { destruct (_ && _); [|apply completes_settles, completes_ret].
      apply settles_bind; [apply completes_settles, completes_console
                          | intros _; apply settles_exit0]. }
    intros _.
    apply settles_bind;
      [apply completes_settles; unfold logBanner, log_; complete|]. intros _.
    apply settles_bind; [apply completes_settles, completes_ret|]. intros _.
    destruct (includes args2 "--send-only").
    - apply settles_bind.
      { destruct (_ || _); [|apply completes_settles, completes_ret].
        apply settles_bind; [apply completes_settles, completes_console
                            | intros _; apply settles_exit1]. }
      intros _.
      apply settles_bind; [apply completes_settles, completes_launchBrowser|].
      intros page.
      apply settles_try_finally; [|complete].
      apply settles_try_catch; [apply completes_settles, completes_sendOnlyFlow|].
      intros e. unfold log_.
      apply settles_bind; [apply completes_settles, completes_console|]. intros _.
      apply settles_bind; [apply completes_settles, completes_console|]. intros _.
      apply settles_exit1.
    - apply settles_bind; [apply completes_settles, completes_console|]. intros _.
      apply settles_bind; [apply completes_settles, completes_console|]. intros _.
      apply settles_bind; [apply completes_settles, completes_launchBrowser|].
      intros page.
      apply settles_try_finally; [|complete].
      apply settles_try_catch; [apply completes_settles, completes_fullFlow|].
      intros e. unfold log_.
      apply settles_bind; [apply completes_settles, completes_console|]. intros _.
      apply settles_bind; [apply completes_settles; complete|]. intros _.
      apply settles_bind; [apply completes_settles, completes_console|]. intros _.
      apply settles_exit1. }
  split; [exact He|].
  destruct (fst (main w argv st)) as [[]|e|c| |]; cbn in *; try contradiction.
  - left. reflexivity.
  - right. reflexivity.
  - destruct He as [-> | ->]; [left | right]; reflexivity.
Qed.

(** A concrete run to which [main_always_ends] applies. *)
Lemma main_always_ends_witness :
  ends (fst (main Worlds.no_export_menu ["history of the printing press"] Worlds.st0)) /\
  (exit_status (fst (main Worlds.no_export_menu ["history of the printing press"]
                       Worlds.st0)) = Some 0 \/
   exit_status (fst (main Worlds.no_export_menu ["history of the printing press"]
                       Worlds.st0)) = Some 1).
Proof.
  apply (main_always_ends Worlds.no_export_menu ["history of the printing press"]
           Worlds.st0).
  reflexivity.
Defined.

(** X24: every [process.exit] is explained on the console.  When [main]
    ends the process with a status, the status is 0 and the usage text
    is the one line that was printed; or it is 1 and the last line is
    the request for the URL of an existing research; or it is 1 and the
    last line is the error object of a stage that threw, printed right
    after the line with its message, with the attempt of a screenshot in
    between in the full flow. *)
Theorem every_exit_is_explained (w : World) (argv : list string)
    (st : State) (c : Z) (st' : State) :
  main w argv st = (Exit c, st') ->
  (c = 0 /\ log st' = (now st', EPrint ConsoleHelp) :: log st) \/
  (c = 1 /\ exists rest,
     log st' = (now st', EPrint (Log (Text
                  "❌ Forneça a URL de uma pesquisa Gemini existente."))) :: rest) \/
  (c = 1 /\ exists e rest,
     log st' = (now st', EPrint (ConsoleError e))
                 :: (now st', EPrint (Log (MError (err_message e)))) :: rest \/
     exists page,
       log st' = (now st', EPrint (ConsoleError e))
                   :: (now st', ECall (CScreenshot page "error.png"))
                   :: (now st', EPrint (Log (MError (err_message e)))) :: rest).
Proof.
  unfold main.
  destruct (take_option argv "--profile") as [profileArg args1].
  destruct (take_option args1 "--model") as [modelArg args2].
  intros H. unfold bind at 1 in H.
  destruct (negb (includes args2 "--login-only") && negb (includes args2 "--send-only")
            && negb (JsString.truthy _)).
  { left. cbv beta iota delta [bind console emit process_exit] in H.
    injection H as <- <-. split; reflexivity. }
  right. cbv beta iota delta [ret] in H.
  apply bind_exit_inv in H; [|unfold logBanner, log_; complete].
  destruct H as [[] [s1 [_ H]]].
  unfold bind at 1 in H.
  destruct (includes args2 "--login-only").
  { exfalso.
    match type of H with
    | context [bind (launchBrowser w ?p) ?k s1] =>
        pose proof (login_mode_outcome w p s1) as Hn;
        destruct (bind (launchBrowser w p) k s1) as [[[]|e|c0| |] s2]; cbn [fst] in Hn;
          try contradiction; discriminate
    end. }
  cbv beta iota delta [ret] in H.
  destruct (includes args2 "--send-only").
  - unfold bind at 1 in H.
    destruct (negb (JsString.truthy _) || negb (JsString.includes _ "gemini.google.com")).
    { left. unfold log_ in H. cbv beta iota delta [bind console emit process_exit] in H.
      injection H as <- <-. split; [reflexivity|]. eexists. reflexivity. }
    right. cbv beta iota delta [ret] in H.
    apply bind_exit_inv in H; [|apply completes_launchBrowser].
    destruct H as [page [s2 [_ H]]].
    apply try_finally_exit_inv in H; [|complete; intros ?; exact I].
    apply try_catch_exit_inv in H; [|apply completes_sendOnlyFlow].
    destruct H as [e [s3 [_ H]]].
    unfold log_ in H. cbv beta iota delta [bind console emit process_exit] in H.
    injection H as <- <-. split; [reflexivity|].
    exists e. eexists. left. reflexivity.
  - right.
    apply bind_exit_inv in H; [|apply completes_console].
    destruct H as [[] [s2 [_ H]]].
    apply bind_exit_inv in H; [|apply completes_console].
    destruct H as [[] [s3 [_ H]]].
    apply bind_exit_inv in H; [|apply completes_launchBrowser].
    destruct H as [page [s4 [_ H]]].
    apply try_finally_exit_inv in H; [|complete; intros ?; exact I].
    apply try_catch_exit_inv in H; [|apply completes_fullFlow].
    destruct H as [e [s5 [_ H]]].
    unfold log_, call in H.
    cbv beta iota delta [bind ret try_catch issue await throw console emit process_exit] in H.
    cbn [now log] in H.
    destruct (w (now s5) (CScreenshot page "error.png"));
      injection H as <- <-; (split; [reflexivity|]);
      exists e; eexists; right; exists page; reflexivity.
Qed.

(** A concrete run to which [every_exit_is_explained] applies. *)
Lemma every_exit_is_explained_witness :
  (1 = 0 /\
   log (snd (main Worlds.no_export_menu ["history of the printing press"] Worlds.st0))
     = (now (snd (main Worlds.no_export_menu ["history of the printing press"] Worlds.st0)),
        EPrint ConsoleHelp) :: log Worlds.st0) \/
  (1 = 1 /\ exists rest,
     log (snd (main Worlds.no_export_menu ["history of the printing press"] Worlds.st0))
       = (now (snd (main Worlds.no_export_menu ["history of the printing press"] Worlds.st0)),
          EPrint (Log (Text
            "❌ Forneça a URL de uma pesquisa Gemini existente."))) :: rest) \/
  (1 = 1 /\ exists e rest,
     log (snd (main Worlds.no_export_menu ["history of the printing press"] Worlds.st0))
       = (now (snd (main Worlds.no_export_menu ["history of the printing press"] Worlds.st0)),
          EPrint (ConsoleError e))
         :: (now (snd (main Worlds.no_export_menu ["history of the printing press"]
                         Worlds.st0)),
             EPrint (Log (MError (err_message e)))) :: rest \/
     exists page,
       log (snd (main Worlds.no_export_menu ["history of the printing press"] Worlds.st0))
         = (now (snd (main Worlds.no_export_menu ["history of the printing press"]
                        Worlds.st0)),
            EPrint (ConsoleError e))
           :: (now (snd (main Worlds.no_export_menu ["history of the printing press"]
                           Worlds.st0)),
               ECall (CScreenshot page "error.png"))
           :: (now (snd (main Worlds.no_export_menu ["history of the printing press"]
                           Worlds.st0)),
               EPrint (Log (MError (err_message e)))) :: rest).
Proof.
  apply (every_exit_is_explained Worlds.no_export_menu
           ["history of the printing press"] Worlds.st0 1).
  vm_compute. reflexivity.
Defined.
End SettlesClaims.

(** ** The order of the steps *)

Section Announces.
Import Js Drk Trace.
Variable w : World.

Lemma steps_of_app (l2 l1 : list (Z * Event)) :
  steps_of (l2 ++ l1) = (steps_of l1 ++ steps_of l2)%list.
Proof.
  induction l2 as [|e l2 IH]; cbn [app steps_of].
  - rewrite app_nil_r. reflexivity.
  - rewrite IH, <- app_assoc. reflexivity.
Qed.

Lemma steps_of_silent (l : list (Z * Event)) :
  forallb no_step l = true -> steps_of l = [].
Proof.
  induction l as [|e l IH]; intros H; [reflexivity|].
  cbn [forallb] in H. apply andb_prop in H. destruct H as [He Hl].
  cbn [steps_of]. rewrite (IH Hl). unfold no_step in He.
  destruct (snd e) as [[| | | | |]| |]; try reflexivity; discriminate.
Qed.

Lemma announces_silent {A} (m : M A) : emits no_step m -> announces [] m.
Proof.
  intros H st o st' Hrun. destruct (H _ _ _ Hrun) as [l [Hl Hp]].
  exists l. split; [exact Hl|]. rewrite (steps_of_silent l Hp).
  split; [exists []; reflexivity|]. destruct o; exact I || reflexivity.
Qed.

Lemma announces_logStep (s : Z) (msg : Msg) : announces [s] (logStep s msg).
Proof.
  intros st o st' H. unfold logStep, console, emit in H. injection H as <- <-.
  exists [(now st, EPrint (LogStep s msg))]. split; [reflexivity|].
  split; [exists []; reflexivity | reflexivity].
Qed.

Lemma announces_bind {A B} (L1 L2 : list Z) (m : M A) (k : A -> M B) :
  announces L1 m -> (forall a, announces L2 (k a)) ->
  announces (L1 ++ L2) (bind m k).
Proof.
  intros Hm Hk st o st' H. unfold bind in H.
  destruct (m st) as [[a|e|c| |] s1] eqn:Hrun;
    destruct (Hm _ _ _ Hrun) as [l1 [Hl1 [[later1 Hp1] Hr1]]].
  - destruct (Hk a _ _ _ H) as [l2 [Hl2 [[later2 Hp2] Hr2]]].
    exists (l2 ++ l1)%list. split; [rewrite Hl2, Hl1; apply app_assoc|].
    rewrite steps_of_app, Hr1. split.
    + exists later2. rewrite Hp2, <- app_assoc. reflexivity.
    + destruct o; try exact I. rewrite Hr2. reflexivity.
  - injection H as <- <-. exists l1. split; [exact Hl1|].
    split; [|exact I]. exists (later1 ++ L2)%list. rewrite Hp1, <- app_assoc. reflexivity.
  - injection H as <- <-. exists l1. split; [exact Hl1|].
    split; [|exact I]. exists (later1 ++ L2)%list. rewrite Hp1, <- app_assoc. reflexivity.
  - injection H as <- <-. exists l1. split; [exact Hl1|].
    split; [|exact I]. exists (later1 ++ L2)%list. rewrite Hp1, <- app_assoc. reflexivity.
  - injection H as <- <-. exists l1. split; [exact Hl1|].
    split; [|exact I]. exists (later1 ++ L2)%list. rewrite Hp1, <- app_assoc. reflexivity.
Qed.

(** A silent part before, or after, leaves the steps as they are. *)
Lemma announces_after_silent {A B} (L : list Z) (m : M A) (k : A -> M B) :
  emits no_step m -> (forall a, announces L (k a)) -> announces L (bind m k).
Proof.
  intros Hm Hk. change L with ([] ++ L)%list.
  apply announces_bind; [apply announces_silent; exact Hm | exact Hk].
Qed.

Lemma announces_then_silent {A B} (L : list Z) (m : M A) (k : A -> M B) :
  announces L m -> (forall a, emits no_step (k a)) -> announces L (bind m k).
Proof.
  intros Hm Hk. rewrite <- (app_nil_r L).
  apply announces_bind; [exact Hm | intros a; apply announces_silent; apply Hk].
Qed.

(** A part that never returns ends the announcements. *)
Lemma announces_no_return {A B} (L : list Z) (m : M A) (k : A -> M B) :
  announces L m ->
  (forall st, match fst (m st) with Ret _ => False | _ => True end) ->
  announces L (bind m k).
Proof.
  intros Hm Hn st o st' H. unfold bind in H. specialize (Hn st).
  destruct (m st) as [[a|e|c| |] s1] eqn:Hrun; cbn [fst] in Hn; try contradiction;
    injection H as <- <-;
    destruct (Hm _ _ _ Hrun) as [l1 [Hl1 [Hp1 _]]];
    exists l1; (split; [exact Hl1|]); (split; [exact Hp1 | exact I]).
Qed.

(** The [catch] blocks of [main] announce nothing and end the
    process. *)
Lemma announces_try_catch_exit {A} (L : list Z) (m : M A) (h : JsError -> M A) :
  announces L m ->
  (forall e, emits no_step (h e)) ->
  (forall e s, match fst (h e s) with Ret _ => False | _ => True end) ->
  announces L (try_catch m h).
Proof.
  intros Hm Hh Hn st o st' H. unfold try_catch in H.
  destruct (m st) as [[a|e|c| |] s1] eqn:Hrun;
    destruct (Hm _ _ _ Hrun) as [l1 [Hl1 [[later1 Hp1] Hr1]]];
    try (injection H as <- <-; exists l1; split; [exact Hl1|];
         split; [exists later1; exact Hp1 | exact Hr1]).
  destruct (Hh e _ _ _ H) as [l2 [Hl2 Hs2]].
  specialize (Hn e s1). rewrite H in Hn. cbn [fst] in Hn.
  exists (l2 ++ l1)%list. split; [rewrite Hl2, Hl1; apply app_assoc|].
  rewrite steps_of_app, (steps_of_silent l2 Hs2), app_nil_r.
  split; [exists later1; exact Hp1|]. destruct o; try exact I. contradiction.
Qed.

Lemma announces_try_finally {A} (L : list Z) (m : M A) (f : M unit) :
  announces L m -> emits no_step f -> announces L (try_finally m f).
Proof.
  intros Hm Hf st o st' H. unfold try_finally in H.
  destruct (m st) as [[a|e|c| |] s1] eqn:Hrun;
    destruct (Hm _ _ _ Hrun) as [l1 [Hl1 [[later1 Hp1] Hr1]]];
    try (injection H as <- <-; exists l1; split; [exact Hl1|];
         split; [exists later1; exact Hp1 | exact I]).
  - unfold bind, ret in H.
    destruct (f s1) as [[[]|e|c| |] s2] eqn:Hfrun;
      destruct (Hf _ _ _ Hfrun) as [l2 [Hl2 Hs2]];
      injection H as <- <-;
      exists (l2 ++ l1)%list; (split; [rewrite Hl2, Hl1; apply app_assoc|]);
      rewrite steps_of_app, (steps_of_silent l2 Hs2), app_nil_r;
      (split; [exists later1; exact Hp1 | exact I || exact Hr1]).
  - unfold bind, throw in H.
    destruct (f s1) as [[[]|e'|c| |] s2] eqn:Hfrun;
      destruct (Hf _ _ _ Hfrun) as [l2 [Hl2 Hs2]];
      injection H as <- <-;
      exists (l2 ++ l1)%list; (split; [rewrite Hl2, Hl1; apply app_assoc|]);
      rewrite steps_of_app, (steps_of_silent l2 Hs2), app_nil_r;
      (split; [exists later1; exact Hp1 | exact I]).
Qed.

(** Each stage announces its own step, first thing, and nothing
    else. *)
Lemma announces_launchBrowser (profilePath : option string) :
  announces [1] (launchBrowser w profilePath).
Proof.
  unfold launchBrowser. cbv zeta.
  apply announces_then_silent; [apply announces_logStep|].
  intros _. unfold logSub. emits_all.
Qed.

Lemma announces_navigateToGemini (page : PageRef) (url : string) :
  announces [2] (navigateToGemini w page url).
Proof.
  unfold navigateToGemini.
  apply announces_then_silent; [apply announces_logStep|].
  intros _. unfold waitForTimeout, logSub. emits_all.
Qed.

Lemma announces_selectModel (page : PageRef) (model : Models.JsVal) :
  announces [3] (selectModel w page model).
Proof.
  unfold selectModel.
  apply announces_then_silent; [apply announces_logStep|].
  intros _. unfold waitForTimeout, logSub. emits_all.
Qed.

Lemma silent_enableDeepResearch (page : PageRef) :
  emits no_step (enableDeepResearch w page).
Proof. unfold enableDeepResearch, waitForTimeout, logSub. emits_all. Qed.

Lemma announces_submitQuery (page : PageRef) (query : string) :
  announces [4] (submitQuery w page query).
Proof.
  unfold submitQuery.
  apply announces_then_silent; [apply announces_logStep|].
  intros _. unfold waitForTimeout, logSub. emits_all.
Qed.

Lemma silent_confirmResearchStart (page : PageRef) :
  emits no_step (confirmResearchStart w page).
Proof.
  unfold confirmResearchStart, confirm_iteration, confirm_attempt, confirm_try_label,
    waitForTimeout, logSub.
  emits_all.
Qed.

Lemma silent_pollForCompletion (page : PageRef) :
  emits no_step (pollForCompletion w page).
Proof.
  unfold pollForCompletion, phase1, phase2, phase1_iteration, phase2_iteration,
    readChip, readReportLength, logSub.
  emits_all.
Qed.

Lemma announces_exportToGoogleDocs (page : PageRef) :
  announces [5] (exportToGoogleDocs w page).
Proof.
  unfold exportToGoogleDocs.
  apply announces_then_silent; [apply announces_logStep|].
  intros _. unfold export_iteration, export_scan_page, waitForTimeout, logSub. emits_all.
Qed.

Lemma announces_downloadEpubFromDocs (docsPage : PageRef) :
  announces [6] (downloadEpubFromDocs w docsPage).
Proof.
  unfold downloadEpubFromDocs.
  apply announces_then_silent; [apply announces_logStep|].
  intros _. unfold openDownloadMenu, download_try_selector, waitForTimeout, logSub.
  emits_all.
Qed.

Lemma announces_sendToKindle (page : PageRef) (epubPath : string) :
  announces [7] (sendToKindle w page epubPath).
Proof.
  unfold sendToKindle.
  apply announces_then_silent; [apply announces_logStep|].
  intros _. unfold waitForTimeout, logSub. emits_all.
Qed.

Lemma announces_fullFlow (page : PageRef) (model : Models.JsVal) (query : string)
    (skipKindle : bool) :
  announces [2; 3; 4; 5; 6; 7] (fullFlow w page model query skipKindle).
Proof.
  unfold fullFlow.
  apply (announces_bind [2] [3; 4; 5; 6; 7]); [apply announces_navigateToGemini|].
  intros _.
  apply (announces_bind [3] [4; 5; 6; 7]); [apply announces_selectModel|]. intros _.
  apply announces_after_silent; [apply silent_enableDeepResearch|]. intros _.
  apply (announces_bind [4] [5; 6; 7]); [apply announces_submitQuery|]. intros _.
  apply announces_after_silent; [apply silent_confirmResearchStart|]. intros _.
  apply announces_after_silent; [apply silent_pollForCompletion|]. intros _.
  apply (announces_bind [5] [6; 7]); [apply announces_exportToGoogleDocs|].
  intros docsPage.
  apply (announces_bind [6] [7]); [apply announces_downloadEpubFromDocs|].
  intros epubPath.
  apply announces_after_silent; [emits_all|]. intros _.
  apply announces_then_silent.
  - destruct (negb skipKindle); [apply announces_sendToKindle | apply announces_logStep].
  - intros _. unfold log_. emits_all.
Qed.

Lemma announces_sendOnlyFlow (page : PageRef) (geminiUrl : string) (skipKindle : bool) :
  announces (if skipKindle then [2; 5; 6] else [2; 5; 6; 7])
    (sendOnlyFlow w page geminiUrl skipKindle).
Proof.
  unfold sendOnlyFlow.
  replace (if skipKindle then [2; 5; 6] else [2; 5; 6; 7])
    with ([2] ++ [5] ++ [6] ++ (if skipKindle then [] else [7]))%list
    by (destruct skipKindle; reflexivity).
  apply announces_bind; [apply announces_logStep|]. intros _.
  do 4 (apply announces_after_silent;
        [unfold waitForTimeout, logSub; emits_all | intros ?]).
  apply announces_bind; [apply announces_exportToGoogleDocs|]. intros docsPage.
  apply announces_bind; [apply announces_downloadEpubFromDocs|]. intros epubPath.
  apply announces_after_silent; [emits_all|]. intros _.
  apply announces_then_silent.
  - destruct skipKindle; cbn [negb];
      [apply announces_silent; unfold log_; emits_all | apply announces_sendToKindle].
  - intros _. unfold log_. emits_all.
Qed.
End Announces.

Section AnnouncesClaims.
Import Js Drk Trace CommandLine.

(** X25: the steps are announced in order.  In every run of [main], in
    every world and however the run ends, the numbered steps announced
    on the console are the first so many of the steps of the mode, in
    their order and each once: 1, 2, 3, 4, 5, 6, 7 for the full flow;
    1, 2, 5, 6, 7 for the send-only mode, without the 7 under
    [--no-kindle]; 1, 2 for the login mode.  A run that returns has
    announced all the steps of its mode. *)
Theorem steps_are_announced_in_order (w : World) (argv : list string)
    (st : State) (o : Outcome unit) (st' : State) :
  main w argv st = (o, st') ->
  exists l,
    log st' = (l ++ log st)%list /\
    (exists later, expected_steps argv = (steps_of l ++ later)%list) /\
    (o = Ret tt -> steps_of l = expected_steps argv).
Proof.
  assert (H : announces (expected_steps argv) (main w argv)).
  { unfold expected_steps, remaining_args, main.
    destruct (take_option argv "--profile") as [profileArg args1]. cbn [snd].
    destruct (take_option args1 "--model") as [modelArg args2]. cbn [snd].
    apply announces_after_silent.
    { unfold log_. emits_all. }
    intros _. apply announces_after_silent.
    { unfold logBanner, log_. emits_all. }
    intros _.
    destruct (includes args2 "--login-only").
    - apply announces_no_return.
      + apply (announces_bind [1] [2]); [apply announces_launchBrowser|]. intros page.
        do 4 (apply announces_after_silent; [unfold log_, logSub; emits_all | intros ?]).
        apply announces_then_silent; [apply announces_navigateToGemini|].
        intros _. emits_all.
      + intros s.
        pose proof (login_mode_outcome w (option_map (path_resolve ".") profileArg) s)
          as Hn.
        match goal with
        | |- match fst ?r with _ => _ end =>
            destruct (fst r); try contradiction; exact I
        end.
    - apply announces_after_silent; [emits_all|]. intros _.
      destruct (includes args2 "--send-only").
      + apply announces_after_silent.
        { unfold log_. emits_all. }
        intros _.
        replace (if includes args2 "--no-kindle" then [1; 2; 5; 6] else [1; 2; 5; 6; 7])
          with ([1] ++ (if includes args2 "--no-kindle" then [2; 5; 6] else [2; 5; 6; 7]))%list
          by (destruct (includes args2 "--no-kindle"); reflexivity).
        apply announces_bind; [apply announces_launchBrowser|]. intros page.
        apply announces_try_finally; [|emits_all].
        apply announces_try_catch_exit; [apply announces_sendOnlyFlow| |].
        * intros e. unfold log_. emits_all.
        * intros e s. exact I.
      + apply announces_after_silent; [unfold log_; emits_all|]. intros _.
        apply announces_after_silent; [emits_all|]. intros _.
        apply (announces_bind [1] [2; 3; 4; 5; 6; 7]); [apply announces_launchBrowser|].
        intros page.
        apply announces_try_finally; [|emits_all].
        apply announces_try_catch_exit; [apply announces_fullFlow| |].
        * intros e. unfold log_. emits_all.
        * intros e s. unfold log_, console, call.
          cbv beta iota delta [bind ret try_catch issue await throw emit process_exit].
          cbn [now log]. destruct (w (now s) (CScreenshot page "error.png")); exact I. }
  intros Hrun. destruct (H _ _ _ Hrun) as [l [Hl [Hp Hr]]].
  exists l. split; [exact Hl|]. split; [exact Hp|].
  intros ->. exact Hr.
Qed.

(** A concrete run to which [steps_are_announced_in_order] applies. *)
Lemma steps_are_announced_in_order_witness :
  exists l,
    log (snd (main Worlds.no_export_menu ["history of the printing press"] Worlds.st0))
      = (l ++ log Worlds.st0)%list /\
    (exists later,
       expected_steps ["history of the printing press"] = (steps_of l ++ later)%list) /\
    (fst (main Worlds.no_export_menu ["history of the printing press"] Worlds.st0) = Ret tt ->
     steps_of l = expected_steps ["history of the printing press"]).
Proof.
  apply (steps_are_announced_in_order Worlds.no_export_menu
           ["history of the printing press"] Worlds.st0).
  apply surjective_pairing.
Defined.
End AnnouncesClaims.
